(** * Kernel channel engine of jupyter-js-services

    A shallow embedding of [src/kernel.ts] (the [Kernel] engine, the
    [KernelSocket] and the [Comm] channel), of [loadObject] from
    [src/utils.ts] and of the session shutdown paths, with the
    properties the specification states about them.

    Conventions of the embedding.
    - Objects that are shared by reference (kernel sockets, promises)
      live in a store inside [World]; a method takes the reference of
      its receiver.  The engine under study is the field [engine].
    - A method is a computation [M A]: it reads and updates the world,
      appends the effects an observer can see ([Event]) to a trace and
      either completes normally or throws; a throw keeps the updates
      made before it, as in JavaScript.
    - A field of a JSON payload that is absent reads as [undefined];
      where the source only tests such a field for truthiness or
      switches on it, the empty string stands for [undefined]. *)

From Stdlib Require QArith Qround.
From stdpp Require Import gmap strings list fin_maps pretty.
Open Scope string_scope.
Open Scope list_scope.

(** ** Errors and completions *)

Inductive JsError :=
| Error (message : string)          (* new Error(message) *)
| TypeError (message : string)      (* raised by the runtime *)
| DOMException (message : string)   (* raised by WebSocket.send *)
| Raised (by_callback : string).    (* raised by a user callback *)

Inductive Completion (A : Type) :=
| Normal (a : A)
| Throw (e : JsError).
Arguments Normal {A} a.
Arguments Throw {A} e.

(** ** Messages (ikernel.ts declares the types; kernel.ts builds them) *)

Inductive KernelStatus :=
| Unknown | Starting | Reconnecting | Idle | Busy | Restarting | Dead.

Global Instance KernelStatus_eq_dec : EqDecision KernelStatus.
Proof. solve_decision. Defined.

Record IKernelMessageHeader := {
  username : string;
  version : string;
  session : string;
  msg_id : string;
  msg_type : string
}.

(** [parent_header] is [{}] on a request, a header on a reply. *)
Record ParentHeader := { parent_msg_id : option string }.

Record Content := {
  execution_state : string;
  comm_id : string;
  target_name : string;
  target_module : string;
  data : string
}.

Record IKernelMessage := {
  header : IKernelMessageHeader;
  parent_header : option ParentHeader;
  channel : string;
  content : Content;
  metadata : string;
  buffers : list string
}.

Record IKernelMessageOptions := {
  msgType : string;
  opt_channel : string;
  opt_username : string;
  opt_session : string;
  msgId : string
}.

Record IKernelOptions := {
  opt_baseUrl : string;
  opt_wsUrl : string;
  opt_name : string;
  options_username : string;
  options_clientId : string
}.

(** ** User callbacks

    A callback is known by its name; running it is an event of the
    trace, and it may throw. *)

Record Callback := { cb_name : string; cb_throws : bool }.

(** A comm target [(comm, msg) => ...]: what it installs on the comm it
    is given, and whether it throws. *)
Record Target := {
  target_id : string;
  installs_onMsg : option Callback;
  installs_onClose : option Callback;
  target_throws : bool
}.

(** ** The host: libraries and environment the source calls into *)

Record WebSocket := {
  ws_url : string;
  ws_faults : list bool   (* outcome of the coming send calls: true throws *)
}.

Record Host := {
  (* validate.validateKernelMessage: [Some m] when it throws Error(m) *)
  validateKernelMessage : IKernelMessage -> option string;
  (* serialize.serialize *)
  serialize : IKernelMessage -> string;
  (* utils.uuid, by order of call *)
  uuid : nat -> string;
  (* the global requirejs, when defined: the modules it can load *)
  requirejs : option (gmap string (gmap string Target));
  urlPathJoin : list string -> string;
  urlJoinEncode : list string -> string;
  getBaseUrl : string;
  getWsUrl : string -> string;
  (* new WebSocket(url) *)
  newWebSocket : string -> WebSocket
}.

(** ** Observable effects *)

Inductive Signal := StatusChanged | IOPubReceived | UnhandledMessage.

Inductive SignalArg := ArgStatus (s : KernelStatus) | ArgMsg (m : IKernelMessage).

Inductive FutureSlot := OnReply | OnIOPub | OnStdin | OnDone.

Inductive Event :=
| EvConsole (level : string) (text : string)
| EvEmit (sig : Signal) (arg : SignalArg) (receivers : list string)
| EvFutureMsg (future : string) (m : IKernelMessage)   (* future.handleMsg(m) *)
| EvFutureSlot (future : string) (slot : FutureSlot)
| EvWsNew (url : string)
| EvWsSend (payload : string)
| EvWsClose (url : string)
| EvSetTimeout (ms : nat)                               (* _createSocket, later *)
| EvTarget (target : string) (comm : string) (m : IKernelMessage)
| EvCommOnMsg (cb : string) (m : IKernelMessage)
| EvCommOnClose (cb : string) (m : IKernelMessage)
| EvAjax (method : string) (url : string)
| EvNewKernel (socket : nat).

(** ** Objects *)

Record KernelSocket := {
  _wsUrl : string;
  _id : string;
  _name : string;
  _ws : option WebSocket;
  _reconnectLimit : nat;
  _reconnectAttempt : nat;
  _isReady : bool;
  _pendingMessages : list IKernelMessage
}.

(** The dispose callback a [Comm] is built with (a DisposableDelegate
    runs it once): [connectToComm] passes
    [() => this._unregisterComm(comm.commId)], [_handleCommOpen] passes
    [() => this._unregisterComm(content.comm_id)]. *)
Inductive CommDisposeCb :=
| UnregisterOwnId
| UnregisterId (id : string).

Record Comm := {
  c_target : string;
  c_id : option string;
  c_onClose : option Callback;
  c_onMsg : option Callback;
  c_msgFunc : bool;                      (* false once set to null *)
  c_callback : option CommDisposeCb      (* None once it has run *)
}.

(** Modelled from the spec: KernelFutureHandler (kernelfuture.ts) is not
    among the sources.  The record holds what section 3 lists for a
    Future; [f_onReply] is the promise that the [onReply] installed by
    [Private.sendKernelMessage] resolves. *)
Record KernelFutureHandler := {
  f_msg : IKernelMessage;
  f_expectReply : bool;
  f_disposeOnDone : bool;
  f_replyReceived : bool;
  f_idleReceived : bool;
  f_done : bool;
  f_onReply : option nat
}.

Definition f_msgId (f : KernelFutureHandler) : string := msg_id (header (f_msg f)).

Inductive PromiseValue :=
| OfContent (c : Content)
| OfSpec (spec : string)
| OfUndefined.

Inductive Settlement :=
| Pending
| Fulfilled (value : PromiseValue)
| Rejected (e : JsError).

(** How [utils.loadObject] stands when its executor returns. *)
Inductive LoadState :=
| Loaded (target : Target)
| LoadFailed (e : JsError)
| Loading (moduleName : string) (name : string).

Inductive Reaction :=
| ThenCommMsg (m : IKernelMessage)      (* chained by _handleCommMsg *)
| ThenCommClose (m : IKernelMessage).   (* chained by _handleCommClose *)

Inductive OpenState :=
| OpenPending
| OpenFulfilled (comm : Comm)
| OpenRejected (e : JsError).

(** The promise [_handleCommOpen] stores in [_commPromises]:
    [loadObject(...).then(target => ...)], with the callbacks chained
    onto it since. *)
Record CommOpening := {
  co_content : Content;
  co_msg : IKernelMessage;
  co_load : LoadState;
  co_state : OpenState;
  co_waiters : list Reaction
}.

Record Kernel := {
  _status : KernelStatus;
  _baseUrl : string;
  _clientId : string;
  _username : string;
  _socket : option nat;
  _futures : option (gmap string KernelFutureHandler);
  _commPromises : option (gmap string nat);
  _comms : option (gmap string Comm);
  _targetRegistry : option (gmap string Target);
  _spec : option string;
  (* connections of the three signals of this sender *)
  slots : list (Signal * string)
}.

(** A job of the host's queue: a callback chained on a promise that
    already holds its comm, as [Promise.resolve(comm).then(...)] in
    [_handleCommClose]. *)
Inductive Job :=
| JobReaction (r : Reaction) (comm : Comm).

Record World := {
  engine : Kernel;
  sockets : gmap nat KernelSocket;
  runningKernels : gmap string nat;
  promises : gmap nat Settlement;
  openings : gmap nat CommOpening;
  jobs : list Job;
  clock : nat
}.

(** ** The computation monad *)

Record Run (A : Type) := MkRun {
  completion : Completion A;
  world : World;
  trace : list Event
}.
Arguments MkRun {A} completion world trace.
Arguments completion {A} r.
Arguments world {A} r.
Arguments trace {A} r.

Definition M (A : Type) : Type := World -> Run A.

Definition ret {A} (a : A) : M A := fun w => MkRun (Normal a) w [].

Definition throw {A} (e : JsError) : M A := fun w => MkRun (Throw e) w [].

Definition bind {A B} (m : M A) (f : A -> M B) : M B := fun w =>
  match m w with
  | MkRun (Normal a) w1 t1 =>
      match f a w1 with
      | MkRun c w2 t2 => MkRun c w2 (t1 ++ t2)
      end
  | MkRun (Throw e) w1 t1 => MkRun (Throw e) w1 t1
  end.

Notation "'let!' x ':=' c1 'in' c2" := (bind c1 (fun x => c2))
  (at level 10, x pattern, c1 at level 100, c2 at level 200).
Notation "c1 >>> c2" := (bind c1 (fun _ => c2))
  (at level 80, right associativity).

(** try { m } catch (e) { handler e } *)
Definition try_catch {A} (m : M A) (handler : JsError -> M A) : M A := fun w =>
  match m w with
  | MkRun (Normal a) w1 t1 => MkRun (Normal a) w1 t1
  | MkRun (Throw e) w1 t1 =>
      match handler e w1 with
      | MkRun c w2 t2 => MkRun c w2 (t1 ++ t2)
      end
  end.

Definition event (e : Event) : M unit := fun w => MkRun (Normal tt) w [e].

Definition get : M World := fun w => MkRun (Normal w) w [].

Definition modify (f : World -> World) : M unit := fun w => MkRun (Normal tt) (f w) [].

Definition when (b : bool) (m : M unit) : M unit := if b then m else ret tt.

(** ** Field updates *)

Definition with_engine (f : Kernel -> Kernel) (w : World) : World :=
  {| engine := f (engine w); sockets := sockets w;
     runningKernels := runningKernels w; promises := promises w;
     openings := openings w; jobs := jobs w; clock := clock w |}.

Definition with_sockets (f : gmap nat KernelSocket -> gmap nat KernelSocket) (w : World) : World :=
  {| engine := engine w; sockets := f (sockets w);
     runningKernels := runningKernels w; promises := promises w;
     openings := openings w; jobs := jobs w; clock := clock w |}.

Definition with_runningKernels (f : gmap string nat -> gmap string nat) (w : World) : World :=
  {| engine := engine w; sockets := sockets w;
     runningKernels := f (runningKernels w); promises := promises w;
     openings := openings w; jobs := jobs w; clock := clock w |}.

Definition with_promises (f : gmap nat Settlement -> gmap nat Settlement) (w : World) : World :=
  {| engine := engine w; sockets := sockets w;
     runningKernels := runningKernels w; promises := f (promises w);
     openings := openings w; jobs := jobs w; clock := clock w |}.

Definition with_openings (f : gmap nat CommOpening -> gmap nat CommOpening) (w : World) : World :=
  {| engine := engine w; sockets := sockets w;
     runningKernels := runningKernels w; promises := promises w;
     openings := f (openings w); jobs := jobs w; clock := clock w |}.

Definition with_jobs (f : list Job -> list Job) (w : World) : World :=
  {| engine := engine w; sockets := sockets w;
     runningKernels := runningKernels w; promises := promises w;
     openings := openings w; jobs := f (jobs w); clock := clock w |}.

Definition tick (w : World) : World :=
  {| engine := engine w; sockets := sockets w;
     runningKernels := runningKernels w; promises := promises w;
     openings := openings w; jobs := jobs w; clock := S (clock w) |}.

(** A fresh reference, promise id or uuid index. *)
Definition fresh : M nat := fun w => MkRun (Normal (clock w)) (tick w) [].

Definition set_status (s : KernelStatus) (k : Kernel) : Kernel :=
  {| _status := s; _baseUrl := _baseUrl k; _clientId := _clientId k;
     _username := _username k; _socket := _socket k; _futures := _futures k;
     _commPromises := _commPromises k; _comms := _comms k;
     _targetRegistry := _targetRegistry k; _spec := _spec k; slots := slots k |}.

Definition set_futures (x : option (gmap string KernelFutureHandler)) (k : Kernel) : Kernel :=
  {| _status := _status k; _baseUrl := _baseUrl k; _clientId := _clientId k;
     _username := _username k; _socket := _socket k; _futures := x;
     _commPromises := _commPromises k; _comms := _comms k;
     _targetRegistry := _targetRegistry k; _spec := _spec k; slots := slots k |}.

Definition set_commPromises (x : option (gmap string nat)) (k : Kernel) : Kernel :=
  {| _status := _status k; _baseUrl := _baseUrl k; _clientId := _clientId k;
     _username := _username k; _socket := _socket k; _futures := _futures k;
     _commPromises := x; _comms := _comms k;
     _targetRegistry := _targetRegistry k; _spec := _spec k; slots := slots k |}.

Definition set_comms (x : option (gmap string Comm)) (k : Kernel) : Kernel :=
  {| _status := _status k; _baseUrl := _baseUrl k; _clientId := _clientId k;
     _username := _username k; _socket := _socket k; _futures := _futures k;
     _commPromises := _commPromises k; _comms := x;
     _targetRegistry := _targetRegistry k; _spec := _spec k; slots := slots k |}.

Definition set_targetRegistry (x : option (gmap string Target)) (k : Kernel) : Kernel :=
  {| _status := _status k; _baseUrl := _baseUrl k; _clientId := _clientId k;
     _username := _username k; _socket := _socket k; _futures := _futures k;
     _commPromises := _commPromises k; _comms := _comms k;
     _targetRegistry := x; _spec := _spec k; slots := slots k |}.

Definition set_slots (x : list (Signal * string)) (k : Kernel) : Kernel :=
  {| _status := _status k; _baseUrl := _baseUrl k; _clientId := _clientId k;
     _username := _username k; _socket := _socket k; _futures := _futures k;
     _commPromises := _commPromises k; _comms := _comms k;
     _targetRegistry := _targetRegistry k; _spec := _spec k; slots := x |}.

Definition set_ws (x : option WebSocket) (s : KernelSocket) : KernelSocket :=
  {| _wsUrl := _wsUrl s; _id := _id s; _name := _name s; _ws := x;
     _reconnectLimit := _reconnectLimit s;
     _reconnectAttempt := _reconnectAttempt s; _isReady := _isReady s;
     _pendingMessages := _pendingMessages s |}.

Definition set_reconnectAttempt (x : nat) (s : KernelSocket) : KernelSocket :=
  {| _wsUrl := _wsUrl s; _id := _id s; _name := _name s; _ws := _ws s;
     _reconnectLimit := _reconnectLimit s;
     _reconnectAttempt := x; _isReady := _isReady s;
     _pendingMessages := _pendingMessages s |}.

Definition set_isReady (x : bool) (s : KernelSocket) : KernelSocket :=
  {| _wsUrl := _wsUrl s; _id := _id s; _name := _name s; _ws := _ws s;
     _reconnectLimit := _reconnectLimit s;
     _reconnectAttempt := _reconnectAttempt s; _isReady := x;
     _pendingMessages := _pendingMessages s |}.

Definition set_pendingMessages (x : list IKernelMessage) (s : KernelSocket) : KernelSocket :=
  {| _wsUrl := _wsUrl s; _id := _id s; _name := _name s; _ws := _ws s;
     _reconnectLimit := _reconnectLimit s;
     _reconnectAttempt := _reconnectAttempt s; _isReady := _isReady s;
     _pendingMessages := x |}.

(** ** KernelSocket (kernel.ts) *)

Definition null_member (member : string) : JsError :=
  TypeError ("Cannot read property '" +:+ member +:+ "' of null").

(** Reading the fields of the socket [this]. *)
Definition the_socket (this : nat) : M KernelSocket := fun w =>
  match sockets w !! this with
  | Some s => MkRun (Normal s) w []
  | None => MkRun (Throw (null_member "socket")) w []
  end.

Definition update_socket (this : nat) (f : KernelSocket -> KernelSocket) : M unit :=
  modify (with_sockets (fun m => alter f this m)).

(** [ws.send(payload)]: the socket's script says whether the call
    throws; a payload that is accepted goes on the wire. *)
Definition WebSocket_send (ws : WebSocket) (payload : string)
  : Completion unit * WebSocket * list Event :=
  match ws_faults ws with
  | true :: rest =>
      (Throw (DOMException "InvalidStateError"),
       {| ws_url := ws_url ws; ws_faults := rest |}, [])
  | false :: rest =>
      (Normal tt, {| ws_url := ws_url ws; ws_faults := rest |}, [EvWsSend payload])
  | [] => (Normal tt, ws, [EvWsSend payload])
  end.

(** [this._ws.send(payload)] *)
Definition ws_send (this : nat) (payload : string) : M unit := fun w =>
  match sockets w !! this with
  | None => MkRun (Throw (null_member "socket")) w []
  | Some s =>
      match _ws s with
      | None => MkRun (Throw (null_member "send")) w []
      | Some ws =>
          match WebSocket_send ws payload with
          | (c, ws', t) =>
              MkRun c (with_sockets (fun m => <[this := set_ws (Some ws') s]> m) w) t
          end
      end
  end.

(** get isDisposed *)
Definition KernelSocket_isDisposed (s : KernelSocket) : bool :=
  match _ws s with None => true | Some _ => false end.

(** send(msg) *)
Definition KernelSocket_send (h : Host) (this : nat) (msg : IKernelMessage) : M unit :=
  let! s := the_socket this in
  if negb (_isReady s) then
    update_socket this (fun s => set_pendingMessages (_pendingMessages s ++ [msg]) s)
  else
    ws_send this (serialize h msg).

(** dispose() *)
Definition KernelSocket_dispose (this : nat) : M unit :=
  let! s := the_socket this in
  match _ws s with
  | None => ret tt
  | Some ws =>
      modify (with_runningKernels (fun m => delete (_wsUrl s) m)) >>>
      (* this._ws !== null holds here *)
      event (EvWsClose (ws_url ws)) >>>
      update_socket this (set_ws None)
      (* clearSignalData(this): the socket has no connection in this model *)
  end.

(** _createSocket(); [this._clientId] is not a member of the socket and
    reads as undefined. *)
Definition KernelSocket__createSocket (h : Host) (this : nat) : M unit :=
  let! s := the_socket this in
  let partialUrl :=
    urlPathJoin h [_wsUrl s; "api/kernels"; urlJoinEncode h [_id s]] in
  event (EvConsole "log" ("Starting WebSocket: " +:+ partialUrl)) >>>
  let url := urlPathJoin h [partialUrl; "channels"] +:+ "?session_id=" +:+ "undefined" in
  event (EvWsNew url) >>>
  update_socket this (set_ws (Some (newWebSocket h url))).

(** constructor(options, id) *)
Definition KernelSocket_new (h : Host) (options : IKernelOptions) (id : string) : M nat :=
  let! this := fresh in
  let baseUrl := if String.eqb (opt_baseUrl options) "" then getBaseUrl h else opt_baseUrl options in
  let wsUrl := if String.eqb (opt_wsUrl options) "" then getWsUrl h baseUrl else opt_wsUrl options in
  modify (with_sockets (fun m =>
    <[this := {| _wsUrl := wsUrl; _id := id; _name := opt_name options;
                 _ws := None; _reconnectLimit := 7; _reconnectAttempt := 0;
                 _isReady := false; _pendingMessages := [] |}]> m)) >>>
  modify (with_runningKernels (fun m => <[id := this]> m)) >>>
  KernelSocket__createSocket h this >>>
  ret this.

(** The loop of _sendPending: the head of the queue is serialized and
    sent, and shifted off once the send has returned. *)
Fixpoint sendPending_loop (h : Host) (this : nat) (queue : list IKernelMessage) : M unit :=
  match queue with
  | [] => ret tt
  | msg :: rest =>
      ws_send this (serialize h msg) >>>
      update_socket this (set_pendingMessages rest) >>>
      sendPending_loop h this rest
  end.

(** _sendPending() *)
Definition KernelSocket__sendPending (h : Host) (this : nat) : M unit :=
  let! s := the_socket this in
  sendPending_loop h this (_pendingMessages s).

(** _onWSOpen(evt) *)
Definition KernelSocket__onWSOpen (h : Host) (this : nat) : M unit :=
  update_socket this (set_reconnectAttempt 0) >>>
  update_socket this (set_isReady false) >>>
  KernelSocket__sendPending h this.

(** ** Signals (phosphor-signaling) *)

Global Instance Signal_eq_dec : EqDecision Signal.
Proof. solve_decision. Defined.

Definition the_engine : M Kernel := fun w => MkRun (Normal (engine w)) w [].

Definition update_engine (f : Kernel -> Kernel) : M unit := modify (with_engine f).

Definition receivers (sig : Signal) (l : list (Signal * string)) : list string :=
  (filter (fun p => p.1 = sig) l).*2.

(** [signal.emit(arg)]: the slots connected at that moment receive it. *)
Definition emit (sig : Signal) (arg : SignalArg) : M unit :=
  let! k := the_engine in
  event (EvEmit sig arg (receivers sig (slots k))).

(** clearSignalData(this) *)
Definition clearSignalData : M unit := update_engine (set_slots []).

(** Calling a user callback. *)
Definition call (ev : string -> IKernelMessage -> Event) (cb : Callback) (m : IKernelMessage) : M unit :=
  event (ev (cb_name cb) m) >>>
  if cb_throws cb then throw (Raised (cb_name cb)) else ret tt.

(** The settlement of a promise callback: a throw inside rejects the
    derived promise and goes no further. *)
Definition attempt {A} (m : M A) : M (Completion A) := fun w =>
  match m w with
  | MkRun c w1 t1 => MkRun (Normal c) w1 t1
  end.

(** [map.forEach(body)]: the entries are visited in turn; [body] looks
    the key up again, an entry deleted before its turn is not visited. *)
Fixpoint forEach {V} (body : string -> V -> M unit) (entries : list (string * V)) : M unit :=
  match entries with
  | [] => ret tt
  | (key, v) :: rest => body key v >>> forEach body rest
  end.

(** ** Futures *)

Definition set_future_flags (reply idle done : bool) (f : KernelFutureHandler) : KernelFutureHandler :=
  {| f_msg := f_msg f; f_expectReply := f_expectReply f;
     f_disposeOnDone := f_disposeOnDone f; f_replyReceived := reply;
     f_idleReceived := idle; f_done := done; f_onReply := f_onReply f |}.

Definition set_onReply (p : option nat) (f : KernelFutureHandler) : KernelFutureHandler :=
  {| f_msg := f_msg f; f_expectReply := f_expectReply f;
     f_disposeOnDone := f_disposeOnDone f; f_replyReceived := f_replyReceived f;
     f_idleReceived := f_idleReceived f; f_done := f_done f; f_onReply := p |}.

(** The dispose callback [sendShellMessage] gives a future:
    [() => { this._futures.delete(msg.header.msg_id); }]. *)
Definition future_disposeCb (id : string) : M unit :=
  let! k := the_engine in
  match _futures k with
  | None => throw (null_member "delete")
  | Some fs => update_engine (set_futures (Some (delete id fs)))
  end.

(** Modelled from the spec: KernelFutureHandler.dispose (kernelfuture.ts
    is not among the sources).  Disposal stops delivery and is
    idempotent; it runs the dispose callback, which takes the future
    out of the registry. *)
Definition KernelFutureHandler_dispose (f : KernelFutureHandler) : M unit :=
  future_disposeCb (f_msgId f).

(** [resolve(msg.content)] of the promise made by sendKernelMessage; a
    settled promise stays as it is. *)
Definition resolve_reply (p : option nat) (c : Content) : M unit :=
  match p with
  | None => ret tt
  | Some p =>
      modify (with_promises (fun m =>
        match m !! p with
        | Some Pending => <[p := Fulfilled (OfContent c)]> m
        | _ => m
        end))
  end.

Definition is_idle_status (m : IKernelMessage) : bool :=
  String.eqb (msg_type (header m)) "status" &&
  String.eqb (execution_state (content m)) "idle".

(** Terminal when (!expectReply or replyReceived) and idleReceived. *)
Definition future_terminal (f : KernelFutureHandler) : bool :=
  (negb (f_expectReply f) || f_replyReceived f) && f_idleReceived f.

Definition store_future (key : string) (f : KernelFutureHandler) : M unit :=
  update_engine (fun k =>
    set_futures (alter (fun _ => f) key <$> _futures k) k).

(** Modelled from the spec: KernelFutureHandler.handleMsg (kernelfuture.ts
    is not among the sources), after sections 3 and 4.D: the message goes
    to the observer of its channel, the reply observer fires once and
    only when a reply is expected, and when the future is terminal
    [onDone] fires and a future made with [disposeOnDone] leaves the
    registry.  [key] is the id the registry holds the future under. *)
Definition KernelFutureHandler_handleMsg (key : string) (f : KernelFutureHandler) (msg : IKernelMessage) : M unit :=
  event (EvFutureMsg (f_msgId f) msg) >>>
  let! f1 :=
    if String.eqb (channel msg) "shell" then
      when (f_expectReply f && negb (f_replyReceived f))
        (event (EvFutureSlot (f_msgId f) OnReply) >>>
         resolve_reply (f_onReply f) (content msg)) >>>
      ret (set_future_flags true (f_idleReceived f) (f_done f) f)
    else if String.eqb (channel msg) "stdin" then
      event (EvFutureSlot (f_msgId f) OnStdin) >>> ret f
    else if String.eqb (channel msg) "iopub" then
      event (EvFutureSlot (f_msgId f) OnIOPub) >>>
      ret (if is_idle_status msg
           then set_future_flags (f_replyReceived f) true (f_done f) f
           else f)
    else ret f in
  if future_terminal f1 && negb (f_done f1) then
    event (EvFutureSlot (f_msgId f1) OnDone) >>>
    store_future key (set_future_flags (f_replyReceived f1) (f_idleReceived f1) true f1) >>>
    when (f_disposeOnDone f1) (KernelFutureHandler_dispose f1)
  else
    store_future key f1.

(** ** Comm (kernel.ts) and the comm registry of the engine *)

Definition delete_key {V} (commId : option string) (m : gmap string V) : gmap string V :=
  match commId with
  | Some id => delete id m
  | None => m           (* map.delete(null): no such key *)
  end.

(** _unregisterComm(commId) *)
Definition Kernel__unregisterComm (commId : option string) : M unit :=
  (let! k := the_engine in
   match _comms k with
   | None => throw (null_member "delete")
   | Some cs => update_engine (set_comms (Some (delete_key commId cs)))
   end) >>>
  let! k := the_engine in
  match _commPromises k with
  | None => throw (null_member "delete")
  | Some ps => update_engine (set_commPromises (Some (delete_key commId ps)))
  end.

(** get isDisposed *)
Definition Comm_isDisposed (c : Comm) : bool := negb (c_msgFunc c).

(** The object after the assignments of [Comm.dispose]. *)
Definition Comm_cleared (c : Comm) : Comm :=
  {| c_target := c_target c; c_id := None; c_onClose := None; c_onMsg := None;
     c_msgFunc := false; c_callback := None |}.

(** The object is shared with [_comms] when it sits there under the key
    [place]: the assignments are then seen through the map too. *)
Definition write_back (place : option string) (c : Comm) : M unit :=
  match place with
  | None => ret tt
  | Some key =>
      update_engine (fun k => set_comms (alter (fun _ => c) key <$> _comms k) k)
  end.

(** dispose(): the fields are cleared, then DisposableDelegate.dispose
    runs the callback if it has not run yet; [comm.commId] is null by
    then. *)
Definition Comm_dispose (place : option string) (c : Comm) : M Comm :=
  write_back place (Comm_cleared c) >>>
  match c_callback c with
  | None => ret tt
  | Some UnregisterOwnId => Kernel__unregisterComm None
  | Some (UnregisterId id) => Kernel__unregisterComm (Some id)
  end >>>
  ret (Comm_cleared c).

(** ** Kernel (kernel.ts) *)

Definition empty_content : Content :=
  {| execution_state := ""; comm_id := ""; target_name := "";
     target_module := ""; data := "" |}.

(** createKernelMessage(options, content, metadata, buffers) *)
Definition createKernelMessage (h : Host) (options : IKernelMessageOptions)
    (content : Content) (metadata : string) (buffers : list string) : M IKernelMessage :=
  let! id :=
    if String.eqb (msgId options) ""
    then (let! n := fresh in ret (uuid h n))
    else ret (msgId options) in
  ret {| header := {| username := opt_username options; version := "5.0";
                      session := opt_session options; msg_id := id;
                      msg_type := msgType options |};
         parent_header := Some {| parent_msg_id := None |};
         channel := opt_channel options;
         content := content; metadata := metadata; buffers := buffers |}.

(** get isDisposed *)
Definition Kernel_isDisposed (k : Kernel) : bool :=
  match _futures k with None => true | Some _ => false end.

(** [this._socket.send(msg)] *)
Definition socket_send (h : Host) (msg : IKernelMessage) : M unit :=
  let! k := the_engine in
  match _socket k with
  | None => throw (null_member "send")
  | Some s => KernelSocket_send h s msg
  end.

(** sendShellMessage(msg, expectReply = false, disposeOnDone = true) *)
Definition Kernel_sendShellMessage (h : Host) (msg : IKernelMessage)
    (expectReply disposeOnDone : bool) : M KernelFutureHandler :=
  let! k := the_engine in
  if decide (_status k = Dead) then throw (Error "Kernel is dead") else
  socket_send h msg >>>
  let future :=
    {| f_msg := msg; f_expectReply := expectReply;
       f_disposeOnDone := disposeOnDone; f_replyReceived := false;
       f_idleReceived := false; f_done := false; f_onReply := None |} in
  let! k := the_engine in
  match _futures k with
  | None => throw (null_member "set")
  | Some fs =>
      update_engine (set_futures (Some (<[msg_id (header msg) := future]> fs))) >>>
      ret future
  end.

Record ICommPayload := {
  p_msgType : string;
  p_content : Content;
  p_metadata : string;
  p_buffers : list string
}.

(** _sendCommMessage(payload, disposeOnDone = true) *)
Definition Kernel__sendCommMessage (h : Host) (payload : ICommPayload) (disposeOnDone : bool)
  : M KernelFutureHandler :=
  let! k := the_engine in
  let options :=
    {| msgType := p_msgType payload; opt_channel := "shell";
       opt_username := _username k; opt_session := _clientId k; msgId := "" |} in
  let! msg := createKernelMessage h options (p_content payload) (p_metadata payload)
                (p_buffers payload) in
  Kernel_sendShellMessage h msg false disposeOnDone.

Definition id_or_undefined (id : option string) : string :=
  match id with Some s => s | None => "" end.

(** Comm.close(data, metadata): sends comm_close through [_msgFunc]
    (the engine's _sendCommMessage), calls onClose with the message
    sent, disposes.  [place] as for [Comm_dispose]. *)
Definition Comm_close (h : Host) (place : option string) (c : Comm) (d metadata : string) : M Comm :=
  if Comm_isDisposed c then ret c else
  let content :=
    {| execution_state := ""; comm_id := id_or_undefined (c_id c);
       target_name := ""; target_module := ""; data := d |} in
  let payload :=
    {| p_msgType := "comm_close"; p_content := content;
       p_metadata := metadata; p_buffers := [] |} in
  let! future := Kernel__sendCommMessage h payload true in
  match c_onClose c with
  | Some onClose => call EvCommOnClose onClose (f_msg future)
  | None => ret tt
  end >>>
  Comm_dispose place c.

(** The body of [this._futures.forEach((future, key) => future.dispose())] *)
Definition dispose_future_entry (key : string) (f0 : KernelFutureHandler) : M unit :=
  let! k := the_engine in
  match _futures k ≫= (fun fs => fs !! key) with
  | None => ret tt
  | Some f => KernelFutureHandler_dispose f
  end.

(** The body of [this._comms.forEach((comm, key) => comm.dispose())] *)
Definition dispose_comm_entry (key : string) (c0 : Comm) : M unit :=
  let! k := the_engine in
  match _comms k ≫= (fun cs => cs !! key) with
  | None => ret tt
  | Some c => Comm_dispose (Some key) c >>> ret tt
  end.

Definition forEach_future : M unit :=
  let! k := the_engine in
  match _futures k with
  | None => throw (null_member "forEach")
  | Some fs => forEach dispose_future_entry (map_to_list fs)
  end.

Definition forEach_comm : M unit :=
  let! k := the_engine in
  match _comms k with
  | None => throw (null_member "forEach")
  | Some cs => forEach dispose_comm_entry (map_to_list cs)
  end.

(** dispose() *)
Definition Kernel_dispose : M unit :=
  let! k := the_engine in
  if Kernel_isDisposed k then ret tt else
  update_engine (set_status Dead) >>>
  match _socket k with
  | None => throw (null_member "dispose")
  | Some s => KernelSocket_dispose s
  end >>>
  forEach_future >>>
  forEach_comm >>>
  update_engine (set_futures None) >>>
  update_engine (set_commPromises None) >>>
  update_engine (set_comms None) >>>
  update_engine (set_status Dead) >>>
  update_engine (set_targetRegistry None) >>>
  clearSignalData.

(** The switch of _updateStatus. *)
Definition status_of_state (state : string) : option KernelStatus :=
  if String.eqb state "starting" then Some Starting
  else if String.eqb state "idle" then Some Idle
  else if String.eqb state "busy" then Some Busy
  else if String.eqb state "restarting" then Some Restarting
  else if String.eqb state "reconnecting" then Some Reconnecting
  else if String.eqb state "dead" then Some Dead
  else None.

(** Private.logKernelStatus(kernel); [kernel.id] reads [_socket.id]. *)
Definition logKernelStatus : M unit :=
  let! k := the_engine in
  match _status k with
  | Idle | Busy | Unknown => ret tt
  | st =>
      let status :=
        match st with
        | Starting => "starting"
        | Restarting => "restarting"
        | Dead => "dead"
        | _ => ""
        end in
      match _socket k with
      | None => throw (null_member "id")
      | Some s =>
          let! sock := the_socket s in
          event (EvConsole "log" ("Kernel: " +:+ status +:+ " (" +:+ _id sock +:+ ")"))
      end
  end.

(** _updateStatus(state) *)
Definition Kernel__updateStatus (state : string) : M unit :=
  match status_of_state state with
  | None => event (EvConsole "error" ("invalid kernel status: " +:+ state))
  | Some status =>
      let! k := the_engine in
      if decide (status = _status k) then ret tt else
      update_engine (set_status status) >>>
      logKernelStatus >>>
      emit StatusChanged (ArgStatus status) >>>
      when (bool_decide (status = Dead)) Kernel_dispose
  end.

(** _clearState() *)
Definition Kernel__clearState : M unit :=
  forEach_future >>>
  forEach_comm >>>
  update_engine (set_futures (Some ∅)) >>>
  update_engine (set_commPromises (Some ∅)) >>>
  update_engine (set_comms (Some ∅)).

(** ** loadObject (utils.ts) *)

(** loadObject(name, moduleName, registry): what the executor of the
    promise does before it returns.  A module name, when given, is tried
    first and alone; the registry is read only without one. *)
Definition loadObject (h : Host) (name moduleName : string)
    (registry : option (gmap string Target)) : LoadState :=
  if negb (String.eqb moduleName "") then
    match requirejs h with
    | None => LoadFailed (Error "requirejs not found")
    | Some _ => Loading moduleName name
    end
  else
    match registry ≫= (fun r => r !! name) with
    | Some target => Loaded target
    | None => LoadFailed (Error ("Object '" +:+ name +:+ "' not found in registry"))
    end.

(** The settlement of the promise of loadObject: at once where the
    executor settled it, and through the callbacks given to requirejs
    where a module is loading. *)
Definition load_result (h : Host) (l : LoadState) : Target + JsError :=
  match l with
  | Loaded target => inl target
  | LoadFailed e => inr e
  | Loading moduleName name =>
      match requirejs h ≫= (fun mods => mods !! moduleName) with
      | None => inr (Error ("Script error for: " +:+ moduleName))
      | Some exports =>
          match exports !! name with
          | Some target => inl target
          | None =>
              inr (Error ("Object '" +:+ name +:+ "' not found in module '"
                          +:+ moduleName +:+ "'"))
          end
      end
  end.

(** ** Comm messages *)

Definition update_opening (p : nat) (f : CommOpening -> CommOpening) : M unit :=
  modify (with_openings (fun m => alter f p m)).

Definition set_co_state (s : OpenState) (o : CommOpening) : CommOpening :=
  {| co_content := co_content o; co_msg := co_msg o; co_load := co_load o;
     co_state := s; co_waiters := co_waiters o |}.

Definition add_waiter (r : Reaction) (o : CommOpening) : CommOpening :=
  {| co_content := co_content o; co_msg := co_msg o; co_load := co_load o;
     co_state := co_state o; co_waiters := co_waiters o ++ [r] |}.

(** _handleCommOpen(msg): the promise is made and stored; its callback
    runs later ([opening_callback]). *)
Definition Kernel__handleCommOpen (h : Host) (msg : IKernelMessage) : M unit :=
  let content := content msg in
  let! k := the_engine in
  let load := loadObject h (target_name content) (target_module content) (_targetRegistry k) in
  let! promise := fresh in
  modify (with_openings (fun m =>
    <[promise := {| co_content := content; co_msg := msg; co_load := load;
                    co_state := OpenPending; co_waiters := [] |}]> m)) >>>
  let! k := the_engine in
  match _commPromises k with
  | None => throw (null_member "set")
  | Some ps =>
      update_engine (set_commPromises (Some (<[comm_id content := promise]> ps)))
  end.

(** The call [target(comm, msg)]: the target sets the handlers it wants
    on the comm it is given, and may throw; the comm comes back as the
    call left it, with the error thrown if any. *)
Definition call_target (target : Target) (c : Comm) (msg : IKernelMessage)
  : M (Comm * option JsError) :=
  event (EvTarget (target_id target) (id_or_undefined (c_id c)) msg) >>>
  ret ({| c_target := c_target c; c_id := c_id c;
          c_onClose := installs_onClose target; c_onMsg := installs_onMsg target;
          c_msgFunc := c_msgFunc c; c_callback := c_callback c |},
       if target_throws target then Some (Raised (target_id target)) else None).

(** The callback [target => { ... }] that _handleCommOpen chains on the
    promise of loadObject. *)
Definition opening_callback (h : Host) (o : CommOpening) (target : Target) : M Comm :=
  let content := co_content o in
  let comm :=
    {| c_target := target_name content; c_id := Some (comm_id content);
       c_onClose := None; c_onMsg := None; c_msgFunc := true;
       c_callback := Some (UnregisterId (comm_id content)) |} in
  let! r := call_target target comm (co_msg o) in
  match r.2 with
  | Some e =>
      Comm_close h None r.1 "" "" >>>
      event (EvConsole "error" "Exception opening new comm") >>>
      throw e
  | None =>
      (let! k := the_engine in
       match _commPromises k with
       | None => throw (null_member "delete")
       | Some ps => update_engine (set_commPromises (Some (delete_key (c_id r.1) ps)))
       end) >>>
      (let! k := the_engine in
       match _comms k with
       | None => throw (null_member "set")
       | Some cs =>
           update_engine (set_comms (Some (<[id_or_undefined (c_id r.1) := r.1]> cs)))
       end) >>>
      ret r.1
  end.

(** The callback chained by _handleCommMsg on a pending open. *)
Definition commMsg_callback (msg : IKernelMessage) (c : Comm) : M Comm :=
  try_catch
    (match c_onMsg c with
     | Some onMsg => call EvCommOnMsg onMsg msg
     | None => ret tt
     end)
    (fun e => event (EvConsole "error" "Exception handling comm msg")) >>>
  ret c.

(** The callback chained by _handleCommClose. *)
Definition commClose_callback (msg : IKernelMessage) (c : Comm) : M Comm :=
  Kernel__unregisterComm (c_id c) >>>
  try_catch
    (match c_onClose c with
     | Some onClose => call EvCommOnClose onClose msg
     | None => ret tt
     end >>>
     Comm_dispose None c)
    (fun e => event (EvConsole "error" "Exception closing comm") >>> ret c).

Definition run_reaction (r : Reaction) (c : Comm) : M Comm :=
  match r with
  | ThenCommMsg msg => commMsg_callback msg c
  | ThenCommClose msg => commClose_callback msg c
  end.

(** The callbacks chained on one promise run in the order they were
    chained, each a job of its own, all on the comm the promise holds. *)
Fixpoint run_waiters (rs : list Reaction) (c : Comm) : M unit :=
  match rs with
  | [] => ret tt
  | r :: rest =>
      let! settled := attempt (run_reaction r c) in
      run_waiters rest (match settled with Normal c1 => c1 | Throw _ => c end)
  end.

(** The host settles the open promise [p]: once loadObject's promise is
    settled the callback of _handleCommOpen runs, its result settles
    [p], and the callbacks chained on [p] follow. *)
Definition settle_opening (h : Host) (p : nat) : M unit :=
  let! w := get in
  match openings w !! p with
  | None => ret tt
  | Some o =>
      match co_state o with
      | OpenPending =>
          match load_result h (co_load o) with
          | inr e => update_opening p (set_co_state (OpenRejected e))
          | inl target =>
              let! settled := attempt (opening_callback h o target) in
              match settled with
              | Throw e => update_opening p (set_co_state (OpenRejected e))
              | Normal comm =>
                  update_opening p (set_co_state (OpenFulfilled comm)) >>>
                  let! w1 := get in
                  run_waiters
                    (match openings w1 !! p with
                     | Some o1 => co_waiters o1
                     | None => []
                     end) comm
              end
          end
      | _ => ret tt
      end
  end.

(** Chaining [cb] on the promise [p] of [_commPromises]: it waits while
    [p] is pending, is queued as a job when [p] is fulfilled, and never
    runs when [p] is rejected. *)
Definition chain (p : nat) (r : Reaction) : M unit :=
  let! w := get in
  match openings w !! p with
  | None => ret tt
  | Some o =>
      match co_state o with
      | OpenPending => update_opening p (add_waiter r)
      | OpenFulfilled comm => modify (with_jobs (fun js => js ++ [JobReaction r comm]))
      | OpenRejected _ => ret tt
      end
  end.

(** _handleCommClose(msg) *)
Definition Kernel__handleCommClose (msg : IKernelMessage) : M unit :=
  let content := content msg in
  let! k := the_engine in
  match _commPromises k with
  | None => throw (null_member "get")
  | Some ps =>
      match ps !! comm_id content with
      | Some promise => chain promise (ThenCommClose msg)
      | None =>
          match _comms k with
          | None => throw (null_member "get")
          | Some cs =>
              match cs !! comm_id content with
              | None =>
                  event (EvConsole "error"
                           ("Comm not found for comm id " +:+ comm_id content))
              | Some comm =>
                  (* Promise.resolve(comm).then(...) *)
                  modify (with_jobs (fun js => js ++ [JobReaction (ThenCommClose msg) comm]))
              end
          end
      end
  end.

(** _handleCommMsg(msg) *)
Definition Kernel__handleCommMsg (msg : IKernelMessage) : M unit :=
  let content := content msg in
  let! k := the_engine in
  match _commPromises k with
  | None => throw (null_member "get")
  | Some ps =>
      match ps !! comm_id content with
      | None =>
          match _comms k with
          | None => throw (null_member "get")
          | Some cs =>
              match cs !! comm_id content with
              | None =>
                  event (EvConsole "error"
                           ("Comm not found for comm id " +:+ comm_id content))
              | Some comm =>
                  match c_onMsg comm with
                  | Some onMsg => call EvCommOnMsg onMsg msg
                  | None => ret tt
                  end
              end
          end
      | Some promise => chain promise (ThenCommMsg msg)
      end
  end.

(** A queued job runs. *)
Definition run_job (j : Job) : M unit :=
  match j with
  | JobReaction r comm => attempt (run_reaction r comm) >>> ret tt
  end.

(** The switch of _onKernelMessage on an iopub message. *)
Definition iopub_dispatch (h : Host) (msg : IKernelMessage) : M unit :=
  let msg_type := msg_type (header msg) in
  if String.eqb msg_type "status" then
    Kernel__updateStatus (execution_state (content msg))
  else if String.eqb msg_type "comm_open" then Kernel__handleCommOpen h msg
  else if String.eqb msg_type "comm_msg" then Kernel__handleCommMsg msg
  else if String.eqb msg_type "comm_close" then Kernel__handleCommClose msg
  else ret tt.

(** [this._futures && this._futures.get(parentHeader.msg_id)] *)
Definition lookup_future (k : Kernel) (parentHeader : ParentHeader) : option KernelFutureHandler :=
  fs ← _futures k; id ← parent_msg_id parentHeader; fs !! id.

(** _onKernelMessage(msg) *)
Definition Kernel__onKernelMessage (h : Host) (msg : IKernelMessage) : M unit :=
  match validateKernelMessage h msg with
  | Some message => event (EvConsole "error" message)
  | None =>
      let! handled :=
        match parent_header msg with
        | None => ret false
        | Some parentHeader =>
            let! k := the_engine in
            match lookup_future k parentHeader with
            | Some future =>
                KernelFutureHandler_handleMsg
                  (id_or_undefined (parent_msg_id parentHeader)) future msg >>>
                ret true
            | None => ret false
            end
        end in
      when (String.eqb (channel msg) "iopub")
        (iopub_dispatch h msg >>> emit IOPubReceived (ArgMsg msg)) >>>
      when (negb handled) (emit UnhandledMessage (ArgMsg msg))
  end.

(** ** Requests *)

Definition new_promise (s : Settlement) : M nat :=
  let! p := fresh in
  modify (with_promises (fun m => <[p := s]> m)) >>>
  ret p.

(** Private.sendKernelMessage(kernel, msg): the promise made is resolved
    by the [onReply] it sets on the future, and by nothing else. *)
Definition sendKernelMessage (h : Host) (msg : IKernelMessage) : M nat :=
  let! sent := attempt (Kernel_sendShellMessage h msg true true) in
  match sent with
  | Throw e => new_promise (Rejected e)
  | Normal future =>
      let! p := new_promise Pending in
      store_future (f_msgId future) (set_onReply (Some p) future) >>>
      ret p
  end.

(** The options every request method builds. *)
Definition shell_options (k : Kernel) (msgType : string) : IKernelMessageOptions :=
  {| msgType := msgType; opt_channel := "shell"; opt_username := _username k;
     opt_session := _clientId k; msgId := "" |}.

(** kernelInfo() *)
Definition Kernel_kernelInfo (h : Host) : M nat :=
  let! k := the_engine in
  let! msg := createKernelMessage h (shell_options k "kernel_info_request") empty_content "" [] in
  sendKernelMessage h msg.

(** complete(contents) *)
Definition Kernel_complete (h : Host) (contents : Content) : M nat :=
  let! k := the_engine in
  let! msg := createKernelMessage h (shell_options k "complete_request") contents "" [] in
  sendKernelMessage h msg.

(** inspect(contents) *)
Definition Kernel_inspect (h : Host) (contents : Content) : M nat :=
  let! k := the_engine in
  let! msg := createKernelMessage h (shell_options k "inspect_request") contents "" [] in
  sendKernelMessage h msg.

(** history(contents) *)
Definition Kernel_history (h : Host) (contents : Content) : M nat :=
  let! k := the_engine in
  let! msg := createKernelMessage h (shell_options k "history_request") contents "" [] in
  sendKernelMessage h msg.

(** isComplete(contents) *)
Definition Kernel_isComplete (h : Host) (contents : Content) : M nat :=
  let! k := the_engine in
  let! msg := createKernelMessage h (shell_options k "is_complete_request") contents "" [] in
  sendKernelMessage h msg.

(** commInfo(contents) *)
Definition Kernel_commInfo (h : Host) (contents : Content) : M nat :=
  let! k := the_engine in
  let! msg := createKernelMessage h (shell_options k "comm_info_request") contents "" [] in
  sendKernelMessage h msg.

(** execute(contents, disposeOnDone = true); the defaults that
    utils.extend adds are fields of the payload this model leaves
    opaque. *)
Definition Kernel_execute (h : Host) (contents : Content) (disposeOnDone : bool)
  : M KernelFutureHandler :=
  let! k := the_engine in
  let! msg := createKernelMessage h (shell_options k "execute_request") contents "" [] in
  Kernel_sendShellMessage h msg true disposeOnDone.

(** sendInputReply(contents) *)
Definition Kernel_sendInputReply (h : Host) (contents : Content) : M unit :=
  let! k := the_engine in
  if decide (_status k = Dead) then throw (Error "Kernel is dead") else
  let options :=
    {| msgType := "input_reply"; opt_channel := "stdin"; opt_username := _username k;
       opt_session := _clientId k; msgId := "" |} in
  let! msg := createKernelMessage h options contents "" [] in
  socket_send h msg.

(** get id: [this._socket.id] *)
Definition Kernel_id : M string :=
  let! k := the_engine in
  match _socket k with
  | None => throw (null_member "id")
  | Some s => let! sock := the_socket s in ret (_id sock)
  end.

(** get name: [this._socket.name] *)
Definition Kernel_name : M string :=
  let! k := the_engine in
  match _socket k with
  | None => throw (null_member "name")
  | Some s => let! sock := the_socket s in ret (_name sock)
  end.

(** Private.interruptKernel, Private.restartKernel and
    Private.shutdownKernel up to the request they send: the promise they
    return is rejected at once on a dead kernel and pending otherwise. *)
Definition rest_call (h : Host) (method : string) (action : list string) : M nat :=
  let! k := the_engine in
  if decide (_status k = Dead) then new_promise (Rejected (Error "Kernel is dead")) else
  let! id := Kernel_id in
  let url := urlPathJoin h [_baseUrl k; "api/kernels"; urlJoinEncode h (id :: action)] in
  event (EvAjax method url) >>>
  new_promise Pending.

(** interrupt() *)
Definition Kernel_interrupt (h : Host) : M nat := rest_call h "POST" ["interrupt"].

(** restart() *)
Definition Kernel_restart (h : Host) : M nat :=
  Kernel__clearState >>>
  Kernel__updateStatus "restarting" >>>
  rest_call h "POST" ["restart"].

(** shutdown(), up to the request; [this.dispose()] runs when the
    server has answered 204. *)
Definition Kernel_shutdown (h : Host) : M nat :=
  Kernel__clearState >>>
  rest_call h "DELETE" [].

(** registerCommTarget(targetName, callback) *)
Definition Kernel_registerCommTarget (targetName : string) (callback : Target) : M unit :=
  let! k := the_engine in
  match _targetRegistry k with
  | None => throw (null_member targetName)
  | Some r => update_engine (set_targetRegistry (Some (<[targetName := callback]> r)))
  end.

(** connectToComm(targetName, commId?) *)
Definition Kernel_connectToComm (h : Host) (targetName : string) (commId : option string) : M Comm :=
  let! commId :=
    match commId with
    | None => let! n := fresh in ret (uuid h n)
    | Some id => ret id
    end in
  let! k := the_engine in
  match _comms k with
  | None => throw (null_member "get")
  | Some cs =>
      match cs !! commId with
      | Some comm => ret comm
      | None =>
          let comm :=
            {| c_target := targetName; c_id := Some commId; c_onClose := None;
               c_onMsg := None; c_msgFunc := true;
               c_callback := Some UnregisterOwnId |} in
          update_engine (set_comms (Some (<[commId := comm]> cs))) >>>
          ret comm
      end
  end.

(** What a caller hands to getKernelSpecs as [options.ajaxSettings]. *)
Inductive AjaxSettings :=
| SettingsUndefined
| SettingsObject
| SettingsText (json : string).   (* a string, not an object *)

(** getKernelSpecs(options), up to the request it sends.  The settings
    are copied and completed: [utils.copy(options.ajaxSettings) || {}],
    then [ajaxSettings.method = 'GET'].  The copy of a string is that
    string, and the file is in strict mode: the assignment of a
    property of a string that is not empty throws a TypeError, before
    any request is made. *)
Definition getKernelSpecs (h : Host) (baseUrl : string) (ajaxSettings : AjaxSettings) : M nat :=
  let baseUrl := if String.eqb baseUrl "" then getBaseUrl h else baseUrl in
  let url := urlPathJoin h [baseUrl; "api/kernelspecs"] in
  match ajaxSettings with
  | SettingsText json =>
      if String.eqb json "" then event (EvAjax "GET" url) >>> new_promise Pending
      else throw (TypeError ("Cannot create property 'method' on string '" +:+ json +:+ "'"))
  | _ => event (EvAjax "GET" url) >>> new_promise Pending
  end.

(** getKernelSpec(), up to the request of the specs.  The options it
    builds hold [this._ajaxSettings], the JSON text that the setter of
    ajaxSettings keeps ('{}' when no settings were given), not the
    object the getter would parse from it. *)
Definition Kernel_getKernelSpec (h : Host) : M nat :=
  let! k := the_engine in
  match _spec k with
  | Some spec => new_promise (Fulfilled (OfSpec spec))
  | None =>
      let! name := Kernel_name in
      getKernelSpecs h (_baseUrl k) (SettingsText "{}")
  end.

(** ** Socket events and the registry of running kernels *)

(** [this.status] and [this._updateStatus] in a method of KernelSocket:
    the class declares neither (they are members of Kernel).  The first
    reads as undefined; the call of the second is a call of
    undefined. *)
Definition KernelSocket_status : option KernelStatus := None.

Definition KernelSocket__updateStatus (state : string) : M unit :=
  throw (TypeError "this._updateStatus is not a function").

(** _onWSClose(evt), the handler of both [onclose] and [onerror]. *)
Definition KernelSocket__onWSClose (this : nat) : M unit :=
  if decide (KernelSocket_status = Some Dead) then ret tt else
  let! s := the_socket this in
  match _ws s with
  | None => throw (TypeError "Cannot set property 'onclose' of null")
  | Some _ =>
      update_socket this (set_ws None) >>>
      if (_reconnectAttempt s <? _reconnectLimit s)%nat then
        KernelSocket__updateStatus "reconnecting" >>>
        let timeout := (2 ^ _reconnectAttempt s)%nat in
        event (EvConsole "error"
                 ("Connection lost, reconnecting in " +:+ pretty timeout +:+ " seconds.")) >>>
        event (EvSetTimeout (1000 * timeout)%nat) >>>
        update_socket this (fun s => set_reconnectAttempt (_reconnectAttempt s + 1)%nat s)
      else
        KernelSocket__updateStatus "dead"
  end.

(** What the server answers to a request of the kernel service:
    [model] is the id of the kernel model when validateKernelId accepts
    the body. *)
Inductive AjaxReply :=
| AjaxSuccess (status : nat) (model : option string)
| AjaxFailure (statusText : string).

(** Private.onKernelError(error) *)
Definition onKernelError {A} (statusText : string) : M A :=
  event (EvConsole "error" ("API request failed (" +:+ statusText +:+ "): ")) >>>
  throw (Error statusText).

Definition options_baseUrl (h : Host) (options : IKernelOptions) : string :=
  if String.eqb (opt_baseUrl options) "" then getBaseUrl h else opt_baseUrl options.

(** Private.getKernelId(id, options), run to the settlement of its
    promise on the server's answer: a throw is a rejection. *)
Definition getKernelId (h : Host) (id : string) (options : IKernelOptions) (reply : AjaxReply)
  : M string :=
  event (EvAjax "GET" (urlPathJoin h [options_baseUrl h options; "api/kernels"; id])) >>>
  match reply with
  | AjaxSuccess status model =>
      if negb (status =? 200)%nat then throw (Error ("Invalid Status: " +:+ pretty status))
      else match model with
           | Some data => ret data
           | None => throw (Error "Invalid kernel id")
           end
  | AjaxFailure statusText => onKernelError statusText
  end.

(** [new Kernel(options, socket)] in connectToKernel and
    startNewKernel: the engine made there is not the one under study
    ([Kernel_new] is the constructor run on the engine under study);
    the trace keeps which socket it was given.  The first line of the
    constructor reads [options.ajaxSettings], a TypeError when the
    options are undefined. *)
Definition new_Kernel (options : option IKernelOptions) (socket : nat) : M nat :=
  match options with
  | None => throw (TypeError "Cannot read property 'ajaxSettings' of undefined")
  | Some _ => event (EvNewKernel socket) >>> ret socket
  end.

(** [options || {}] *)
Definition options_or_empty (options : option IKernelOptions) : IKernelOptions :=
  match options with
  | Some o => o
  | None => {| opt_baseUrl := ""; opt_wsUrl := ""; opt_name := "";
               options_username := ""; options_clientId := "" |}
  end.

(** constructor(options, socket) of Kernel, run on the engine under
    study.  No line of it assigns [this._socket]: the field keeps its
    initial null, whatever socket is given.  It ends with a call of
    kernelInfo(), whose promise it drops. *)
Definition Kernel_new (h : Host) (options : option IKernelOptions) (socket : nat) : M unit :=
  match options with
  | None => throw (TypeError "Cannot read property 'ajaxSettings' of undefined")
  | Some options =>
      let! clientId :=
        if String.eqb (options_clientId options) ""
        then (let! n := fresh in ret (uuid h n))
        else ret (options_clientId options) in
      update_engine (fun _ =>
        {| _status := Unknown; _baseUrl := options_baseUrl h options;
           _clientId := clientId; _username := options_username options;
           _socket := None;
           _futures := Some ∅; _commPromises := Some ∅; _comms := Some ∅;
           _targetRegistry := Some ∅; _spec := None; slots := [] |}) >>>
      Kernel_kernelInfo h >>>
      ret tt
  end.

(** [signal.connect(slot)] on a signal of the engine. *)
Definition connect (sig : Signal) (slot : string) : M unit :=
  update_engine (fun k => set_slots (slots k ++ [(sig, slot)]) k).

(** connectToKernel(id, options?), run to the settlement of its
    promise: the value is the socket of the kernel it is fulfilled
    with.  The options are optional and are not defaulted here
    (Private.getKernelId defaults its own): without them
    [new Kernel(options, socket)] throws out of connectToKernel, and
    [new KernelSocket(options, id)], which reads [options.baseUrl],
    throws inside the callback, where the catch turns it into the
    rejection. *)
Definition connectToKernel (h : Host) (id : string) (options : option IKernelOptions)
    (reply : AjaxReply) : M nat :=
  let! w := get in
  match runningKernels w !! id with
  | Some socket => new_Kernel options socket
  | None =>
      try_catch
        (getKernelId h id (options_or_empty options) reply >>>
         let! socket :=
           match options with
           | None => throw (TypeError "Cannot read property 'baseUrl' of undefined")
           | Some o => KernelSocket_new h o id
           end in
         new_Kernel options socket)
        (fun _ => throw (Error ("No running kernel with id: " +:+ id)))
  end.

(** startNewKernel(options), run to the settlement of its promise. *)
Definition startNewKernel (h : Host) (options : IKernelOptions) (reply : AjaxReply) : M nat :=
  event (EvAjax "POST" (urlPathJoin h [options_baseUrl h options; "api/kernels"])) >>>
  match reply with
  | AjaxSuccess status model =>
      if negb (status =? 201)%nat then throw (Error ("Invalid Status: " +:+ pretty status))
      else match model with
           | None => throw (Error "Invalid kernel id")
           | Some id =>
               let! w := get in
               let! socket :=
                 match runningKernels w !! id with
                 | Some socket => ret socket
                 | None => KernelSocket_new h options id
                 end in
               new_Kernel (Some options) socket
           end
  | AjaxFailure statusText => onKernelError statusText
  end.

(** ** Session shutdown *)

(** What the two session files share: the response of the server and
    the classification of utils.ts ([Private.makeRequest]: [onload]
    rejects a status of 300 or more with the message
    "Invalid Status: <status>"). *)
Record XHR := {
  status : nat;
  statusText : string;
  responseText : string
}.

(** The result of JSON.parse on a response text, as far as the handler
    looks at it: [response['message']]. *)
Inductive JSON :=
| JNull
| JObject (message : option string)
| JOther.

Inductive SessionEvent :=
| Warn (text : string)                (* console.warn *)
| LogError (text : string)            (* console.error *)
| Terminated (uuid : string)          (* session.terminated.emit(void 0) *)
| SessionDied (uuid : string)         (* this.sessionDied.emit(void 0) *)
| KernelDisposed (uuid : string).     (* session._kernel.dispose() *)

Module DefaultSession.

(** session/default.ts *)

Record IAjaxError := {
  xhr : XHR;
  message : string;
  throwError : option string
}.

Inductive AjaxResult :=
| Success (x : XHR)
| Failure (err : IAjaxError).

(** The promise of utils.ajaxRequest on a response that has loaded. *)
Definition ajaxRequest (response : XHR) : AjaxResult :=
  if (300 <=? status response)%nat then
    Failure {| xhr := response;
               message := "Invalid Status: " +:+ pretty (status response);
               throwError := None |}
  else Success response.

Record t := {
  _uuid : string;
  _id : option string;
  _path : string;
  _options : bool;          (* false once set to null: isDisposed *)
  _kernel : bool            (* a kernel is attached *)
}.

Inductive Reason :=
| OfAjaxError (err : IAjaxError)
| OfSyntaxError                     (* JSON.parse *)
| OfTypeError.                      (* member read on null *)

Inductive Outcome :=
| Resolved
| RejectedWith (r : Reason).

Record Result := {
  outcome : Outcome;
  runningSessions : list t;
  log : list SessionEvent
}.

Definition isDisposed (s : t) : bool := negb (_options s).

(** ArrayExt.removeFirstOf(Private.runningSessions, this) *)
Fixpoint removeFirstOf (running : list t) (uuid : string) : list t :=
  match running with
  | [] => []
  | s :: rest =>
      if String.eqb (_uuid s) uuid then rest else s :: removeFirstOf rest uuid
  end.

(** dispose() *)
Definition dispose (s : t) (running : list t) : list t * list SessionEvent :=
  if isDisposed s then (running, [])
  else (removeFirstOf running (_uuid s),
        if _kernel s then [KernelDisposed (_uuid s)] else []).

(** Private.killSessions(id): the loop over toArray(runningSessions). *)
Fixpoint killSessions_loop (id : string) (snapshot running : list t)
  : list t * list SessionEvent :=
  match snapshot with
  | [] => (running, [])
  | session :: rest =>
      match _id session with
      | Some i =>
          if String.eqb i id then
            let d := dispose session running in
            let r := killSessions_loop id rest d.1 in
            (r.1, Terminated (_uuid session) :: d.2 ++ r.2)
          else killSessions_loop id rest running
      | None => killSessions_loop id rest running
      end
  end.

Definition killSessions (id : string) (running : list t) : list t * list SessionEvent :=
  killSessions_loop id running running.

(** Private.onSessionError(error) *)
Definition onSessionError (error : IAjaxError) : Outcome * list SessionEvent :=
  let text :=
    match throwError error with
    | Some t => t
    | None =>
        if String.eqb (statusText (xhr error)) "" then responseText (xhr error)
        else statusText (xhr error)
    end in
  (RejectedWith (OfAjaxError error), [LogError ("API request failed: " +:+ text)]).

Definition show (v : option string) : string :=
  match v with Some s => s | None => "undefined" end.

(** Private.shutdownSession(id, baseUrl, ajaxSettings), run to the
    settlement of its promise on the response to the DELETE. *)
Definition shutdownSession (parse : string -> option JSON) (id : string)
    (running : list t) (response : XHR) : Result :=
  match ajaxRequest response with
  | Success x =>
      if negb (status x =? 204)%nat then
        {| outcome := RejectedWith (OfAjaxError
             {| xhr := x; message := "Invalid Status: " +:+ pretty (status x);
                throwError := None |});
           runningSessions := running; log := [] |}
      else
        let k := killSessions id running in
        {| outcome := Resolved; runningSessions := k.1; log := k.2 |}
  | Failure err =>
      if (status (xhr err) =? 404)%nat then
        match parse (responseText (xhr err)) with
        | None =>
            {| outcome := RejectedWith OfSyntaxError;
               runningSessions := running; log := [] |}
        | Some JNull =>
            {| outcome := RejectedWith OfTypeError;
               runningSessions := running; log := [] |}
        | Some (JObject message) =>
            let k := killSessions id running in
            {| outcome := Resolved; runningSessions := k.1;
               log := Warn (show message) :: k.2 |}
        | Some JOther =>
            let k := killSessions id running in
            {| outcome := Resolved; runningSessions := k.1;
               log := Warn "undefined" :: k.2 |}
        end
      else
        let err1 :=
          if (status (xhr err) =? 410)%nat then
            {| xhr := xhr err; message := message err;
               throwError := Some "The kernel was deleted but the session was not" |}
          else err in
        let r := onSessionError err1 in
        {| outcome := r.1; runningSessions := running; log := r.2 |}
  end.

End DefaultSession.

Module Session.

(** The earlier session file (class Session implements ISession):
    shutdown() sends the DELETE itself. *)

(** IAjaxError of jupyter-js-utils. *)
Record IAjaxError := {
  xhr : XHR;
  statusText : string;
  error : option string      (* error.message, when there is an error *)
}.

Inductive AjaxResult :=
| Success (x : XHR)
| Failure (rejected : IAjaxError).

Record t := {
  _uuid : string;
  _options : bool;           (* false once set to null: isDisposed *)
  _kernel : bool
}.

Inductive Outcome :=
| Resolved
| RejectedWith (e : JsError).

Record Result := {
  outcome : Outcome;
  session : t;
  log : list SessionEvent
}.

(** Private.onSessionError(error): logs and throws. *)
Definition onSessionError (error : IAjaxError) : JsError * list SessionEvent :=
  if negb (String.eqb (statusText error) "") then
    (Error (statusText error),
     [LogError ("API request failed (" +:+ pretty (status (xhr error)) +:+ "):  "
                +:+ statusText error)])
  else
    match Session.error error with
    | None => (null_member "message", [])
    | Some m =>
        let text := if String.eqb m "" then responseText (xhr error) else m in
        (Error text,
         [LogError ("API request failed (" +:+ pretty (status (xhr error)) +:+ "):  "
                    +:+ text)])
    end.

(** shutdown(), run to the settlement of its promise on the result of
    the DELETE. *)
Definition shutdown (this : t) (result : AjaxResult) : Result :=
  if negb (_options this) then
    {| outcome := RejectedWith (Error "Session is disposed"); session := this; log := [] |}
  else
    match result with
    | Success x =>
        if negb (status x =? 204)%nat then
          {| outcome := RejectedWith (Error ("Invalid Status: " +:+ pretty (status x)));
             session := this; log := [] |}
        else if negb (_kernel this) then
          (* this._kernel.dispose() on a session without kernel *)
          {| outcome := RejectedWith (null_member "dispose"); session := this; log := [] |}
        else
          {| outcome := Resolved;
             session := {| _uuid := _uuid this; _options := _options this; _kernel := false |};
             log := [KernelDisposed (_uuid this); SessionDied (_uuid this)] |}
    | Failure rejected =>
        if (status (xhr rejected) =? 410)%nat then
          {| outcome := RejectedWith (Error "The kernel was deleted but the session was not");
             session := this; log := [] |}
        else
          let r := onSessionError rejected in
          {| outcome := RejectedWith r.1; session := this; log := r.2 |}
    end.

End Session.

(** ** Derived notions used by the statements *)

(** A caller sending several messages in turn. *)
Fixpoint send_all (h : Host) (this : nat) (msgs : list IKernelMessage) : M unit :=
  match msgs with
  | [] => ret tt
  | msg :: rest => KernelSocket_send h this msg >>> send_all h this rest
  end.

(** How many of the next [n] sends the websocket takes before one
    throws. *)
Fixpoint accepted (faults : list bool) (n : nat) {struct n} : nat :=
  match n with
  | 0 => 0
  | S n' =>
      match faults with
      | [] => S n'
      | true :: _ => 0
      | false :: rest => S (accepted rest n')
      end
  end.

Definition wire (h : Host) (msgs : list IKernelMessage) : list Event :=
  map (fun m => EvWsSend (serialize h m)) msgs.

Definition pending_of (w : World) (this : nat) : option (list IKernelMessage) :=
  _pendingMessages <$> sockets w !! this.

(** The engine has its maps (it is not disposed). *)
Definition alive (k : Kernel) : bool :=
  match _futures k, _commPromises k, _comms k, _targetRegistry k with
  | Some _, Some _, Some _, Some _ => true
  | _, _, _, _ => false
  end.

(** The engine holds a socket of the store in [_socket]. *)
Definition attached (w : World) : bool :=
  match _socket (engine w) with
  | Some s => match sockets w !! s with Some _ => true | None => false end
  | None => false
  end.

Definition is_delivery (e : Event) : bool :=
  match e with EvFutureMsg _ _ => true | _ => false end.

Definition is_emit (sig : Signal) (e : Event) : bool :=
  match e with
  | EvEmit s _ _ => bool_decide (s = sig)
  | _ => false
  end.

(** The statuses announced on statusChanged, in order. *)
Fixpoint announced (t : list Event) : list KernelStatus :=
  match t with
  | [] => []
  | EvEmit StatusChanged (ArgStatus s) _ :: rest => s :: announced rest
  | _ :: rest => announced rest
  end.

(** ** Synchronous throws *)

(** Every error [m] throws satisfies [P]. *)
Definition raises {A} (P : JsError -> Prop) (m : M A) : Prop :=
  forall w e, completion (m w) = Throw e -> P e.

Definition is_TypeError (e : JsError) : Prop :=
  match e with TypeError _ => True | _ => False end.

(** The error of sendShellMessage and sendInputReply on a dead kernel. *)
Definition KernelDead : JsError := Error "Kernel is dead".

(** A call that has returned a promise, rejected with [KernelDead] if
    the status was Dead in the world [w] of the call. *)
Definition returns_promise (w : World) (r : Run nat) : Prop :=
  exists p, completion r = Normal p /\
            (_status (engine w) = Dead -> promises (world r) !! p = Some (Rejected KernelDead)).

(** ** Sample host and worlds *)

Definition join (parts : list string) : string :=
  foldr (fun a b => if String.eqb b "" then a else a +:+ "/" +:+ b) "" parts.

Definition host0 : Host :=
  {| validateKernelMessage := fun _ => None;
     serialize := fun m => msg_type (header m) +:+ ":" +:+ msg_id (header m);
     uuid := fun n => "uuid-" +:+ pretty n;
     requirejs := None;
     urlPathJoin := join;
     urlJoinEncode := join;
     getBaseUrl := "http://localhost:8888";
     getWsUrl := fun _ => "ws://localhost:8888";
     newWebSocket := fun url => {| ws_url := url; ws_faults := [] |} |}.

Definition kernel0 : Kernel :=
  {| _status := Unknown; _baseUrl := "http://localhost:8888";
     _clientId := "client"; _username := "user"; _socket := Some 0;
     _futures := Some ∅; _commPromises := Some ∅; _comms := Some ∅;
     _targetRegistry := Some ∅; _spec := None;
     slots := [(StatusChanged, "ui"); (IOPubReceived, "ui"); (UnhandledMessage, "ui")] |}.

Definition world0 : World :=
  {| engine := kernel0; sockets := ∅; runningKernels := ∅; promises := ∅;
     openings := ∅; jobs := []; clock := 0 |}.

Definition options0 : IKernelOptions :=
  {| opt_baseUrl := ""; opt_wsUrl := ""; opt_name := "python";
     options_username := "user"; options_clientId := "client" |}.

(** The world once the socket of kernel "k1" is made: it is socket 0,
    the one the sample engine holds. *)
Definition world1 : World := world (KernelSocket_new host0 options0 "k1" world0).

(** The engine as [new Kernel(options0, socket)] leaves it, for the
    socket of kernel "k1", and the same with a slot "ui" connected to
    each of its signals. *)
Definition world_built : World :=
  world ((let! socket := KernelSocket_new host0 options0 "k1" in
          Kernel_new host0 (Some options0) socket) world0).

Definition world_listening : World :=
  world ((connect StatusChanged "ui" >>> connect IOPubReceived "ui" >>>
          connect UnhandledMessage "ui") world_built).

Definition message (type id chan : string) (parent : option string) (c : Content) : IKernelMessage :=
  {| header := {| username := "user"; version := "5.0"; session := "client";
                  msg_id := id; msg_type := type |};
     parent_header := Some {| parent_msg_id := parent |};
     channel := chan; content := c; metadata := ""; buffers := [] |}.

Definition request1 : IKernelMessage := message "execute_request" "m1" "shell" None empty_content.
Definition request2 : IKernelMessage := message "execute_request" "m2" "shell" None empty_content.
Definition request3 : IKernelMessage := message "execute_request" "m3" "shell" None empty_content.

(** A socket with three messages queued whose websocket throws on the
    second send. *)
Definition world_faulty : World :=
  with_sockets (fun m =>
    alter (fun s =>
      set_pendingMessages [request1; request2; request3]
        (set_ws (Some {| ws_url := "ws://localhost:8888"; ws_faults := [false; true] |}) s))
      0 m) world1.

(** The socket of [world_faulty]. *)
Definition socket_faulty : KernelSocket :=
  {| _wsUrl := "ws://localhost:8888"; _id := "k1"; _name := "python";
     _ws := Some {| ws_url := "ws://localhost:8888"; ws_faults := [false; true] |};
     _reconnectLimit := 7; _reconnectAttempt := 0; _isReady := false;
     _pendingMessages := [request1; request2; request3] |}.

(** ** Disposal *)

(** Only the three maps of the engine may differ between the worlds. *)
Definition same_outside_maps (w w' : World) : Prop :=
  _status (engine w') = _status (engine w) /\
  _socket (engine w') = _socket (engine w) /\
  slots (engine w') = slots (engine w) /\
  _targetRegistry (engine w') = _targetRegistry (engine w) /\
  promises w' = promises w /\
  openings w' = openings w /\
  sockets w' = sockets w /\
  runningKernels w' = runningKernels w.

(** ** Frame and trace rules *)

Definition frames {A} (R : World -> World -> Prop) (m : M A) : Prop :=
  forall w, R w (world (m w)).

Definition traces {A} (P : Event -> Prop) (m : M A) : Prop :=
  forall w, Forall P (trace (m w)).

(** What a disposal may change besides the maps of the engine: the
    status, to Dead; the connections; the websocket of a socket and
    the registry of running kernels. *)
Definition disposal (w w' : World) : Prop :=
  promises w' = promises w /\
  openings w' = openings w /\
  _socket (engine w') = _socket (engine w) /\
  (forall x, is_Some (sockets w !! x) -> is_Some (sockets w' !! x)) /\
  (_status (engine w') = _status (engine w) \/ _status (engine w') = Dead).

(** The only event of a disposal: the websocket is closed. *)
Definition is_close (e : Event) : Prop :=
  match e with EvWsClose _ => True | _ => False end.

(** ** Status updates *)

(** The line Private.logKernelStatus writes for a status. *)
Definition log_line (st : KernelStatus) (id : string) : list Event :=
  match st with
  | Idle | Busy | Unknown => []
  | Starting => [EvConsole "log" ("Kernel: starting (" +:+ id +:+ ")")]
  | Restarting => [EvConsole "log" ("Kernel: restarting (" +:+ id +:+ ")")]
  | Dead => [EvConsole "log" ("Kernel: dead (" +:+ id +:+ ")")]
  | Reconnecting => [EvConsole "log" ("Kernel:  (" +:+ id +:+ ")")]
  end.

(** The calls of _updateStatus for a sequence of states, each a call
    of its own: a throw in one does not stop the next. *)
Fixpoint updates (states : list string) : M unit :=
  match states with
  | [] => ret tt
  | state :: rest => attempt (Kernel__updateStatus state) >>> updates rest
  end.

(** After the specification's words: the distinct transitions of a
    sequence of states, from the current status. *)
Fixpoint transitions (current : KernelStatus) (states : list string) : list KernelStatus :=
  match states with
  | [] => []
  | state :: rest =>
      match status_of_state state with
      | Some st =>
          if decide (st = current) then transitions current rest
          else st :: transitions st rest
      | None => transitions current rest
      end
  end.

(** The socket of [world1]. *)
Definition socket1 : KernelSocket :=
  {| _wsUrl := "ws://localhost:8888"; _id := "k1"; _name := "python";
     _ws := Some {| ws_url := "ws://localhost:8888/api/kernels/k1/channels?session_id=undefined";
                    ws_faults := [] |};
     _reconnectLimit := 7; _reconnectAttempt := 0; _isReady := false;
     _pendingMessages := [] |}.

(** A world in which the engine is Idle. *)
Definition world_idle : World := with_engine (set_status Idle) world1.




(** A broadcast of a received message: iopubReceived or unhandledMessage. *)
Definition is_broadcast (e : Event) : bool :=
  is_emit IOPubReceived e || is_emit UnhandledMessage e.

(** An event that is neither a delivery to a future nor a broadcast. *)
Definition inner (e : Event) : Prop :=
  is_delivery e = false /\ is_broadcast e = false.

(** A status message on iopub that answers request "m1". *)
Definition idle_reply : IKernelMessage :=
  message "status" "s1" "iopub" (Some "m1")
    {| execution_state := "idle"; comm_id := ""; target_name := "";
       target_module := ""; data := "" |}.

(** The world once the engine has sent [request1]. *)
Definition world_sent : World :=
  world (Kernel_sendShellMessage host0 request1 true true world_idle).

(** The engine once Dead: the sample engine after the update "dead". *)
Definition world_dead : World := world (Kernel__updateStatus "dead" world_idle).

(** The callbacks chained on the open promise [p], while it is
    pending. *)
Definition waiting (w : World) (p : nat) : option (list Reaction) :=
  match openings w !! p with
  | Some o =>
      match co_state o with
      | OpenPending => Some (co_waiters o)
      | _ => None
      end
  | None => None
  end.

(** What the onMsg that a target installs does with a message. *)
Definition onMsg_events (target : Target) (msg : IKernelMessage) : list Event :=
  match installs_onMsg target with
  | Some cb =>
      EvCommOnMsg (cb_name cb) msg ::
      (if cb_throws cb then [EvConsole "error" "Exception handling comm msg"] else [])
  | None => []
  end.

(** A target that module "m" exports under the name "tgt", and one
    registered locally under the same name. *)
Definition module_target : Target :=
  {| target_id := "tgt exported by module m";
     installs_onMsg := Some {| cb_name := "onMsg set by the module target"; cb_throws := false |};
     installs_onClose := None; target_throws := false |}.

Definition local_target : Target :=
  {| target_id := "tgt registered locally";
     installs_onMsg := Some {| cb_name := "onMsg set by the local target"; cb_throws := false |};
     installs_onClose := None; target_throws := false |}.

(** A host where requirejs is defined and can load module "m". *)
Definition host_requirejs : Host :=
  {| validateKernelMessage := validateKernelMessage host0;
     serialize := serialize host0;
     uuid := uuid host0;
     requirejs := Some {[ "m" := {[ "tgt" := module_target ]} ]};
     urlPathJoin := urlPathJoin host0;
     urlJoinEncode := urlJoinEncode host0;
     getBaseUrl := getBaseUrl host0;
     getWsUrl := getWsUrl host0;
     newWebSocket := newWebSocket host0 |}.

(** comm_open{target_name: "tgt", target_module: "m", comm_id: "c1"}
    and a comm_msg for the same comm. *)
Definition open_c1 : IKernelMessage :=
  message "comm_open" "o1" "iopub" None
    {| execution_state := ""; comm_id := "c1"; target_name := "tgt";
       target_module := "m"; data := "" |}.

Definition msg_c1 : IKernelMessage :=
  message "comm_msg" "o2" "iopub" None
    {| execution_state := ""; comm_id := "c1"; target_name := "";
       target_module := ""; data := "x" |}.

(** The comm_msg messages of a list as they arrive, each handled by a
    call of _handleCommMsg. *)
Fixpoint handleCommMsgs (msgs : list IKernelMessage) : M unit :=
  match msgs with
  | [] => ret tt
  | msg :: rest => Kernel__handleCommMsg msg >>> handleCommMsgs rest
  end.

(** A second comm_msg for the comm "c1". *)
Definition msg_c1' : IKernelMessage :=
  message "comm_msg" "o3" "iopub" None
    {| execution_state := ""; comm_id := "c1"; target_name := "";
       target_module := ""; data := "y" |}.

(** The engine with "tgt" registered locally. *)
Definition world_registered : World :=
  world (Kernel_registerCommTarget "tgt" local_target world_idle).

(** A session of the earlier file, and a 404 answer to its DELETE. *)
Definition session_s1 : Session.t :=
  {| Session._uuid := "s1"; Session._options := true; Session._kernel := true |}.

Definition not_found : Session.AjaxResult :=
  Session.Failure
    {| Session.xhr := {| status := 404; statusText := "Not Found";
                         responseText := "Session not found: abc" |};
       Session.statusText := "Not Found";
       Session.error := Some "Not Found" |}.

(** Two running sessions of session/default.ts, and answers of the
    server to a DELETE. *)
Definition running2 : list DefaultSession.t :=
  [ {| DefaultSession._uuid := "u1"; DefaultSession._id := Some "abc";
       DefaultSession._path := "a.ipynb"; DefaultSession._options := true;
       DefaultSession._kernel := true |};
    {| DefaultSession._uuid := "u2"; DefaultSession._id := Some "xyz";
       DefaultSession._path := "b.ipynb"; DefaultSession._options := true;
       DefaultSession._kernel := true |} ].

Definition response (code : nat) (text : string) : XHR :=
  {| status := code; statusText := text; responseText := "body of the response" |}.

(** A JSON.parse for the samples: the body is an object with a
    message. *)
Definition parse_message (body : string) : option JSON := Some (JObject (Some body)).

Definition is_error_log (e : SessionEvent) : bool :=
  match e with LogError _ => true | _ => false end.

(** A session that the loop of killSessions disposes. *)
Definition killed (id : string) (x : DefaultSession.t) : Prop :=
  DefaultSession._id x = Some id /\ DefaultSession._options x = true.

(** ** Further derived notions *)

(** The future [sendShellMessage] makes for a message. *)
Definition new_future (msg : IKernelMessage) (expectReply disposeOnDone : bool) : KernelFutureHandler :=
  {| f_msg := msg; f_expectReply := expectReply; f_disposeOnDone := disposeOnDone;
     f_replyReceived := false; f_idleReceived := false; f_done := false;
     f_onReply := None |}.

(** The future registered for the request with the id [id]. *)
Definition future_of (w : World) (id : string) : option KernelFutureHandler :=
  _futures (engine w) ≫= (fun fs => fs !! id).


(** The sample socket, ready, with a websocket whose next send throws;
    and the same without a websocket. *)
Definition world_ready_faulty : World :=
  with_sockets (fun m =>
    alter (fun s =>
      set_isReady true
        (set_ws (Some {| ws_url := "ws://localhost:8888"; ws_faults := [true] |}) s)) 0 m)
    world_idle.

(** The disposable that registerCommTarget returns, disposed: a
    DisposableDelegate over
    [() => { delete this._targetRegistry[targetName]; }]. *)
Definition registerCommTarget_disposeCb (targetName : string) : M unit :=
  let! k := the_engine in
  match _targetRegistry k with
  | None => throw (null_member targetName)
  | Some r => update_engine (set_targetRegistry (Some (delete targetName r)))
  end.

(** What a comm_open that names [name] and no module finds. *)
Definition target_for (h : Host) (w : World) (name : string) : LoadState :=
  loadObject h name "" (_targetRegistry (engine w)).

(** Comm.open(data, metadata).  The test [this._msgFunc === void 0]
    never holds, the field being a function or null; on a disposed
    comm the call of [this._msgFunc] is a call of null. *)
Definition Comm_open (h : Host) (c : Comm) (d metadata : string) : M KernelFutureHandler :=
  let content :=
    {| execution_state := ""; comm_id := id_or_undefined (c_id c);
       target_name := c_target c; target_module := ""; data := d |} in
  let payload :=
    {| p_msgType := "comm_open"; p_content := content;
       p_metadata := metadata; p_buffers := [] |} in
  if c_msgFunc c then Kernel__sendCommMessage h payload true
  else throw (TypeError "this._msgFunc is not a function").

(** Comm.send(data, metadata = {}, buffers = [], disposeOnDone = true) *)
Definition Comm_send (h : Host) (c : Comm) (d metadata : string) (buffers : list string)
    (disposeOnDone : bool) : M KernelFutureHandler :=
  if Comm_isDisposed c then throw (Error "Comm is closed") else
  let content :=
    {| execution_state := ""; comm_id := id_or_undefined (c_id c);
       target_name := ""; target_module := ""; data := d |} in
  let payload :=
    {| p_msgType := "comm_msg"; p_content := content;
       p_metadata := metadata; p_buffers := buffers |} in
  Kernel__sendCommMessage h payload disposeOnDone.

(** The comm [connectToComm] makes, and the one the callback of
    [_handleCommOpen] has made once the target has run. *)
Definition client_comm (targetName commId : string) : Comm :=
  {| c_target := targetName; c_id := Some commId; c_onClose := None; c_onMsg := None;
     c_msgFunc := true; c_callback := Some UnregisterOwnId |}.

Definition kernel_comm (target : Target) (content : Content) : Comm :=
  {| c_target := target_name content; c_id := Some (comm_id content);
     c_onClose := installs_onClose target; c_onMsg := installs_onMsg target;
     c_msgFunc := true; c_callback := Some (UnregisterId (comm_id content)) |}.

(** The comm the engine holds under an id. *)
Definition comm_of (w : World) (id : string) : option Comm :=
  _comms (engine w) ≫= (fun cs => cs !! id).

(** The message a comm sends: what _sendCommMessage builds for a
    payload when the next uuid is number [n]. *)
Definition comm_message (h : Host) (k : Kernel) (n : nat) (type : string) (c : Content)
    (metadata : string) (buffers : list string) : IKernelMessage :=
  {| header := {| username := _username k; version := "5.0"; session := _clientId k;
                  msg_id := uuid h n; msg_type := type |};
     parent_header := Some {| parent_msg_id := None |};
     channel := "shell"; content := c; metadata := metadata; buffers := buffers |}.

Definition onClose_events (c : Comm) (m : IKernelMessage) : list Event :=
  match c_onClose c with
  | Some cb => [EvCommOnClose (cb_name cb) m]
  | None => []
  end.

Definition onClose_quiet (c : Comm) : bool :=
  match c_onClose c with
  | Some cb => negb (cb_throws cb)
  | None => true
  end.

(** What the callback of _handleCommClose shows of the onClose of a
    comm: the call, and the error logged when it throws. *)
Definition server_close_events (c : Comm) (m : IKernelMessage) : list Event :=
  match c_onClose c with
  | Some cb =>
      EvCommOnClose (cb_name cb) m ::
      (if cb_throws cb then [EvConsole "error" "Exception closing comm"] else [])
  | None => []
  end.

(** No open promise is stored for the comm id. *)
Definition no_opening (w : World) (id : string) : Prop :=
  (_commPromises (engine w) ≫= (fun ps => ps !! id)) = None.

(** The sample engine with a comm "c1" made by connectToComm, and a
    comm_close for it. *)
Definition world_comm : World :=
  world (Kernel_connectToComm host0 "target" (Some "c1") world_idle).

Definition close_c1 : IKernelMessage :=
  message "comm_close" "o4" "iopub" None
    {| execution_state := ""; comm_id := "c1"; target_name := "";
       target_module := ""; data := "" |}.

(** No future is registered for the request a message answers. *)
Definition unclaimed (w : World) (msg : IKernelMessage) : Prop :=
  match parent_header msg with
  | None => True
  | Some parentHeader => lookup_future (engine w) parentHeader = None
  end.

(** Who receives a signal of the engine in a world. *)
Definition listeners (w : World) (sig : Signal) : list string :=
  receivers sig (slots (engine w)).

(** A target whose onMsg throws, and the sample engine once the kernel
    has opened the comm "c3" on it. *)
Definition throwing_target : Target :=
  {| target_id := "bad";
     installs_onMsg := Some {| cb_name := "onMsg that throws"; cb_throws := true |};
     installs_onClose := None; target_throws := false |}.

Definition open_c3 : IKernelMessage :=
  message "comm_open" "o5" "iopub" None
    {| execution_state := ""; comm_id := "c3"; target_name := "bad";
       target_module := ""; data := "" |}.

Definition msg_c3 : IKernelMessage :=
  message "comm_msg" "o6" "iopub" None
    {| execution_state := ""; comm_id := "c3"; target_name := "";
       target_module := ""; data := "x" |}.

Definition world_throwing : World :=
  world ((Kernel_registerCommTarget "bad" throwing_target >>>
          Kernel__handleCommOpen host0 open_c3 >>>
          settle_opening host0 (clock world_idle)) world_idle).

(** A status message on iopub. *)
Definition status_message (id state : string) : IKernelMessage :=
  message "status" id "iopub" None
    {| execution_state := state; comm_id := ""; target_name := "";
       target_module := ""; data := "" |}.

(** The engine the constructor builds, with the target "bad"
    registered, when the comm_open for "c3" has arrived, and when that
    open has been resolved. *)
Definition world_opening : World :=
  world ((Kernel_registerCommTarget "bad" throwing_target >>>
          Kernel__onKernelMessage host0 open_c3) world_listening).

Definition world_opened : World :=
  world (settle_opening host0 (clock world_listening) world_opening).

(** The close of the websocket of a socket, when it has one. *)
Definition close_events (s : KernelSocket) : list Event :=
  match _ws s with
  | Some ws => [EvWsClose (ws_url ws)]
  | None => []
  end.

(** A target that throws once it has set its handlers, and a comm_open
    for it. *)
Definition failing_target : Target :=
  {| target_id := "failing"; installs_onMsg := None; installs_onClose := None;
     target_throws := true |}.

Definition open_c4 : IKernelMessage :=
  message "comm_open" "o7" "iopub" None
    {| execution_state := ""; comm_id := "c4"; target_name := "failing";
       target_module := ""; data := "" |}.

Definition msg_c4 : IKernelMessage :=
  message "comm_msg" "o8" "iopub" None
    {| execution_state := ""; comm_id := "c4"; target_name := "";
       target_module := ""; data := "x" |}.

Definition world_failing : World :=
  world (Kernel_registerCommTarget "failing" failing_target world_idle).

(** The message sendInputReply builds when the next uuid is number [n]. *)
Definition input_reply (h : Host) (k : Kernel) (n : nat) (c : Content) : IKernelMessage :=
  {| header := {| username := _username k; version := "5.0"; session := _clientId k;
                  msg_id := uuid h n; msg_type := "input_reply" |};
     parent_header := Some {| parent_msg_id := None |};
     channel := "stdin"; content := c; metadata := ""; buffers := [] |}.

(** The value findKernelById is fulfilled with. *)
Inductive KernelIdModel :=
| OfSocket (id name : string)   (* { id, name: socket.name } *)
| OfServer (data : string).     (* the model the server sent *)

(** findKernelById(id, options), run to the settlement of its promise. *)
Definition findKernelById (h : Host) (id : string) (options : IKernelOptions) (reply : AjaxReply)
  : M KernelIdModel :=
  let! w := get in
  match runningKernels w !! id with
  | Some socket => let! sock := the_socket socket in ret (OfSocket id (_name sock))
  | None =>
      try_catch
        (let! data := getKernelId h id options reply in ret (OfServer data))
        (fun _ => throw (Error ("No running kernel with id: " +:+ id)))
  end.

(** The url of the kernel service for the options, and the events of
    the constructor of a socket. *)
Definition kernels_url (h : Host) (options : IKernelOptions) (action : list string) : string :=
  urlPathJoin h (options_baseUrl h options :: "api/kernels" :: action).

Definition socket_wsUrl (h : Host) (options : IKernelOptions) : string :=
  if String.eqb (opt_wsUrl options) "" then getWsUrl h (options_baseUrl h options)
  else opt_wsUrl options.

Definition socket_events (h : Host) (options : IKernelOptions) (id : string) : list Event :=
  let partialUrl := urlPathJoin h [socket_wsUrl h options; "api/kernels"; urlJoinEncode h [id]] in
  [EvConsole "log" ("Starting WebSocket: " +:+ partialUrl);
   EvWsNew (urlPathJoin h [partialUrl; "channels"] +:+ "?session_id=" +:+ "undefined")].

(** An answer of the server that getKernelId accepts. *)
Definition found (reply : AjaxReply) : option string :=
  match reply with
  | AjaxSuccess status (Some data) => if (status =? 200)%nat then Some data else None
  | _ => None
  end.

(** What is seen of a request that the server refuses. *)
Definition refusal_events (reply : AjaxReply) : list Event :=
  match reply with
  | AjaxFailure statusText =>
      [EvConsole "error" ("API request failed (" +:+ statusText +:+ "): ")]
  | AjaxSuccess _ _ => []
  end.

(** Private.shutdownKernel, from the answer of the server on: the
    callbacks it gives to [then].  A throw rejects the promise. *)
Definition shutdownKernel_answer (reply : AjaxReply) : M unit :=
  match reply with
  | AjaxSuccess status _ =>
      if negb (status =? 204)%nat then throw (Error ("Invalid Status: " +:+ pretty status))
      else
        let! k := the_engine in
        match _socket k with
        | None => throw (null_member "dispose")
        | Some s => KernelSocket_dispose s
        end
  | AjaxFailure statusText => onKernelError statusText
  end.

(** shutdown(), from the answer of the server on:
    [.then(() => { this.dispose(); })]. *)
Definition Kernel_shutdown_answer (reply : AjaxReply) : M unit :=
  shutdownKernel_answer reply >>> Kernel_dispose.

(** The url of a request on the kernel of the engine. *)
Definition kernel_url (h : Host) (w : World) (id : string) (action : list string) : string :=
  urlPathJoin h [_baseUrl (engine w); "api/kernels"; urlJoinEncode h (id :: action)].

(** The maps of the engine are empty. *)
Definition cleared (k : Kernel) : Prop :=
  _futures k = Some ∅ /\ _commPromises k = Some ∅ /\ _comms k = Some ∅.

(** What no disposal touches: the identity of the engine and the
    counter of the store. *)
Definition same_identity (w w' : World) : Prop :=
  _baseUrl (engine w') = _baseUrl (engine w) /\
  _clientId (engine w') = _clientId (engine w) /\
  _username (engine w') = _username (engine w) /\
  _spec (engine w') = _spec (engine w) /\
  jobs w' = jobs w /\
  clock w' = clock w.

(** ** DefaultSession.shutdown (session/default.ts) *)

(** [session.id === id], for the id a caller holds, which may be null. *)
Definition same_id (id : option string) (session : DefaultSession.t) : bool :=
  bool_decide (DefaultSession._id session = id).

(** Private.killSessions(id), null included. *)
Fixpoint killSessions_loop_by (id : option string) (snapshot running : list DefaultSession.t)
  : list DefaultSession.t * list SessionEvent :=
  match snapshot with
  | [] => (running, [])
  | session :: rest =>
      if same_id id session then
        let d := DefaultSession.dispose session running in
        let r := killSessions_loop_by id rest d.1 in
        (r.1, Terminated (DefaultSession._uuid session) :: d.2 ++ r.2)
      else killSessions_loop_by id rest running
  end.

Definition killSessions_by (id : option string) (running : list DefaultSession.t)
  : list DefaultSession.t * list SessionEvent :=
  killSessions_loop_by id running running.

(** Private.shutdownSession(id, baseUrl, ajaxSettings) for the id that
    DefaultSession.shutdown passes, which is null for a session without
    one; run to the settlement of its promise. *)
Definition shutdownSession_by (parse : string -> option JSON) (id : option string)
    (running : list DefaultSession.t) (response : XHR) : DefaultSession.Result :=
  match DefaultSession.ajaxRequest response with
  | DefaultSession.Success x =>
      if negb (status x =? 204)%nat then
        {| DefaultSession.outcome := DefaultSession.RejectedWith (DefaultSession.OfAjaxError
             {| DefaultSession.xhr := x;
                DefaultSession.message := "Invalid Status: " +:+ pretty (status x);
                DefaultSession.throwError := None |});
           DefaultSession.runningSessions := running; DefaultSession.log := [] |}
      else
        let k := killSessions_by id running in
        {| DefaultSession.outcome := DefaultSession.Resolved;
           DefaultSession.runningSessions := k.1; DefaultSession.log := k.2 |}
  | DefaultSession.Failure err =>
      if (status (DefaultSession.xhr err) =? 404)%nat then
        match parse (responseText (DefaultSession.xhr err)) with
        | None =>
            {| DefaultSession.outcome := DefaultSession.RejectedWith DefaultSession.OfSyntaxError;
               DefaultSession.runningSessions := running; DefaultSession.log := [] |}
        | Some JNull =>
            {| DefaultSession.outcome := DefaultSession.RejectedWith DefaultSession.OfTypeError;
               DefaultSession.runningSessions := running; DefaultSession.log := [] |}
        | Some (JObject message) =>
            let k := killSessions_by id running in
            {| DefaultSession.outcome := DefaultSession.Resolved;
               DefaultSession.runningSessions := k.1;
               DefaultSession.log := Warn (DefaultSession.show message) :: k.2 |}
        | Some JOther =>
            let k := killSessions_by id running in
            {| DefaultSession.outcome := DefaultSession.Resolved;
               DefaultSession.runningSessions := k.1;
               DefaultSession.log := Warn "undefined" :: k.2 |}
        end
      else
        let err1 :=
          if (status (DefaultSession.xhr err) =? 410)%nat then
            {| DefaultSession.xhr := DefaultSession.xhr err;
               DefaultSession.message := DefaultSession.message err;
               DefaultSession.throwError :=
                 Some "The kernel was deleted but the session was not" |}
          else err in
        let r := DefaultSession.onSessionError err1 in
        {| DefaultSession.outcome := r.1; DefaultSession.runningSessions := running;
           DefaultSession.log := r.2 |}
  end.

(** [this._id = null], seen through the list of running sessions, which
    holds the same object. *)
Definition without_id (s : DefaultSession.t) : DefaultSession.t :=
  {| DefaultSession._uuid := DefaultSession._uuid s; DefaultSession._id := None;
     DefaultSession._path := DefaultSession._path s;
     DefaultSession._options := DefaultSession._options s;
     DefaultSession._kernel := DefaultSession._kernel s |}.

Definition forget_id (this : DefaultSession.t) (running : list DefaultSession.t)
  : list DefaultSession.t :=
  map (fun s => if String.eqb (DefaultSession._uuid s) (DefaultSession._uuid this)
                then without_id s else s) running.

Inductive ShutdownResult :=
| SessionDisposed              (* rejected with Error('Session is disposed') *)
| Sent (r : DefaultSession.Result).

(** DefaultSession.shutdown(), run to the settlement of its promise on
    the response to the DELETE. *)
Definition DefaultSession_shutdown (parse : string -> option JSON) (this : DefaultSession.t)
    (running : list DefaultSession.t) (response : XHR) : ShutdownResult :=
  if DefaultSession.isDisposed this then SessionDisposed
  else
    let id := DefaultSession._id this in
    Sent (shutdownSession_by parse id (forget_id this running) response).

(** The first of the sample sessions, and a third session of the same
    id. *)
Definition session_u1 : DefaultSession.t :=
  {| DefaultSession._uuid := "u1"; DefaultSession._id := Some "abc";
     DefaultSession._path := "a.ipynb"; DefaultSession._options := true;
     DefaultSession._kernel := true |}.

(** How the promise of setPath settles: at once, or with the PATCH
    whose data is [JSON.stringify({ path })]. *)
Inductive PathOutcome :=
| PathResolved
| PathRejected (e : JsError)
| PathPatched (path : string).

Record PathResult := {
  path_outcome : PathOutcome;
  path_session : DefaultSession.t;
  path_changed : list string     (* this._changed.emit(key) *)
}.

Definition with_path (path : string) (s : DefaultSession.t) : DefaultSession.t :=
  {| DefaultSession._uuid := DefaultSession._uuid s; DefaultSession._id := DefaultSession._id s;
     DefaultSession._path := path;
     DefaultSession._options := DefaultSession._options s;
     DefaultSession._kernel := DefaultSession._kernel s |}.

(** setPath(path), up to the request. *)
Definition DefaultSession_setPath (this : DefaultSession.t) (path : string) : PathResult :=
  if String.eqb (DefaultSession._path this) path then
    {| path_outcome := PathResolved; path_session := this; path_changed := [] |}
  else if DefaultSession.isDisposed this then
    {| path_outcome := PathRejected (Error "Session is disposed");
       path_session := this; path_changed := [] |}
  else
    let this' := with_path path this in
    match DefaultSession._id this with
    | None =>
        {| path_outcome := PathResolved; path_session := this'; path_changed := ["path"] |}
    | Some id =>
        if String.eqb id "" then
          {| path_outcome := PathResolved; path_session := this'; path_changed := ["path"] |}
        else
          {| path_outcome := PathPatched path; path_session := this';
             path_changed := ["path"] |}
    end.

(** ** Helpers of utils.ts *)

(** [s.charAt(i)] for an integer [i]: the empty string out of range. *)
Definition charAt (s : string) (i : Z) : string :=
  if (i <? 0)%Z then ""
  else match String.get (Z.to_nat i) s with
       | Some c => String c ""
       | None => ""
       end.

(** uuid(); [random i] is the value of the call number [i] of
    Math.random. *)
Definition utils_uuid (random : nat -> QArith_base.Q) : string :=
  let hexDigits := "0123456789abcdef" in
  let nChars := Z.of_nat (String.length hexDigits) in
  String.concat ""
    (map (fun i =>
            charAt hexDigits
              (Qround.Qfloor (QArith_base.Qmult (random i) (QArith_base.inject_Z nChars))))
       (seq 0 32)).

(** Math.random gives a number of the interval from 0 (included) to 1
    (excluded). *)
Definition unit_interval (q : QArith_base.Q) : Prop :=
  QArith_base.Qle (QArith_base.inject_Z 0) q /\ QArith_base.Qlt q (QArith_base.inject_Z 1).

Definition hex_digit (c : Ascii.ascii) : Prop :=
  In c (String.list_ascii_of_string "0123456789abcdef").

(** The environment of utils.ts: the configuration of the page
    (getConfigOption, where the empty string stands for undefined),
    [location.origin] when there is a location, and url-join. *)
Record Env := {
  config : string -> string;
  location_origin : option string;
  urljoin : list string -> string
}.

(** [s.slice(n)] *)
Definition slice (n : nat) (s : string) : string :=
  String.substring n (String.length s - n) s.

(** Private.getBaseUrl() *)
Definition utils_getBaseUrl (e : Env) : string :=
  let baseUrl := config e "baseUrl" in
  if String.eqb baseUrl "" || String.eqb baseUrl "/" then
    match location_origin e with
    | None => "http://localhost:8888/"
    | Some origin => origin +:+ "/"
    end
  else baseUrl.

(** Private.getWsUrl(baseUrl) *)
Definition utils_getWsUrl (e : Env) (baseUrl : string) : string :=
  let wsUrl := config e "wsUrl" in
  if negb (String.eqb wsUrl "") then wsUrl else
  let baseUrl := if String.eqb baseUrl "" then utils_getBaseUrl e else baseUrl in
  let baseUrl :=
    if negb (String.prefix "http" baseUrl) then
      match location_origin e with
      | Some origin => urljoin e [origin; baseUrl]
      | None => urljoin e ["http://localhost:8888/"; baseUrl]
      end
    else baseUrl in
  "ws" +:+ slice 4 baseUrl.

(** * Properties *)

(** ** Reasoning about computations *)

Lemma bind_run {A B} (m : M A) (f : A -> M B) (w : World) :
  bind m f w =
    match completion (m w) with
    | Normal a =>
        MkRun (completion (f a (world (m w)))) (world (f a (world (m w))))
              (trace (m w) ++ trace (f a (world (m w))))
    | Throw e => MkRun (Throw e) (world (m w)) (trace (m w))
    end.
Proof.
  unfold bind. destruct (m w) as [[a|e] w1 t1]; simpl; [|reflexivity].
  destruct (f a w1); reflexivity.
Qed.

Lemma bind_normal {A B} (m : M A) (f : A -> M B) (w : World) (a : A) :
  completion (m w) = Normal a ->
  bind m f w =
    MkRun (completion (f a (world (m w)))) (world (f a (world (m w))))
          (trace (m w) ++ trace (f a (world (m w)))).
Proof. intros H. rewrite bind_run, H. reflexivity. Qed.

Lemma bind_throw {A B} (m : M A) (f : A -> M B) (w : World) (e : JsError) :
  completion (m w) = Throw e ->
  bind m f w = MkRun (Throw e) (world (m w)) (trace (m w)).
Proof. intros H. rewrite bind_run, H. reflexivity. Qed.

Lemma run_eta {A} (r : Run A) : r = MkRun (completion r) (world r) (trace r).
Proof. destruct r; reflexivity. Qed.

(** ** The pending queue of the socket *)

Lemma the_socket_run (this : nat) (w : World) (s : KernelSocket) :
  sockets w !! this = Some s -> the_socket this w = MkRun (Normal s) w [].
Proof. intros Hs. unfold the_socket. rewrite Hs. reflexivity. Qed.

Lemma KernelSocket_send_queues (h : Host) (this : nat) (msg : IKernelMessage)
    (w : World) (s : KernelSocket) :
  sockets w !! this = Some s -> _isReady s = false ->
  KernelSocket_send h this msg w =
    MkRun (Normal tt)
      (with_sockets (fun m =>
         alter (fun s => set_pendingMessages (_pendingMessages s ++ [msg]) s) this m) w) [].
Proof.
  intros Hs Hready. unfold KernelSocket_send. rewrite bind_run.
  rewrite (the_socket_run this w s Hs). simpl. rewrite Hready. reflexivity.
Qed.

Lemma send_all_queues (h : Host) (this : nat) (msgs : list IKernelMessage) :
  forall (w : World) (s : KernelSocket),
    sockets w !! this = Some s -> _isReady s = false ->
    completion (send_all h this msgs w) = Normal tt /\
    trace (send_all h this msgs w) = [] /\
    pending_of (world (send_all h this msgs w)) this = Some (_pendingMessages s ++ msgs).
Proof.
  induction msgs as [|msg rest IH]; intros w s Hs Hready; simpl.
  - unfold pending_of. rewrite Hs, app_nil_r. auto.
  - rewrite bind_run, (KernelSocket_send_queues h this msg w s Hs Hready). simpl.
    set (w1 := with_sockets _ w).
    assert (H1 : sockets w1 !! this = Some (set_pendingMessages (_pendingMessages s ++ [msg]) s)).
    { unfold w1; simpl. rewrite lookup_alter_eq, Hs. reflexivity. }
    destruct (IH w1 _ H1 Hready) as (Hc & Ht & Hw).
    rewrite Hc, Ht, Hw. simpl. rewrite <- app_assoc. auto.
Qed.

Lemma ws_send_run (this : nat) (payload : string) (w : World) (s : KernelSocket) (ws : WebSocket) :
  sockets w !! this = Some s -> _ws s = Some ws ->
  ws_send this payload w =
    MkRun (WebSocket_send ws payload).1.1
          (with_sockets (fun m => <[this := set_ws (Some (WebSocket_send ws payload).1.2) s]> m) w)
          (WebSocket_send ws payload).2.
Proof.
  intros Hs Hws. unfold ws_send. rewrite Hs, Hws.
  destruct (WebSocket_send ws payload) as [[c ws'] t]. reflexivity.
Qed.

Lemma accepted_le (faults : list bool) (n : nat) : accepted faults n <= n.
Proof.
  revert faults. induction n as [|n IH]; intros faults; simpl; [lia|].
  destruct faults as [|[|] rest]; [lia|lia|]. specialize (IH rest). lia.
Qed.

Lemma accepted_nil (n : nat) : accepted [] n = n.
Proof. destruct n; reflexivity. Qed.

Lemma sendPending_loop_spec (h : Host) (this : nat) (q : list IKernelMessage) :
  forall (w : World) (s : KernelSocket) (ws : WebSocket),
    sockets w !! this = Some s -> _ws s = Some ws -> _pendingMessages s = q ->
    let n := accepted (ws_faults ws) (length q) in
    let r := sendPending_loop h this q w in
    trace r = wire h (take n q) /\
    pending_of (world r) this = Some (drop n q) /\
    (exists s' ws', sockets (world r) !! this = Some s' /\ _ws s' = Some ws') /\
    (n = length q -> completion r = Normal tt) /\
    (n < length q -> exists e, completion r = Throw e).
Proof.
  induction q as [|msg rest IH]; intros w s ws Hs Hws Hq; simpl.
  - unfold pending_of. rewrite Hs. simpl. rewrite Hq.
    repeat split; eauto; intros; lia.
  - rewrite bind_run, (ws_send_run this _ w s ws Hs Hws).
    unfold WebSocket_send.
    destruct (ws_faults ws) as [|[|] faults] eqn:Hf; simpl.
    + (* nothing scripted: the send is accepted *)
      rewrite bind_run. simpl.
      set (w2 := with_sockets _ (with_sockets _ w)).
      set (s2 := set_pendingMessages rest (set_ws (Some ws) s)).
      assert (H2 : sockets w2 !! this = Some s2).
      { unfold w2; simpl. rewrite lookup_alter_eq, lookup_insert_eq. reflexivity. }
      destruct (IH w2 s2 ws H2 eq_refl eq_refl) as (Ht & Hp & Hex & Hn & Hl).
      rewrite Hf, accepted_nil in *. rewrite Ht, Hp.
      repeat split; auto. intros; lia.
    + (* the send throws: nothing is shifted *)
      unfold pending_of. simpl. rewrite lookup_insert_eq. simpl. rewrite Hq.
      repeat split; eauto. intros; lia.
    + rewrite bind_run. simpl.
      set (ws1 := {| ws_url := ws_url ws; ws_faults := faults |}).
      set (w2 := with_sockets _ (with_sockets _ w)).
      set (s2 := set_pendingMessages rest (set_ws (Some ws1) s)).
      assert (H2 : sockets w2 !! this = Some s2).
      { unfold w2; simpl. rewrite lookup_alter_eq, lookup_insert_eq. reflexivity. }
      destruct (IH w2 s2 ws1 H2 eq_refl eq_refl) as (Ht & Hp & Hex & Hn & Hl).
      simpl in *. rewrite Ht, Hp.
      repeat split; auto; intros H; first [apply Hn; lia | apply Hl; lia].
Qed.

Lemma sendPending_spec (h : Host) (this : nat) (w : World) (s : KernelSocket) (ws : WebSocket) :
  sockets w !! this = Some s -> _ws s = Some ws ->
  let q := _pendingMessages s in
  let n := accepted (ws_faults ws) (length q) in
  let r := KernelSocket__sendPending h this w in
  trace r = wire h (take n q) /\
  pending_of (world r) this = Some (drop n q) /\
  (exists s' ws', sockets (world r) !! this = Some s' /\ _ws s' = Some ws') /\
  (n = length q -> completion r = Normal tt) /\
  (n < length q -> exists e, completion r = Throw e).
Proof.
  intros Hs Hws. simpl. unfold KernelSocket__sendPending.
  rewrite bind_run, (the_socket_run this w s Hs). simpl.
  destruct (sendPending_loop_spec h this (_pendingMessages s) w s ws Hs Hws eq_refl)
    as (Ht & Hp & Hex & Hn & Hl).
  repeat split; auto.
Qed.

(** C3.  While the socket is not ready, the messages given to
    KernelSocket.send are appended to the pending queue in the order of
    the calls and nothing goes on the wire.  A flush sends the queue
    from its head, in order: a message leaves the queue only when its
    send has returned, so when a send throws the flush stops with that
    message still at the head and the messages behind it untouched, and
    a later flush that completes has sent, together with the first,
    every queued message exactly once and in the order of the queue. *)
Theorem C3_pending_queue_fifo_retry (h : Host) (this : nat) (w : World) (s : KernelSocket) :
  sockets w !! this = Some s ->
  (_isReady s = false -> forall msgs : list IKernelMessage,
     completion (send_all h this msgs w) = Normal tt /\
     trace (send_all h this msgs w) = [] /\
     pending_of (world (send_all h this msgs w)) this = Some (_pendingMessages s ++ msgs)) /\
  (forall ws : WebSocket, _ws s = Some ws ->
     let q := _pendingMessages s in
     let n := accepted (ws_faults ws) (length q) in
     let r := KernelSocket__sendPending h this w in
     let r2 := KernelSocket__sendPending h this (world r) in
     trace r = wire h (take n q) /\
     pending_of (world r) this = Some (drop n q) /\
     (n = length q -> completion r = Normal tt) /\
     (n < length q -> exists e, completion r = Throw e) /\
     (completion r2 = Normal tt ->
        trace r ++ trace r2 = wire h q /\ pending_of (world r2) this = Some [])).
Proof.
  intros Hs. split.
  - intros Hready msgs. exact (send_all_queues h this msgs w s Hs Hready).
  - intros ws Hws. simpl.
    destruct (sendPending_spec h this w s ws Hs Hws) as (Ht & Hp & (s' & ws' & Hs' & Hws') & Hn & Hl).
    split; [exact Ht|]. split; [exact Hp|]. split; [exact Hn|]. split; [exact Hl|].
    intros Hc2.
    destruct (sendPending_spec h this _ s' ws' Hs' Hws') as (Ht2 & Hp2 & _ & _ & Hl2).
    set (q := _pendingMessages s) in *.
    set (n := accepted (ws_faults ws) (length q)) in *.
    assert (Hq' : _pendingMessages s' = drop n q).
    { unfold pending_of in Hp. rewrite Hs' in Hp. simpl in Hp. congruence. }
    rewrite Hq' in *.
    pose proof (accepted_le (ws_faults ws') (length (drop n q))) as Hle.
    destruct (decide (accepted (ws_faults ws') (length (drop n q)) = length (drop n q)))
      as [Heq|Hne].
    + rewrite Ht, Ht2, Hp2, Heq, firstn_all, drop_all. unfold wire.
      rewrite <- map_app, take_drop. split; reflexivity.
    + destruct Hl2 as [e He]; [lia|]. congruence.
Qed.

Lemma C3_witness :
  trace (KernelSocket__sendPending host0 0 world_faulty) = wire host0 [request1] /\
  pending_of (world (KernelSocket__sendPending host0 0 world_faulty)) 0
    = Some [request2; request3].
Proof.
  assert (Hs : sockets world_faulty !! 0 = Some socket_faulty) by (vm_compute; reflexivity).
  destruct (C3_pending_queue_fifo_retry host0 0 world_faulty socket_faulty Hs) as [_ Hflush].
  destruct (Hflush _ eq_refl) as (Ht & Hp & _).
  split; [exact Ht | exact Hp].
Defined.

Lemma same_outside_maps_refl (w : World) : same_outside_maps w w.
Proof. unfold same_outside_maps. auto 12. Qed.

Lemma same_outside_maps_trans (a b c : World) :
  same_outside_maps a b -> same_outside_maps b c -> same_outside_maps a c.
Proof. unfold same_outside_maps. intuition congruence. Qed.

Lemma forEach_silent {V} (body : string -> V -> M unit) :
  (forall key v w, trace (body key v w) = []) ->
  forall entries w, trace (forEach body entries w) = [].
Proof.
  intros Hbody. induction entries as [|[key v] rest IH]; intros w; simpl; [reflexivity|].
  rewrite bind_run. destruct (completion (body key v w)); simpl.
  - rewrite Hbody, IH. reflexivity.
  - apply Hbody.
Qed.

Lemma forEach_frame {V} (R : World -> World -> Prop) (body : string -> V -> M unit) :
  (forall w, R w w) -> (forall a b c, R a b -> R b c -> R a c) ->
  (forall key v w, R w (world (body key v w))) ->
  forall entries w, R w (world (forEach body entries w)).
Proof.
  intros Hrefl Htrans Hbody. induction entries as [|[key v] rest IH]; intros w; simpl; [apply Hrefl|].
  rewrite bind_run. destruct (completion (body key v w)); simpl.
  - eapply Htrans; [apply Hbody | apply IH].
  - apply Hbody.
Qed.

Lemma forEach_safe {V} (Inv : World -> Prop) (body : string -> V -> M unit) :
  (forall key v w, Inv w -> completion (body key v w) = Normal tt /\ Inv (world (body key v w))) ->
  forall entries w, Inv w ->
    completion (forEach body entries w) = Normal tt /\ Inv (world (forEach body entries w)).
Proof.
  intros Hbody. induction entries as [|[key v] rest IH]; intros w Hw; simpl; [auto|].
  destruct (Hbody key v w Hw) as [Hc Hi].
  rewrite (bind_normal _ _ w tt Hc). simpl. apply IH, Hi.
Qed.

Ltac run :=
  unfold Kernel__unregisterComm, KernelFutureHandler_dispose, future_disposeCb,
    write_back, the_engine, update_engine, clearSignalData, emit, event, modify,
    when, ret, throw, get, bind in *; simpl in *.

Ltac finish := repeat split; intros; auto; try discriminate; try congruence.

Lemma dispose_future_entry_run (key : string) (f0 : KernelFutureHandler) (w : World) :
  trace (dispose_future_entry key f0 w) = [] /\
  same_outside_maps w (world (dispose_future_entry key f0 w)) /\
  (alive (engine w) = true ->
   completion (dispose_future_entry key f0 w) = Normal tt /\
   alive (engine (world (dispose_future_entry key f0 w))) = true).
Proof.
  destruct w as [[st bu ci us so [fs|] cp cs tr sp sl] sk rk pr op jb cl];
    unfold dispose_future_entry, same_outside_maps, alive; run.
  - destruct (fs !! key); simpl; auto 12.
  - auto 12.
Qed.

Lemma dispose_comm_entry_run (key : string) (c0 : Comm) (w : World) :
  trace (dispose_comm_entry key c0 w) = [] /\
  same_outside_maps w (world (dispose_comm_entry key c0 w)) /\
  (alive (engine w) = true ->
   completion (dispose_comm_entry key c0 w) = Normal tt /\
   alive (engine (world (dispose_comm_entry key c0 w))) = true).
Proof.
  destruct w as [[st bu ci us so fs cp [cs|] tr sp sl] sk rk pr op jb cl];
    unfold dispose_comm_entry, Comm_dispose, same_outside_maps, alive; run.
  - destruct (cs !! key) as [c|]; simpl; [|auto 12].
    destruct (c_callback c) as [[|id]|]; simpl; destruct cp, fs, tr; simpl; finish.
  - finish.
Qed.

Lemma forEach_future_run (w : World) :
  trace (forEach_future w) = [] /\
  same_outside_maps w (world (forEach_future w)) /\
  (alive (engine w) = true ->
   completion (forEach_future w) = Normal tt /\
   alive (engine (world (forEach_future w))) = true).
Proof.
  unfold forEach_future. rewrite bind_run. unfold the_engine at 1 2 3 4 5 6. simpl.
  destruct (_futures (engine w)) as [fs|] eqn:Hfs.
  - split; [|split].
    + apply forEach_silent. intros. apply dispose_future_entry_run.
    + apply (forEach_frame same_outside_maps);
        [apply same_outside_maps_refl | apply same_outside_maps_trans |].
      intros. apply dispose_future_entry_run.
    + intros Ha. apply (forEach_safe (fun w => alive (engine w) = true)); [|exact Ha].
      intros key v w0 Hw0. apply dispose_future_entry_run, Hw0.
  - simpl. split; [reflexivity|]. split; [apply same_outside_maps_refl|].
    unfold alive. rewrite Hfs. discriminate.
Qed.

Lemma forEach_comm_run (w : World) :
  trace (forEach_comm w) = [] /\
  same_outside_maps w (world (forEach_comm w)) /\
  (alive (engine w) = true ->
   completion (forEach_comm w) = Normal tt /\
   alive (engine (world (forEach_comm w))) = true).
Proof.
  unfold forEach_comm. rewrite bind_run. unfold the_engine at 1 2 3 4 5 6. simpl.
  destruct (_comms (engine w)) as [cs|] eqn:Hcs.
  - split; [|split].
    + apply forEach_silent. intros. apply dispose_comm_entry_run.
    + apply (forEach_frame same_outside_maps);
        [apply same_outside_maps_refl | apply same_outside_maps_trans |].
      intros. apply dispose_comm_entry_run.
    + intros Ha. apply (forEach_safe (fun w => alive (engine w) = true)); [|exact Ha].
      intros key v w0 Hw0. apply dispose_comm_entry_run, Hw0.
  - simpl. split; [reflexivity|]. split; [apply same_outside_maps_refl|].
    unfold alive. rewrite Hcs. destruct (_futures (engine w)), (_commPromises (engine w)); discriminate.
Qed.

Section Rules.
Context (R : World -> World -> Prop) (P : Event -> Prop).
Context (R_refl : forall w, R w w).
Context (R_trans : forall a b c, R a b -> R b c -> R a c).

Lemma frames_ret {A} (a : A) : frames R (ret a).
Proof. intros w. apply R_refl. Qed.

Lemma frames_throw {A} (e : JsError) : frames R (@throw A e).
Proof. intros w. apply R_refl. Qed.

Lemma frames_event (e : Event) : frames R (event e).
Proof. intros w. apply R_refl. Qed.

Lemma frames_the_engine : frames R the_engine.
Proof. intros w. apply R_refl. Qed.

Lemma frames_get : frames R get.
Proof. intros w. apply R_refl. Qed.

Lemma frames_the_socket (this : nat) : frames R (the_socket this).
Proof. intros w. unfold the_socket. destruct (sockets w !! this); apply R_refl. Qed.

Lemma frames_emit (sig : Signal) (arg : SignalArg) : frames R (emit sig arg).
Proof. intros w. apply R_refl. Qed.

Lemma frames_modify (f : World -> World) : (forall w, R w (f w)) -> frames R (modify f).
Proof. intros H w. apply H. Qed.

Lemma frames_bind {A B} (m : M A) (f : A -> M B) :
  frames R m -> (forall a, frames R (f a)) -> frames R (bind m f).
Proof.
  intros Hm Hf w. rewrite bind_run. destruct (completion (m w)) as [a|e]; simpl.
  - eapply R_trans; [apply Hm | apply Hf].
  - apply Hm.
Qed.

Lemma frames_when (b : bool) (m : M unit) : frames R m -> frames R (when b m).
Proof. intros H. destruct b; [exact H | apply frames_ret]. Qed.

Lemma frames_try_catch {A} (m : M A) (handler : JsError -> M A) :
  frames R m -> (forall e, frames R (handler e)) -> frames R (try_catch m handler).
Proof.
  intros Hm Hh w. unfold try_catch. specialize (Hm w).
  destruct (m w) as [[a|e] w1 t1]; simpl in *; [exact Hm|].
  specialize (Hh e w1). destruct (handler e w1) as [c w2 t2]; simpl in *.
  eapply R_trans; eassumption.
Qed.

Lemma frames_attempt {A} (m : M A) : frames R m -> frames R (attempt m).
Proof. intros Hm w. unfold attempt. specialize (Hm w). destruct (m w); exact Hm. Qed.

Lemma frames_forEach {V} (body : string -> V -> M unit) (entries : list (string * V)) :
  (forall key v, frames R (body key v)) -> frames R (forEach body entries).
Proof.
  intros Hbody. induction entries as [|[key v] rest IH]; simpl.
  - apply frames_ret.
  - apply frames_bind; [apply Hbody | intros _; exact IH].
Qed.

Lemma traces_ret {A} (a : A) : traces P (ret a).
Proof. intros w. constructor. Qed.

Lemma traces_throw {A} (e : JsError) : traces P (@throw A e).
Proof. intros w. constructor. Qed.

Lemma traces_event (e : Event) : P e -> traces P (event e).
Proof. intros H w. simpl. constructor; [exact H | constructor]. Qed.

Lemma traces_the_engine : traces P the_engine.
Proof. intros w. constructor. Qed.

Lemma traces_get : traces P get.
Proof. intros w. constructor. Qed.

Lemma traces_fresh : traces P fresh.
Proof. intros w. constructor. Qed.

Lemma traces_the_socket (this : nat) : traces P (the_socket this).
Proof. intros w. unfold the_socket. destruct (sockets w !! this); constructor. Qed.

Lemma traces_modify (f : World -> World) : traces P (modify f).
Proof. intros w. constructor. Qed.

Lemma traces_emit (sig : Signal) (arg : SignalArg) :
  (forall rcv, P (EvEmit sig arg rcv)) -> traces P (emit sig arg).
Proof. intros H w. simpl. constructor; [apply H | constructor]. Qed.

Lemma traces_bind {A B} (m : M A) (f : A -> M B) :
  traces P m -> (forall a, traces P (f a)) -> traces P (bind m f).
Proof.
  intros Hm Hf w. rewrite bind_run. destruct (completion (m w)) as [a|e]; simpl.
  - apply Forall_app. split; [apply Hm | apply Hf].
  - apply Hm.
Qed.

Lemma traces_when (b : bool) (m : M unit) : traces P m -> traces P (when b m).
Proof. intros H. destruct b; [exact H | apply traces_ret]. Qed.

Lemma traces_try_catch {A} (m : M A) (handler : JsError -> M A) :
  traces P m -> (forall e, traces P (handler e)) -> traces P (try_catch m handler).
Proof.
  intros Hm Hh w. unfold try_catch. specialize (Hm w).
  destruct (m w) as [[a|e] w1 t1]; simpl in *; [exact Hm|].
  specialize (Hh e w1). destruct (handler e w1) as [c w2 t2]; simpl in *.
  apply Forall_app. split; assumption.
Qed.

Lemma traces_attempt {A} (m : M A) : traces P m -> traces P (attempt m).
Proof. intros Hm w. unfold attempt. specialize (Hm w). destruct (m w); exact Hm. Qed.

Lemma traces_forEach {V} (body : string -> V -> M unit) (entries : list (string * V)) :
  (forall key v, traces P (body key v)) -> traces P (forEach body entries).
Proof.
  intros Hbody. induction entries as [|[key v] rest IH]; simpl.
  - apply traces_ret.
  - apply traces_bind; [apply Hbody | intros _; exact IH].
Qed.

End Rules.

Lemma traces_silent {A} (P : Event -> Prop) (m : M A) :
  (forall w, trace (m w) = []) -> traces P m.
Proof. intros H w. rewrite H. constructor. Qed.

Lemma disposal_refl (w : World) : disposal w w.
Proof. unfold disposal. auto 10. Qed.

Lemma disposal_trans (a b c : World) : disposal a b -> disposal b c -> disposal a c.
Proof.
  unfold disposal. intros (Hp1 & Ho1 & Hs1 & Hd1 & H1) (Hp2 & Ho2 & Hs2 & Hd2 & H2).
  repeat split; try congruence; [auto|].
  destruct H2 as [H2|H2]; [rewrite H2; exact H1 | right; exact H2].
Qed.

Lemma same_outside_maps_disposal (w w' : World) :
  same_outside_maps w w' -> disposal w w'.
Proof.
  unfold same_outside_maps, disposal. intros (?&?&?&?&?&?&Hs&?).
  rewrite Hs. auto 10.
Qed.

Create HintDb frames.
Create HintDb traces.

Ltac frame R Hrefl Htrans :=
  repeat first
    [ solve [auto 1 with frames nocore]
    | apply (frames_ret R Hrefl)
    | apply (frames_throw R Hrefl)
    | apply (frames_event R Hrefl)
    | apply (frames_the_engine R Hrefl)
    | apply (frames_get R Hrefl)
    | apply (frames_the_socket R Hrefl)
    | apply (frames_emit R Hrefl)
    | apply (frames_when R Hrefl)
    | apply (frames_attempt R)
    | apply (frames_try_catch R Htrans); [|intros ?]
    | apply (frames_bind R Htrans); [|intros ?]
    | match goal with
      | |- frames _ (match ?x with _ => _ end) => destruct x
      | |- frames _ (if ?b then _ else _) => destruct b
      end
    | apply (frames_modify R); intros ? ].

Ltac trace_of P :=
  repeat first
    [ solve [auto 1 with traces nocore]
    | apply (traces_ret P)
    | apply (traces_throw P)
    | apply (traces_the_engine P)
    | apply (traces_get P)
    | apply (traces_fresh P)
    | apply (traces_the_socket P)
    | apply (traces_modify P)
    | apply (traces_when P)
    | apply (traces_attempt P)
    | apply (traces_try_catch P); [|intros ?]
    | apply (traces_bind P); [|intros ?]
    | match goal with
      | |- traces _ (match ?x with _ => _ end) => destruct x
      | |- traces _ (if ?b then _ else _) => destruct b
      end
    | apply (traces_event P); exact I
    | apply (traces_emit P); intros ?; exact I ].

Lemma KernelSocket_dispose_frame (this : nat) : frames disposal (KernelSocket_dispose this).
Proof.
  unfold KernelSocket_dispose, update_socket.
  frame disposal disposal_refl disposal_trans; unfold disposal; simpl; repeat split; auto.
  intros x Hx. rewrite lookup_alter. case_decide; [subst|exact Hx].
  destruct Hx as [y Hy]. rewrite Hy. simpl. eauto.
Qed.

Lemma KernelSocket_dispose_trace (this : nat) : traces is_close (KernelSocket_dispose this).
Proof. unfold KernelSocket_dispose, update_socket. trace_of is_close. Qed.

Lemma forEach_future_frame : frames disposal forEach_future.
Proof. intros w. apply same_outside_maps_disposal, forEach_future_run. Qed.

Lemma forEach_comm_frame : frames disposal forEach_comm.
Proof. intros w. apply same_outside_maps_disposal, forEach_comm_run. Qed.

Lemma forEach_future_trace : traces is_close forEach_future.
Proof. apply traces_silent. intros. apply forEach_future_run. Qed.

Lemma forEach_comm_trace : traces is_close forEach_comm.
Proof. apply traces_silent. intros. apply forEach_comm_run. Qed.

#[local] Hint Resolve KernelSocket_dispose_frame forEach_future_frame forEach_comm_frame : frames.
#[local] Hint Resolve KernelSocket_dispose_trace forEach_future_trace forEach_comm_trace : traces.

Lemma Kernel_dispose_frame : frames disposal Kernel_dispose.
Proof.
  unfold Kernel_dispose, clearSignalData, update_engine.
  frame disposal disposal_refl disposal_trans; unfold disposal; simpl; auto 10.
Qed.

Lemma Kernel_dispose_trace : traces is_close Kernel_dispose.
Proof. unfold Kernel_dispose, clearSignalData, update_engine. trace_of is_close. Qed.

#[local] Hint Resolve Kernel_dispose_frame : frames.
#[local] Hint Resolve Kernel_dispose_trace : traces.

Lemma KernelSocket_dispose_safe (this : nat) (w : World) :
  is_Some (sockets w !! this) ->
  completion (KernelSocket_dispose this w) = Normal tt /\
  engine (world (KernelSocket_dispose this w)) = engine w.
Proof.
  intros [s Hs]. unfold KernelSocket_dispose.
  rewrite bind_run, (the_socket_run this w s Hs). simpl.
  destruct (_ws s); simpl; auto.
Qed.

(** A disposal of a live engine that holds its socket completes, and
    leaves the engine without maps, registry or connections. *)
Lemma Kernel_dispose_live (w : World) :
  alive (engine w) = true -> attached w = true ->
  completion (Kernel_dispose w) = Normal tt /\
  _futures (engine (world (Kernel_dispose w))) = None /\
  _commPromises (engine (world (Kernel_dispose w))) = None /\
  _comms (engine (world (Kernel_dispose w))) = None /\
  _targetRegistry (engine (world (Kernel_dispose w))) = None /\
  slots (engine (world (Kernel_dispose w))) = [] /\
  _status (engine (world (Kernel_dispose w))) = Dead.
Proof.
  intros Halive Hatt. unfold Kernel_dispose.
  rewrite bind_run. simpl.
  assert (Hd : Kernel_isDisposed (engine w) = false).
  { unfold alive in Halive. unfold Kernel_isDisposed. destruct (_futures (engine w)); [reflexivity|discriminate]. }
  rewrite Hd. rewrite bind_run. simpl.
  unfold attached in Hatt.
  destruct (_socket (engine w)) as [x|] eqn:Hx; [|discriminate].
  set (w1 := with_engine (set_status Dead) w).
  assert (Hs1 : is_Some (sockets w1 !! x)).
  { unfold w1; simpl. destruct (sockets w !! x); [eauto|discriminate]. }
  destruct (KernelSocket_dispose_safe x w1 Hs1) as [Hc1 He1].
  rewrite (bind_normal _ _ w1 tt Hc1). simpl.
  set (w2 := world (KernelSocket_dispose x w1)) in *.
  assert (Ha2 : alive (engine w2) = true).
  { rewrite He1. unfold w1, alive in *; simpl. exact Halive. }
  destruct (forEach_future_run w2) as (_ & _ & Hf). destruct (Hf Ha2) as [Hc2 Ha3].
  rewrite (bind_normal _ _ w2 tt Hc2). simpl.
  set (w3 := world (forEach_future w2)) in *.
  destruct (forEach_comm_run w3) as (_ & _ & Hg). destruct (Hg Ha3) as [Hc3 Ha4].
  rewrite (bind_normal _ _ w3 tt Hc3). simpl.
  repeat split; reflexivity.
Qed.

Lemma is_close_announced (t : list Event) : Forall is_close t -> announced t = [].
Proof.
  induction 1 as [|e t He _ IH]; [reflexivity|].
  destruct e; simpl in *; try contradiction. exact IH.
Qed.

Lemma announced_app (t1 t2 : list Event) : announced (t1 ++ t2) = announced t1 ++ announced t2.
Proof.
  induction t1 as [|e t1 IH]; [reflexivity|]. simpl.
  destruct e as [| [] [] | | | | | | | | | | | ]; simpl; rewrite ?IH; reflexivity.
Qed.

Lemma log_line_announced (st : KernelStatus) (id : string) : announced (log_line st id) = [].
Proof. destruct st; reflexivity. Qed.

Lemma logKernelStatus_run (w : World) (x : nat) (s : KernelSocket) :
  _socket (engine w) = Some x -> sockets w !! x = Some s ->
  logKernelStatus w = MkRun (Normal tt) w (log_line (_status (engine w)) (_id s)).
Proof.
  intros Hx Hs. unfold logKernelStatus. rewrite bind_run. simpl.
  destruct (_status (engine w)); simpl; try reflexivity;
    rewrite Hx, bind_run, (the_socket_run x w s Hs); reflexivity.
Qed.

Lemma updateStatus_unfold (state : string) (w : World) :
  Kernel__updateStatus state w =
    match status_of_state state with
    | None => MkRun (Normal tt) w [EvConsole "error" ("invalid kernel status: " +:+ state)]
    | Some st =>
        if decide (st = _status (engine w)) then MkRun (Normal tt) w []
        else (logKernelStatus >>>
              emit StatusChanged (ArgStatus st) >>>
              when (bool_decide (st = Dead)) Kernel_dispose)
               (with_engine (set_status st) w)
    end.
Proof.
  unfold Kernel__updateStatus. destruct (status_of_state state) as [st|]; [|reflexivity].
  rewrite bind_run. simpl. destruct (decide (st = _status (engine w))); [reflexivity|].
  rewrite bind_run. simpl.
  destruct ((logKernelStatus >>> _) _) as [c w2 t2]. reflexivity.
Qed.

(** A status other than Dead that differs from the current one. *)
Lemma updateStatus_change (state : string) (st : KernelStatus) (w : World) (x : nat) (s : KernelSocket) :
  status_of_state state = Some st -> st <> _status (engine w) -> st <> Dead ->
  _socket (engine w) = Some x -> sockets w !! x = Some s ->
  Kernel__updateStatus state w =
    MkRun (Normal tt) (with_engine (set_status st) w)
      (log_line st (_id s) ++
       [EvEmit StatusChanged (ArgStatus st) (receivers StatusChanged (slots (engine w)))]).
Proof.
  intros Hst Hne Hnd Hx Hs. rewrite updateStatus_unfold, Hst.
  destruct (decide (st = _status (engine w))) as [|_]; [contradiction|].
  rewrite bind_run.
  rewrite (logKernelStatus_run (with_engine (set_status st) w) x s Hx Hs). simpl.
  rewrite bind_run. simpl. rewrite bool_decide_eq_false_2 by exact Hnd. simpl.
  reflexivity.
Qed.

(** The transition to Dead. *)
Lemma updateStatus_dead (state : string) (w : World) (x : nat) (s : KernelSocket) :
  status_of_state state = Some Dead -> _status (engine w) <> Dead ->
  _socket (engine w) = Some x -> sockets w !! x = Some s ->
  let r := Kernel__updateStatus state w in
  let d := Kernel_dispose (with_engine (set_status Dead) w) in
  completion r = completion d /\ world r = world d /\
  trace r = log_line Dead (_id s) ++
            EvEmit StatusChanged (ArgStatus Dead) (receivers StatusChanged (slots (engine w)))
            :: trace d.
Proof.
  intros Hst Hne Hx Hs. simpl. rewrite updateStatus_unfold, Hst.
  destruct (decide (Dead = _status (engine w))) as [e|_]; [congruence|].
  rewrite bind_run.
  rewrite (logKernelStatus_run (with_engine (set_status Dead) w) x s Hx Hs). simpl.
  rewrite bind_run. simpl. auto.
Qed.

(** ** The close event of the websocket *)

Lemma onWSClose_run (this : nat) (w : World) :
  KernelSocket__onWSClose this w =
    match sockets w !! this with
    | None => MkRun (Throw (null_member "socket")) w []
    | Some s =>
        match _ws s with
        | None => MkRun (Throw (TypeError "Cannot set property 'onclose' of null")) w []
        | Some _ =>
            MkRun (Throw (TypeError "this._updateStatus is not a function"))
              (with_sockets (fun m => alter (set_ws None) this m) w) []
        end
    end.
Proof.
  unfold KernelSocket__onWSClose, KernelSocket__updateStatus, the_socket, update_socket,
    modify, throw, bind. simpl.
  destruct (sockets w !! this) as [s|]; simpl; [|reflexivity].
  destruct (_ws s); simpl; [|reflexivity].
  destruct (_reconnectAttempt s <? _reconnectLimit s)%nat; reflexivity.
Qed.

(** C4.  A close or error event of the websocket never reaches the
    reconnection the handler is written for.  _onWSClose is a method of
    the socket, which has no [status] and no [_updateStatus]: the guard
    on Dead never returns, the websocket is dropped, and the call of
    [this._updateStatus] throws a TypeError, whether attempts are left
    or not.  Nothing is logged, no timer is set, the attempts are not
    counted, and the engine is untouched: its status becomes neither
    Reconnecting nor Dead.  So it is on the socket that the constructor
    makes (limit 7, no attempt yet), on its first close event. *)
Theorem C4_close_handler_throws (this : nat) (w : World) :
  let r := KernelSocket__onWSClose this w in
  (exists message, completion r = Throw (TypeError message)) /\
  trace r = [] /\
  engine (world r) = engine w /\
  ((_reconnectAttempt <$> (sockets (world r) !! this))
   = (_reconnectAttempt <$> (sockets w !! this))) /\
  ((_ws <$> (sockets (world r) !! this)) = ((fun _ => None) <$> (sockets w !! this))) /\
  (sockets world1 !! 0 = Some socket1) /\
  KernelSocket__onWSClose 0 world1 =
    MkRun (Throw (TypeError "this._updateStatus is not a function"))
      (with_sockets (fun m => alter (set_ws None) 0 m) world1) [].
Proof.
  assert (Hw1 : sockets world1 !! 0 = Some socket1) by (vm_compute; reflexivity).
  cbv zeta. rewrite (onWSClose_run 0 world1), Hw1. cbn [socket1 _ws].
  rewrite (onWSClose_run this w).
  destruct (sockets w !! this) as [s|] eqn:Hs.
  - destruct (_ws s) eqn:Hws; cbn [completion world trace]; unfold null_member.
    + simpl. rewrite lookup_alter_eq, Hs. simpl. eauto 10.
    + rewrite Hs. simpl. rewrite Hws. eauto 10.
  - cbn [completion world trace]. unfold null_member. rewrite Hs. simpl. eauto 10.
Qed.

(** ** Status updates in sequence *)

Lemma attached_inv (w : World) :
  attached w = true <-> exists x s, _socket (engine w) = Some x /\ sockets w !! x = Some s.
Proof.
  unfold attached. split.
  - destruct (_socket (engine w)) as [x|]; [|discriminate].
    destruct (sockets w !! x) as [s|] eqn:Hs; [|discriminate]. eauto.
  - intros (x & s & Hx & Hs). rewrite Hx, Hs. reflexivity.
Qed.

Lemma disposal_attached (w w' : World) : disposal w w' -> attached w = true -> attached w' = true.
Proof.
  intros (_ & _ & Hsock & Hdom & _) Ha. apply attached_inv in Ha as (x & s & Hx & Hs).
  destruct (Hdom x ltac:(eauto)) as [s' Hs'].
  apply attached_inv. exists x, s'. split; [congruence | exact Hs'].
Qed.

Lemma updateStatus_step (state : string) (w : World) :
  attached w = true ->
  let r := Kernel__updateStatus state w in
  announced (trace r) = transitions (_status (engine w)) [state] /\
  _status (engine (world r)) =
    match status_of_state state with Some st => st | None => _status (engine w) end /\
  attached (world r) = true.
Proof.
  intros Ha. simpl. pose proof Ha as Ha'. apply attached_inv in Ha' as (x & s & Hx & Hs).
  destruct (status_of_state state) as [st|] eqn:Hst.
  - destruct (decide (st = _status (engine w))) as [Heq|Hne].
    + rewrite updateStatus_unfold, Hst.
      destruct (decide (st = _status (engine w))); [|contradiction]. simpl. auto.
    + destruct (decide (st = Dead)) as [Hd|Hnd].
      * subst st.
        destruct (updateStatus_dead state w x s Hst ltac:(congruence) Hx Hs) as (_ & Hw & Ht).
        rewrite Hw, Ht.
        pose proof (Kernel_dispose_frame (with_engine (set_status Dead) w)) as Hfr.
        pose proof (Kernel_dispose_trace (with_engine (set_status Dead) w)) as Hcl.
        rewrite announced_app, log_line_announced. simpl.
        rewrite (is_close_announced _ Hcl).
        split; [reflexivity|]. split.
        -- destruct Hfr as (_ & _ & _ & _ & [Hd|Hd]); exact Hd.
        -- apply (disposal_attached _ _ Hfr). exact Ha.
      * rewrite (updateStatus_change state st w x s Hst Hne Hnd Hx Hs). simpl.
        rewrite announced_app, log_line_announced. simpl. auto.
  - rewrite updateStatus_unfold, Hst. simpl. auto.
Qed.

Lemma transitions_cons (current : KernelStatus) (state : string) (rest : list string) :
  transitions current (state :: rest) =
    transitions current [state] ++
    transitions (match status_of_state state with Some st => st | None => current end) rest.
Proof.
  simpl. destruct (status_of_state state) as [st|]; [|reflexivity].
  destruct (decide (st = current)); [subst|]; reflexivity.
Qed.

Lemma attempt_run {A} (m : M A) (w : World) :
  attempt m w = MkRun (Normal (completion (m w))) (world (m w)) (trace (m w)).
Proof. unfold attempt. destruct (m w); reflexivity. Qed.

Lemma updates_announced (states : list string) :
  forall w, attached w = true ->
    announced (trace (updates states w)) = transitions (_status (engine w)) states.
Proof.
  induction states as [|state rest IH]; intros w Ha; [reflexivity|].
  destruct (updateStatus_step state w Ha) as (Hann & Hstat & Ha1).
  cbn [updates]. rewrite bind_run, attempt_run. simpl.
  rewrite announced_app, Hann, (IH _ Ha1), Hstat.
  symmetry. apply transitions_cons.
Qed.

(** C2.  Dead is not absorbing.  On the engine the constructor builds
    (it holds no socket), with a slot connected to statusChanged, the
    status message "dead" sets the status to Dead and throws while
    logging, before statusChanged is emitted and before the engine
    disposes itself; the status message "idle" that follows sets the
    status to Idle and is announced on statusChanged, and restart()
    called instead sets the status to Restarting.  On an engine that
    holds its socket the update "dead" is announced and disposes the
    engine, and the update "idle" after it leaves Dead again and is
    emitted on statusChanged as well. *)
Theorem C2_dead_is_left_again :
  let dead := Kernel__onKernelMessage host0 (status_message "s1" "dead") world_listening in
  let idle := Kernel__onKernelMessage host0 (status_message "s2" "idle") (world dead) in
  let held := updates ["dead"; "idle"] world_idle in
  let restarted := Kernel_restart host0 (world dead) in
  _socket (engine world_listening) = None /\
  _status (engine (world dead)) = Dead /\
  completion dead = Throw (null_member "id") /\
  announced (trace dead) = [] /\
  Kernel_isDisposed (engine (world dead)) = false /\
  listeners (world dead) StatusChanged = ["ui"] /\
  _status (engine (world idle)) = Idle /\
  trace idle =
    [EvEmit StatusChanged (ArgStatus Idle) ["ui"];
     EvEmit IOPubReceived (ArgMsg (status_message "s2" "idle")) ["ui"];
     EvEmit UnhandledMessage (ArgMsg (status_message "s2" "idle")) ["ui"]] /\
  _status (engine (world restarted)) = Restarting /\
  _status (engine (world (Kernel__updateStatus "dead" world_idle))) = Dead /\
  Kernel_isDisposed (engine (world (Kernel__updateStatus "dead" world_idle))) = true /\
  _status (engine (world held)) = Idle /\
  announced (trace held) = [Dead; Idle].
Proof. vm_compute. auto 20. Qed.

Lemma updateStatus_announced_once (state : string) (w : World) :
  let r := Kernel__updateStatus state w in
  announced (trace r) = [] \/
  exists st, status_of_state state = Some st /\ st <> _status (engine w) /\
             announced (trace r) = [st].
Proof.
  simpl. rewrite updateStatus_unfold.
  destruct (status_of_state state) as [st|] eqn:Hst; [|left; reflexivity].
  destruct (decide (st = _status (engine w))) as [Heq|Hne]; [left; reflexivity|].
  set (w1 := with_engine (set_status st) w).
  assert (Hlog : announced (trace (logKernelStatus w1)) = []).
  { unfold logKernelStatus, the_engine, the_socket, event, throw, ret, bind. simpl.
    destruct st; simpl; try reflexivity;
      destruct (_socket (engine w)) as [x|]; simpl; try reflexivity;
      destruct (sockets w !! x); reflexivity. }
  rewrite bind_run.
  destruct (completion (logKernelStatus w1)) as [[]|e]; simpl; [|left; exact Hlog].
  right. exists st. split; [reflexivity|]. split; [exact Hne|].
  rewrite announced_app, Hlog, bind_run. simpl.
  unfold when. destruct (bool_decide (st = Dead)); simpl.
  - match goal with |- context [Kernel_dispose ?w'] =>
      pose proof (Kernel_dispose_trace w') as Hcl
    end.
    destruct (Kernel_dispose _) as [c w2 t2]. simpl in *.
    rewrite (is_close_announced _ Hcl). reflexivity.
  - reflexivity.
Qed.

(** Kernel._updateStatus emits statusChanged at most once, and only for
    a recognised state that differs from the current status, in every
    state of the engine.  On an engine that holds its socket, a
    sequence of updates announces exactly the distinct transitions of
    the sequence; after an update the status is the one it names, also
    when the current one was Dead; and the transition to Dead of a live
    engine disposes it, which also drops the connections of its
    signals. *)
Theorem updateStatus_announces_transitions (w : World) :
  (forall state : string,
     let r := Kernel__updateStatus state w in
     announced (trace r) = [] \/
     exists st, status_of_state state = Some st /\ st <> _status (engine w) /\
                announced (trace r) = [st]) /\
  (attached w = true ->
   (forall states : list string,
      announced (trace (updates states w)) = transitions (_status (engine w)) states) /\
   (forall state : string,
      _status (engine (world (Kernel__updateStatus state w))) =
        match status_of_state state with Some st => st | None => _status (engine w) end) /\
   (forall state : string,
      status_of_state state = Some Dead -> _status (engine w) <> Dead ->
      alive (engine w) = true ->
      let r := Kernel__updateStatus state w in
      completion r = Normal tt /\
      Kernel_isDisposed (engine (world r)) = true /\
      slots (engine (world r)) = [])).
Proof.
  split; [intros state; apply updateStatus_announced_once|].
  intros Ha. split; [|split].
  - intros states. apply updates_announced, Ha.
  - intros state. apply updateStatus_step, Ha.
  - intros state Hst Hne Hal. simpl.
    pose proof Ha as Ha'. apply attached_inv in Ha' as (x & s & Hx & Hs).
    destruct (updateStatus_dead state w x s Hst Hne Hx Hs) as (Hc & Hw & _).
    rewrite Hc, Hw.
    destruct (Kernel_dispose_live (with_engine (set_status Dead) w) Hal Ha)
      as (Hcd & Hf & _ & _ & _ & Hsl & _).
    unfold Kernel_isDisposed. rewrite Hf. auto.
Qed.

Lemma updateStatus_announces_transitions_witness :
  announced (trace (updates ["busy"; "busy"; "idle"; "dead"; "dead"; "starting"] world_idle))
    = [Busy; Idle; Dead; Starting].
Proof.
  destruct (updateStatus_announces_transitions world_idle) as (_ & Hheld).
  destruct (Hheld ltac:(vm_compute; reflexivity)) as (Hann & _).
  rewrite Hann. vm_compute. reflexivity.
Defined.

(** ** Dispatch of a received message *)

Ltac inner_trace :=
  repeat first
    [ solve [auto 1 with traces nocore]
    | apply (traces_ret inner)
    | apply (traces_throw inner)
    | apply (traces_the_engine inner)
    | apply (traces_get inner)
    | apply (traces_fresh inner)
    | apply (traces_the_socket inner)
    | apply (traces_modify inner)
    | apply (traces_when inner)
    | apply (traces_attempt inner)
    | apply (traces_try_catch inner); [|intros ?]
    | apply (traces_bind inner); [|intros ?]
    | match goal with
      | |- traces _ (match ?x with _ => _ end) => destruct x
      | |- traces _ (if ?b then _ else _) => destruct b
      end
    | apply (traces_event inner); split; reflexivity
    | apply (traces_emit inner); intros ?; split; reflexivity ].

Lemma is_close_inner (t : list Event) : Forall is_close t -> Forall inner t.
Proof.
  intros H. eapply Forall_impl; [exact H|].
  intros e He. destruct e; simpl in *; try contradiction. split; reflexivity.
Qed.

Lemma Kernel_dispose_inner : traces inner Kernel_dispose.
Proof. intros w. apply is_close_inner, Kernel_dispose_trace. Qed.

#[local] Hint Resolve Kernel_dispose_inner : traces.

Lemma updateStatus_inner (state : string) : traces inner (Kernel__updateStatus state).
Proof.
  unfold Kernel__updateStatus, logKernelStatus, update_engine. inner_trace.
Qed.

Lemma handleCommOpen_inner (h : Host) (msg : IKernelMessage) :
  traces inner (Kernel__handleCommOpen h msg).
Proof. unfold Kernel__handleCommOpen, update_engine. inner_trace. Qed.

Lemma handleCommMsg_inner (msg : IKernelMessage) : traces inner (Kernel__handleCommMsg msg).
Proof.
  unfold Kernel__handleCommMsg, chain, call, update_opening, update_engine. inner_trace.
Qed.

Lemma handleCommClose_inner (msg : IKernelMessage) : traces inner (Kernel__handleCommClose msg).
Proof.
  unfold Kernel__handleCommClose, chain, update_opening, update_engine. inner_trace.
Qed.

#[local] Hint Resolve updateStatus_inner handleCommOpen_inner handleCommMsg_inner
  handleCommClose_inner : traces.

Lemma iopub_dispatch_inner (h : Host) (msg : IKernelMessage) : traces inner (iopub_dispatch h msg).
Proof. unfold iopub_dispatch. inner_trace. Qed.

(** The message is handed to the future first; what the future does
    with it is neither a delivery nor a broadcast. *)
Lemma handleMsg_trace (key : string) (f : KernelFutureHandler) (msg : IKernelMessage) (w : World) :
  exists t, trace (KernelFutureHandler_handleMsg key f msg w) = EvFutureMsg (f_msgId f) msg :: t /\
            Forall inner t.
Proof.
  unfold KernelFutureHandler_handleMsg.
  rewrite bind_run. simpl.
  match goal with |- context [trace (?m w)] => assert (Hm : traces inner m) end.
  { unfold resolve_reply, store_future, KernelFutureHandler_dispose, future_disposeCb, update_engine.
    inner_trace. }
  eexists. split; [reflexivity|]. apply Hm.
Qed.

Lemma inner_not_delivery (t : list Event) :
  Forall inner t -> Forall (fun e => is_delivery e = false) t.
Proof. intros H. eapply Forall_impl; [exact H|]. intros e [He _]. exact He. Qed.

Lemma inner_not_unhandled (t : list Event) :
  Forall inner t -> Forall (fun e => is_emit UnhandledMessage e = false) t.
Proof.
  intros H. eapply Forall_impl; [exact H|]. intros e [_ He].
  unfold is_broadcast in He. apply orb_false_iff in He. apply He.
Qed.

(** The iopub stage of _onKernelMessage: the switch, then the emit. *)
Lemma iopub_stage (h : Host) (msg : IKernelMessage) (w : World) :
  let r := when (String.eqb (channel msg) "iopub")
             (iopub_dispatch h msg >>> emit IOPubReceived (ArgMsg msg)) w in
  exists t rest,
    trace r = t ++ rest /\ Forall inner t /\
    (rest = [] \/ exists rcv, rest = [EvEmit IOPubReceived (ArgMsg msg) rcv]) /\
    (channel msg = "iopub" -> completion r = Normal tt -> rest <> []) /\
    (completion r = Normal tt ->
     channel msg <> "iopub" \/ completion (iopub_dispatch h msg w) = Normal tt).
Proof.
  simpl. destruct (String.eqb_spec (channel msg) "iopub") as [Hch|Hch]; simpl.
  - rewrite bind_run. pose proof (iopub_dispatch_inner h msg w) as Hin.
    destruct (completion (iopub_dispatch h msg w)) as [[]|e]; simpl.
    + exists (trace (iopub_dispatch h msg w)),
        [EvEmit IOPubReceived (ArgMsg msg)
           (receivers IOPubReceived (slots (engine (world (iopub_dispatch h msg w)))))].
      repeat split; eauto.
    + exists (trace (iopub_dispatch h msg w)), [].
      rewrite app_nil_r. repeat split; auto; discriminate.
  - exists [], []. repeat split; auto.
Qed.

Lemma onKernelMessage_unfold (h : Host) (msg : IKernelMessage) (w : World) :
  validateKernelMessage h msg = None ->
  Kernel__onKernelMessage h msg w =
    ((let! handled :=
        match parent_header msg with
        | None => ret false
        | Some parentHeader =>
            let! k := the_engine in
            match lookup_future k parentHeader with
            | Some future =>
                KernelFutureHandler_handleMsg
                  (id_or_undefined (parent_msg_id parentHeader)) future msg >>>
                ret true
            | None => ret false
            end
        end in
      when (String.eqb (channel msg) "iopub")
        (iopub_dispatch h msg >>> emit IOPubReceived (ArgMsg msg)) >>>
      when (negb handled) (emit UnhandledMessage (ArgMsg msg))) w).
Proof. intros Hv. unfold Kernel__onKernelMessage. rewrite Hv. reflexivity. Qed.

(** C1.  A validated message that matches no future is not always
    emitted on unhandledMessage.  On the engine the constructor builds,
    with a slot connected to unhandledMessage, a comm_msg for a comm
    that the kernel has opened goes to the onMsg of the comm outside any
    try block: when that onMsg throws, _onKernelMessage throws, and the
    message is emitted neither on iopubReceived nor on
    unhandledMessage.  The same message, had it come before the open
    was resolved, is emitted on both signals at once and reaches the
    onMsg in the callback chained on the open promise, which catches
    and logs what the onMsg throws.  A status message "starting" on that
    engine is not emitted either: the update throws while logging. *)
Theorem C1_throwing_onMsg_escapes :
  let r := Kernel__onKernelMessage host0 msg_c3 world_opened in
  let early := Kernel__onKernelMessage host0 msg_c3 world_opening in
  let late := settle_opening host0 (clock world_listening) (world early) in
  let starting := Kernel__onKernelMessage host0 (status_message "s3" "starting") world_listening in
  validateKernelMessage host0 msg_c3 = None /\
  unclaimed world_opened msg_c3 /\
  listeners world_opened UnhandledMessage = ["ui"] /\
  comm_of world_opened "c3" = Some (kernel_comm throwing_target (content open_c3)) /\
  r = MkRun (Throw (Raised "onMsg that throws")) world_opened
        [EvCommOnMsg "onMsg that throws" msg_c3] /\
  completion early = Normal tt /\
  trace early = [EvEmit IOPubReceived (ArgMsg msg_c3) ["ui"];
                 EvEmit UnhandledMessage (ArgMsg msg_c3) ["ui"]] /\
  completion late = Normal tt /\
  trace late = [EvTarget "bad" "c3" open_c3; EvCommOnMsg "onMsg that throws" msg_c3;
                EvConsole "error" "Exception handling comm msg"] /\
  unclaimed world_listening (status_message "s3" "starting") /\
  completion starting = Throw (null_member "id") /\
  trace starting = [].
Proof. vm_compute. auto 20. Qed.

(** A validated message whose parent_header.msg_id names a future of
    the registry is handed to that future first, once; what follows
    contains no other delivery and no emit on unhandledMessage, and the
    emit of the message on the iopub signal, which an iopub message
    gets when the call completes, comes after the delivery.  A message
    that names no future of the registry is delivered to none; when the
    call completes, its last effect is the emit of the message on
    unhandledMessage, the only one; and the call completes for every
    message that is not on the iopub channel. *)
Theorem onKernelMessage_delivery_first (h : Host) (msg : IKernelMessage) (w : World) :
  validateKernelMessage h msg = None ->
  let r := Kernel__onKernelMessage h msg w in
  (forall (ph : ParentHeader) (f : KernelFutureHandler),
     parent_header msg = Some ph -> lookup_future (engine w) ph = Some f ->
     exists t rest,
       trace r = EvFutureMsg (f_msgId f) msg :: t ++ rest /\
       Forall inner t /\
       (rest = [] \/ exists rcv, rest = [EvEmit IOPubReceived (ArgMsg msg) rcv]) /\
       (channel msg = "iopub" -> completion r = Normal tt -> rest <> [])) /\
  ((parent_header msg = None \/
    exists ph, parent_header msg = Some ph /\ lookup_future (engine w) ph = None) ->
   Forall (fun e => is_delivery e = false) (trace r) /\
   (completion r = Normal tt ->
    exists t rcv,
      trace r = t ++ [EvEmit UnhandledMessage (ArgMsg msg) rcv] /\
      Forall (fun e => is_emit UnhandledMessage e = false) t) /\
   (channel msg <> "iopub" -> completion r = Normal tt)).
Proof.
  intros Hv. simpl. rewrite (onKernelMessage_unfold h msg w Hv). split.
  - intros ph f Hph Hf. rewrite Hph. rewrite bind_run.
    rewrite (bind_run the_engine). simpl. rewrite Hf.
    rewrite (bind_run (KernelFutureHandler_handleMsg _ f msg)).
    destruct (handleMsg_trace (id_or_undefined (parent_msg_id ph)) f msg w) as (t0 & Ht0 & Hin0).
    set (m := KernelFutureHandler_handleMsg (id_or_undefined (parent_msg_id ph)) f msg w) in *.
    destruct (completion m) as [[]|e]; simpl.
    + rewrite bind_run.
      destruct (iopub_stage h msg (world m)) as (t1 & rest & Ht1 & Hin1 & Hrest & Hne & _).
      set (s1 := when _ _ (world m)) in *.
      exists (t0 ++ t1), rest. rewrite app_nil_r.
      assert (Hin : Forall inner (t0 ++ t1)) by (apply Forall_app; auto).
      destruct (completion s1) as [[]|e]; simpl;
        rewrite ?app_nil_r, Ht0, Ht1; simpl; rewrite <- app_assoc;
        repeat split; auto; intros; discriminate.
    + exists t0, []. rewrite app_nil_r, Ht0.
      repeat split; auto; intros; discriminate.
  - intros Hno.
    assert (Hstage0 :
      (match parent_header msg with
       | None => ret false
       | Some parentHeader =>
           let! k := the_engine in
           match lookup_future k parentHeader with
           | Some future =>
               KernelFutureHandler_handleMsg
                 (id_or_undefined (parent_msg_id parentHeader)) future msg >>> ret true
           | None => ret false
           end
       end) w = MkRun (Normal false) w []).
    { destruct Hno as [Hn|(ph & Hph & Hl)].
      - rewrite Hn. reflexivity.
      - rewrite Hph, bind_run. simpl. rewrite Hl. reflexivity. }
    rewrite bind_run, Hstage0. simpl. rewrite bind_run.
    destruct (iopub_stage h msg w) as (t1 & rest & Ht1 & Hin1 & Hrest & Hne & Hdis).
    set (s1 := when _ _ w) in *.
    assert (Hnd : Forall (fun e => is_delivery e = false) (trace s1)).
    { rewrite Ht1. apply Forall_app. split; [apply inner_not_delivery, Hin1|].
      destruct Hrest as [->|[rcv ->]]; repeat constructor. }
    assert (Hnu : Forall (fun e => is_emit UnhandledMessage e = false) (trace s1)).
    { rewrite Ht1. apply Forall_app. split; [apply inner_not_unhandled, Hin1|].
      destruct Hrest as [->|[rcv ->]]; repeat constructor. }
    destruct (completion s1) as [[]|e] eqn:Hc1; simpl.
    + split; [|split].
      * apply Forall_app. split; [exact Hnd | repeat constructor].
      * intros _. eauto.
      * reflexivity.
    + split; [exact Hnd|]. split; [discriminate|].
      intros Hch. exfalso.
      unfold s1 in Hc1. unfold when in Hc1.
      destruct (String.eqb_spec (channel msg) "iopub"); [contradiction|discriminate].
Qed.

Lemma onKernelMessage_delivery_first_witness :
  exists t rest : list Event,
    trace (Kernel__onKernelMessage host0 idle_reply world_sent)
      = EvFutureMsg "m1" idle_reply :: t ++ rest /\
    Forall inner t.
Proof.
  destruct (onKernelMessage_delivery_first host0 idle_reply world_sent eq_refl) as [Hmatch _].
  destruct (Hmatch {| parent_msg_id := Some "m1" |}
              {| f_msg := request1; f_expectReply := true; f_disposeOnDone := true;
                 f_replyReceived := false; f_idleReceived := false; f_done := false;
                 f_onReply := None |}
              eq_refl ltac:(vm_compute; reflexivity)) as (t & rest & Ht & Hin & _).
  exists t, rest. split; [exact Ht | exact Hin].
Defined.

(** ** Synchronous throws of the public operations *)

Lemma new_promise_run (st : Settlement) (w : World) :
  new_promise st w =
    MkRun (Normal (clock w)) (with_promises (fun m => <[clock w := st]> m) (tick w)) [].
Proof. reflexivity. Qed.

Lemma createKernelMessage_run (h : Host) (options : IKernelMessageOptions) (c : Content)
    (md : string) (bf : list string) (w : World) :
  exists msg w',
    createKernelMessage h options c md bf w = MkRun (Normal msg) w' [] /\
    engine w' = engine w /\ sockets w' = sockets w /\ promises w' = promises w.
Proof.
  unfold createKernelMessage. rewrite bind_run.
  destruct (String.eqb (msgId options) ""); simpl; eauto 10.
Qed.

Lemma sendShellMessage_dead (h : Host) (msg : IKernelMessage) (er dd : bool) (w : World) :
  _status (engine w) = Dead ->
  Kernel_sendShellMessage h msg er dd w = MkRun (Throw (Error "Kernel is dead")) w [].
Proof.
  intros Hd. unfold Kernel_sendShellMessage. rewrite bind_run. simpl.
  destruct (decide (_status (engine w) = Dead)); [reflexivity|contradiction].
Qed.

Lemma sendKernelMessage_total (h : Host) (msg : IKernelMessage) (w : World) :
  exists p,
    completion (sendKernelMessage h msg w) = Normal p /\
    (_status (engine w) = Dead ->
     promises (world (sendKernelMessage h msg w)) !! p = Some (Rejected (Error "Kernel is dead"))).
Proof.
  unfold sendKernelMessage. rewrite bind_run, attempt_run. simpl.
  destruct (completion (Kernel_sendShellMessage h msg true true w)) as [future|e] eqn:Hc.
  - rewrite bind_run, new_promise_run. cbn [completion world trace].
    rewrite bind_run. cbn [completion world trace store_future update_engine modify].
    eexists. split; [reflexivity|].
    intros Hd. rewrite (sendShellMessage_dead h msg true true w Hd) in Hc. discriminate.
  - rewrite new_promise_run. cbn [completion world trace].
    eexists. split; [reflexivity|].
    intros Hd. rewrite (sendShellMessage_dead h msg true true w Hd) in Hc.
    simpl in Hc. injection Hc as <-. simpl. apply lookup_insert_eq.
Qed.

(** A request method: it builds its message and hands it to
    Private.sendKernelMessage. *)
Lemma request_total (h : Host) (type : string) (c : Content) (w : World) :
  returns_promise w
    ((let! k := the_engine in
      let! msg := createKernelMessage h (shell_options k type) c "" [] in
      sendKernelMessage h msg) w).
Proof.
  unfold returns_promise. rewrite bind_run. simpl.
  destruct (createKernelMessage_run h (shell_options (engine w) type) c "" [] w)
    as (msg & w' & Hrun & He & _ & _).
  rewrite bind_run, Hrun. simpl.
  destruct (sendKernelMessage_total h msg w') as (p & Hc & Hd).
  exists p. rewrite Hc. split; [reflexivity|]. rewrite He in Hd. exact Hd.
Qed.

Section Raises.
Context (P : JsError -> Prop).

Lemma raises_ret {A} (a : A) : raises P (ret a).
Proof. intros w e H. discriminate. Qed.

Lemma raises_throw {A} (e : JsError) : P e -> raises P (@throw A e).
Proof. intros He w e' H. injection H as <-. exact He. Qed.

Lemma raises_event (e : Event) : raises P (event e).
Proof. intros w e' H. discriminate. Qed.

Lemma raises_the_engine : raises P the_engine.
Proof. intros w e H. discriminate. Qed.

Lemma raises_get : raises P get.
Proof. intros w e H. discriminate. Qed.

Lemma raises_fresh : raises P fresh.
Proof. intros w e H. discriminate. Qed.

Lemma raises_modify (f : World -> World) : raises P (modify f).
Proof. intros w e H. discriminate. Qed.

Lemma raises_emit (sig : Signal) (arg : SignalArg) : raises P (emit sig arg).
Proof. intros w e H. discriminate. Qed.

Lemma raises_the_socket (this : nat) : P (null_member "socket") -> raises P (the_socket this).
Proof.
  intros Hp w e. unfold the_socket. destruct (sockets w !! this); [discriminate|].
  intros H. injection H as <-. exact Hp.
Qed.

Lemma raises_bind {A B} (m : M A) (f : A -> M B) :
  raises P m -> (forall a, raises P (f a)) -> raises P (bind m f).
Proof.
  intros Hm Hf w e. rewrite bind_run.
  destruct (completion (m w)) as [a|e'] eqn:Hc; simpl.
  - apply Hf.
  - intros H. injection H as <-. exact (Hm w e' Hc).
Qed.

Lemma raises_when (b : bool) (m : M unit) : raises P m -> raises P (when b m).
Proof. intros H. destruct b; [exact H | apply raises_ret]. Qed.

Lemma raises_attempt {A} (m : M A) : raises P (attempt m).
Proof. intros w e. rewrite attempt_run. discriminate. Qed.

Lemma raises_forEach {V} (body : string -> V -> M unit) (entries : list (string * V)) :
  (forall key v, raises P (body key v)) -> raises P (forEach body entries).
Proof.
  intros Hbody. induction entries as [|[key v] rest IH]; simpl.
  - apply raises_ret.
  - apply raises_bind; [apply Hbody | intros _; exact IH].
Qed.

Lemma raises_ws_send (this : nat) (payload : string) :
  P (null_member "socket") -> P (null_member "send") -> P (DOMException "InvalidStateError") ->
  raises P (ws_send this payload).
Proof.
  intros H1 H2 H3 w e. unfold ws_send.
  destruct (sockets w !! this) as [s|]; [|intros H; injection H as <-; exact H1].
  destruct (_ws s) as [ws|]; [|intros H; injection H as <-; exact H2].
  unfold WebSocket_send. destruct (ws_faults ws) as [|[|] rest]; simpl; try discriminate.
  intros H; injection H as <-; exact H3.
Qed.

End Raises.

Create HintDb raises.

Ltac raises_of P :=
  repeat first
    [ solve [auto 1 with raises nocore]
    | apply (raises_ret P)
    | apply (raises_event P)
    | apply (raises_the_engine P)
    | apply (raises_get P)
    | apply (raises_fresh P)
    | apply (raises_modify P)
    | apply (raises_emit P)
    | apply (raises_when P)
    | apply (raises_attempt P)
    | apply (raises_forEach P); intros ? ?
    | apply (raises_bind P); [|intros ?]
    | match goal with
      | |- raises _ (match ?x with _ => _ end) => destruct x
      | |- raises _ (if ?b then _ else _) => destruct b
      end
    | apply (raises_the_socket P); first [exact I | discriminate]
    | apply (raises_ws_send P); first [exact I | discriminate]
    | apply (raises_throw P); first [exact I | discriminate] ].

Lemma clearState_raises : raises is_TypeError Kernel__clearState.
Proof.
  unfold Kernel__clearState, forEach_future, forEach_comm, dispose_future_entry,
    dispose_comm_entry, KernelFutureHandler_dispose, future_disposeCb, Comm_dispose,
    write_back, Kernel__unregisterComm, update_engine.
  raises_of is_TypeError.
Qed.

Lemma Kernel_dispose_raises : raises is_TypeError Kernel_dispose.
Proof.
  unfold Kernel_dispose, KernelSocket_dispose, forEach_future, forEach_comm,
    dispose_future_entry, dispose_comm_entry, KernelFutureHandler_dispose, future_disposeCb,
    Comm_dispose, write_back, Kernel__unregisterComm, clearSignalData, update_socket,
    update_engine.
  raises_of is_TypeError.
Qed.

#[local] Hint Resolve clearState_raises Kernel_dispose_raises : raises.

Lemma updateStatus_raises (state : string) : raises is_TypeError (Kernel__updateStatus state).
Proof.
  unfold Kernel__updateStatus, logKernelStatus, update_engine. raises_of is_TypeError.
Qed.

Lemma rest_call_raises (h : Host) (method : string) (action : list string) :
  raises is_TypeError (rest_call h method action).
Proof.
  unfold rest_call, Kernel_id, new_promise. raises_of is_TypeError.
Qed.

#[local] Hint Resolve updateStatus_raises rest_call_raises : raises.

Lemma getKernelSpec_raises (h : Host) : raises is_TypeError (Kernel_getKernelSpec h).
Proof.
  unfold Kernel_getKernelSpec, Kernel_name, getKernelSpecs, new_promise.
  raises_of is_TypeError.
Qed.

(** What sendShellMessage and the like throw on a kernel that is not
    dead is not the error of a dead kernel. *)
Lemma socket_send_raises (h : Host) (msg : IKernelMessage) :
  raises (fun e => e <> KernelDead) (socket_send h msg).
Proof.
  unfold socket_send, KernelSocket_send, update_socket.
  raises_of (fun e : JsError => e <> KernelDead).
Qed.

Lemma sendShellMessage_KernelDead (h : Host) (msg : IKernelMessage) (er dd : bool) (w : World) :
  completion (Kernel_sendShellMessage h msg er dd w) = Throw KernelDead <->
  _status (engine w) = Dead.
Proof.
  split; [|intros Hd; rewrite (sendShellMessage_dead h msg er dd w Hd); reflexivity].
  unfold Kernel_sendShellMessage. rewrite bind_run. cbn [the_engine completion world trace].
  destruct (decide (_status (engine w) = Dead)) as [Hd|Hnd]; [auto|].
  intros Hc. exfalso. revert Hc.
  match goal with |- completion (?m w) = _ -> _ =>
    assert (Hr : raises (fun e => e <> KernelDead) m)
  end.
  { pose proof (socket_send_raises h msg). unfold update_engine.
    raises_of (fun e : JsError => e <> KernelDead); assumption. }
  intros Hc. exact (Hr w _ Hc eq_refl).
Qed.

(** C5, as stated, fails.  execute throws on a dead kernel, like
    sendShellMessage, to which it hands its message.  The dead engine
    here has disposed itself: restart, shutdown, registerCommTarget and
    connectToComm throw on it as well, a TypeError.  On the engine the
    constructor builds, whose status is Unknown, sendShellMessage
    throws, and so do interrupt, getKernelSpec and dispose; and
    getKernelSpec throws on the sample engine, which holds its socket. *)
Theorem C5_execute_throws_when_dead :
  _status (engine world_dead) = Dead /\
  completion (Kernel_execute host0 empty_content true world_dead) = Throw KernelDead /\
  completion (Kernel_restart host0 world_dead) = Throw (null_member "forEach") /\
  completion (Kernel_shutdown host0 world_dead) = Throw (null_member "forEach") /\
  completion (Kernel_registerCommTarget "tgt" local_target world_dead)
    = Throw (null_member "tgt") /\
  completion (Kernel_connectToComm host0 "tgt" (Some "c1") world_dead)
    = Throw (null_member "get") /\
  _status (engine world_built) = Unknown /\
  completion (Kernel_sendShellMessage host0 request1 true true world_built)
    = Throw (null_member "send") /\
  completion (Kernel_interrupt host0 world_built) = Throw (null_member "id") /\
  completion (Kernel_getKernelSpec host0 world_built) = Throw (null_member "name") /\
  completion (Kernel_dispose world_built) = Throw (null_member "dispose") /\
  completion (Kernel_getKernelSpec host0 world_idle)
    = Throw (TypeError "Cannot create property 'method' on string '{}'").
Proof. vm_compute. auto 20. Qed.

(** C5, amended.  In every state of the engine: the request methods
    that return a promise (kernelInfo, complete, inspect, history,
    isComplete, commInfo) do not throw, and on a dead kernel the promise
    they return is rejected with the error "Kernel is dead", as is the
    promise of interrupt.  That error is thrown synchronously by
    sendShellMessage, by sendInputReply and also by execute, which hands
    its message to sendShellMessage: each throws it when the status is
    Dead, and only then.  No other operation throws it: what interrupt,
    restart, shutdown, getKernelSpec, registerCommTarget, connectToComm
    and dispose throw, in the states where they throw, is a
    TypeError. *)
Theorem C5_synchronous_throws (h : Host) (w : World) :
  (forall c : Content,
     returns_promise w (Kernel_kernelInfo h w) /\
     returns_promise w (Kernel_complete h c w) /\
     returns_promise w (Kernel_inspect h c w) /\
     returns_promise w (Kernel_history h c w) /\
     returns_promise w (Kernel_isComplete h c w) /\
     returns_promise w (Kernel_commInfo h c w)) /\
  (_status (engine w) = Dead -> returns_promise w (Kernel_interrupt h w)) /\
  (forall (msg : IKernelMessage) (expectReply disposeOnDone : bool) (c : Content),
     (completion (Kernel_sendShellMessage h msg expectReply disposeOnDone w) = Throw KernelDead
      <-> _status (engine w) = Dead) /\
     (completion (Kernel_sendInputReply h c w) = Throw KernelDead
      <-> _status (engine w) = Dead) /\
     (completion (Kernel_execute h c disposeOnDone w) = Throw KernelDead
      <-> _status (engine w) = Dead)) /\
  (forall e : JsError,
     (completion (Kernel_interrupt h w) = Throw e -> is_TypeError e) /\
     (completion (Kernel_restart h w) = Throw e -> is_TypeError e) /\
     (completion (Kernel_shutdown h w) = Throw e -> is_TypeError e) /\
     (completion (Kernel_getKernelSpec h w) = Throw e -> is_TypeError e) /\
     (forall name cb,
        completion (Kernel_registerCommTarget name cb w) = Throw e -> is_TypeError e) /\
     (forall name commId,
        completion (Kernel_connectToComm h name commId w) = Throw e -> is_TypeError e) /\
     (completion (Kernel_dispose w) = Throw e -> is_TypeError e)).
Proof.
  split; [|split; [|split]].
  - intros c. repeat split;
      first [ exact (request_total h "kernel_info_request" empty_content w)
            | exact (request_total h "complete_request" c w)
            | exact (request_total h "inspect_request" c w)
            | exact (request_total h "history_request" c w)
            | exact (request_total h "is_complete_request" c w)
            | exact (request_total h "comm_info_request" c w) ].
  - intros Hd. unfold returns_promise, Kernel_interrupt, rest_call.
    rewrite bind_run. cbn [the_engine completion world trace].
    destruct (decide (_status (engine w) = Dead)); [|contradiction].
    rewrite new_promise_run. cbn [completion world trace].
    eexists. split; [reflexivity|]. intros _. simpl. apply lookup_insert_eq.
  - intros msg er dd c. split; [apply sendShellMessage_KernelDead|]. split.
    + unfold Kernel_sendInputReply. rewrite bind_run. cbn [the_engine completion world trace].
      destruct (decide (_status (engine w) = Dead)) as [Hd|Hnd]; [split; auto|].
      split; [|contradiction]. intros Hc. exfalso. revert Hc.
      match goal with |- completion (?m w) = _ -> _ =>
        assert (Hr : raises (fun e => e <> KernelDead) m)
      end.
      { pose proof (socket_send_raises h). unfold createKernelMessage.
        raises_of (fun e : JsError => e <> KernelDead); auto. }
      intros Hc. exact (Hr w _ Hc eq_refl).
    + unfold Kernel_execute. rewrite bind_run. cbn [the_engine completion world trace].
      destruct (createKernelMessage_run h (shell_options (engine w) "execute_request") c "" [] w)
        as (m & w' & Hrun & He & _ & _).
      rewrite bind_run, Hrun. cbn [completion world trace].
      rewrite <- He. apply sendShellMessage_KernelDead.
  - intros e. repeat split.
    + apply (rest_call_raises h "POST" ["interrupt"] w e).
    + assert (Hr : raises is_TypeError (Kernel_restart h))
        by (unfold Kernel_restart; raises_of is_TypeError).
      apply (Hr w e).
    + assert (Hr : raises is_TypeError (Kernel_shutdown h))
        by (unfold Kernel_shutdown; raises_of is_TypeError).
      apply (Hr w e).
    + apply (getKernelSpec_raises h w e).
    + intros name cb.
      assert (Hr : raises is_TypeError (Kernel_registerCommTarget name cb))
        by (unfold Kernel_registerCommTarget, update_engine; raises_of is_TypeError).
      apply (Hr w e).
    + intros name commId.
      assert (Hr : raises is_TypeError (Kernel_connectToComm h name commId))
        by (unfold Kernel_connectToComm, update_engine; raises_of is_TypeError).
      apply (Hr w e).
    + apply (Kernel_dispose_raises w e).
Qed.

(** ** Comm messages behind a pending open *)

Lemma handleCommOpen_run (h : Host) (msg : IKernelMessage) (w : World) (ps : gmap string nat) :
  _commPromises (engine w) = Some ps ->
  Kernel__handleCommOpen h msg w =
    MkRun (Normal tt)
      (with_engine (set_commPromises (Some (<[comm_id (content msg) := clock w]> ps)))
         (with_openings (fun m =>
            <[clock w := {| co_content := content msg; co_msg := msg;
                            co_load := loadObject h (target_name (content msg))
                                         (target_module (content msg))
                                         (_targetRegistry (engine w));
                            co_state := OpenPending; co_waiters := [] |}]> m)
            (tick w))) [].
Proof.
  intros Hps. unfold Kernel__handleCommOpen.
  unfold bind, the_engine, fresh, modify, update_engine. simpl. rewrite Hps. reflexivity.
Qed.

Lemma handleCommMsg_chained (msg : IKernelMessage) (w : World) (ps : gmap string nat)
    (p : nat) (o : CommOpening) :
  _commPromises (engine w) = Some ps -> ps !! comm_id (content msg) = Some p ->
  openings w !! p = Some o -> co_state o = OpenPending ->
  Kernel__handleCommMsg msg w =
    MkRun (Normal tt) (with_openings (fun m => alter (add_waiter (ThenCommMsg msg)) p m) w) [].
Proof.
  intros Hps Hp Ho Hst. unfold Kernel__handleCommMsg, chain.
  unfold bind, the_engine, get, update_opening, modify. simpl.
  rewrite Hps, Hp, Ho, Hst. reflexivity.
Qed.

Lemma handleCommMsgs_chained (msgs : list IKernelMessage) :
  forall (w : World) (ps : gmap string nat) (p : nat) (o : CommOpening),
    _commPromises (engine w) = Some ps ->
    Forall (fun m => ps !! comm_id (content m) = Some p) msgs ->
    openings w !! p = Some o -> co_state o = OpenPending ->
    let r := handleCommMsgs msgs w in
    completion r = Normal tt /\ trace r = [] /\
    engine (world r) = engine w /\
    openings (world r) !! p =
      Some {| co_content := co_content o; co_msg := co_msg o; co_load := co_load o;
              co_state := OpenPending;
              co_waiters := co_waiters o ++ (ThenCommMsg <$> msgs) |}.
Proof.
  induction msgs as [|m rest IH]; intros w ps p o Hps Hall Ho Hst; cbv zeta.
  - simpl. rewrite app_nil_r, Ho. destruct o; simpl in *; subst; auto.
  - apply Forall_cons in Hall as [Hp Hrest]. cbn [handleCommMsgs].
    rewrite bind_run, (handleCommMsg_chained m w ps p o Hps Hp Ho Hst).
    cbn [completion world trace].
    set (w1 := with_openings _ w).
    assert (Ho1 : openings w1 !! p = Some (add_waiter (ThenCommMsg m) o)).
    { unfold w1. cbn [with_openings openings]. rewrite lookup_alter_eq, Ho. reflexivity. }
    destruct (IH w1 ps p _ Hps Hrest Ho1 Hst) as (Hc & Ht & He & Hop).
    rewrite Hc, Ht, He, Hop. cbn [add_waiter co_content co_msg co_load co_waiters fmap list_fmap].
    rewrite <- app_assoc. auto.
Qed.

Lemma commMsg_callback_run (target : Target) (m : IKernelMessage) (c : Comm) (w : World) :
  c_onMsg c = installs_onMsg target ->
  commMsg_callback m c w = MkRun (Normal c) w (onMsg_events target m).
Proof.
  intros Hc. unfold commMsg_callback, try_catch, call, bind, event, ret, throw, onMsg_events.
  rewrite Hc. destruct (installs_onMsg target) as [cb|]; simpl; [|reflexivity].
  destruct (cb_throws cb); reflexivity.
Qed.

(** The callbacks chained on the open promise run in the order they
    were chained. *)
Lemma run_waiters_msgs (target : Target) (msgs : list IKernelMessage) (c : Comm) (w : World) :
  c_onMsg c = installs_onMsg target ->
  run_waiters (ThenCommMsg <$> msgs) c w =
    MkRun (Normal tt) w (concat (onMsg_events target <$> msgs)).
Proof.
  intros Hc. induction msgs as [|m rest IH]; [reflexivity|].
  cbn [fmap list_fmap run_waiters run_reaction].
  rewrite bind_run, attempt_run, (commMsg_callback_run target m c w Hc).
  cbn [completion world trace]. rewrite IH. reflexivity.
Qed.

Lemma settle_opening_resolved (h : Host) (p : nat) (w : World) (o : CommOpening)
    (target : Target) (msgs : list IKernelMessage)
    (ps : gmap string nat) (cs : gmap string Comm) :
  openings w !! p = Some o -> co_state o = OpenPending ->
  co_waiters o = ThenCommMsg <$> msgs ->
  load_result h (co_load o) = inl target -> target_throws target = false ->
  _commPromises (engine w) = Some ps -> _comms (engine w) = Some cs ->
  completion (settle_opening h p w) = Normal tt /\
  trace (settle_opening h p w) =
    EvTarget (target_id target) (comm_id (co_content o)) (co_msg o)
    :: concat (onMsg_events target <$> msgs).
Proof.
  intros Ho Hst Hwt Hload Hthrows Hps Hcs.
  unfold settle_opening, opening_callback, call_target, attempt, update_opening,
    update_engine, the_engine, get, modify, event, ret, throw, bind.
  simpl. rewrite Ho, Hst, Hload. simpl. rewrite Hthrows. simpl. rewrite Hps. simpl.
  rewrite Hcs. simpl. rewrite lookup_alter_eq, Ho. simpl. rewrite Hwt.
  rewrite (run_waiters_msgs target msgs) by reflexivity.
  auto.
Qed.

Lemma settle_opening_failed (h : Host) (p : nat) (w : World) (o : CommOpening) (e : JsError) :
  openings w !! p = Some o -> co_state o = OpenPending ->
  load_result h (co_load o) = inr e ->
  completion (settle_opening h p w) = Normal tt /\
  trace (settle_opening h p w) = [] /\
  (co_state <$> openings (world (settle_opening h p w)) !! p) = Some (OpenRejected e).
Proof.
  intros Ho Hst Hload.
  unfold settle_opening, update_opening, get, modify, bind.
  simpl. rewrite Ho, Hst, Hload. simpl. rewrite lookup_alter_eq, Ho. auto.
Qed.

(** C8.  On a live engine, a comm_open leaves its open promise pending
    in _commPromises.  The comm_msg messages for the same comm id that
    arrive before the promise is settled, however many, are neither
    dropped nor delivered: each call has no effect but to chain its
    message on the pending promise, behind those chained before.  When
    the target is resolved, the target callback runs with the open
    message first, and only then does the onMsg it installed receive
    the messages, all of them, in the order of their arrival; when the
    resolution fails, none is ever delivered. *)
Theorem C8_comm_msg_waits_for_open (h : Host) (w : World)
    (open_msg : IKernelMessage) (msgs : list IKernelMessage) :
  alive (engine w) = true ->
  Forall (fun m => comm_id (content m) = comm_id (content open_msg)) msgs ->
  let p := clock w in
  let r1 := Kernel__handleCommOpen h open_msg w in
  let r2 := handleCommMsgs msgs (world r1) in
  let r3 := settle_opening h p (world r2) in
  let load := loadObject h (target_name (content open_msg))
                (target_module (content open_msg)) (_targetRegistry (engine w)) in
  (completion r1 = Normal tt /\ trace r1 = [] /\
   (_commPromises (engine (world r1)) ≫= (fun ps => ps !! comm_id (content open_msg))) = Some p /\
   waiting (world r1) p = Some []) /\
  (completion r2 = Normal tt /\ trace r2 = [] /\
   waiting (world r2) p = Some (ThenCommMsg <$> msgs)) /\
  (forall target : Target,
     load_result h load = inl target -> target_throws target = false ->
     completion r3 = Normal tt /\
     trace r3 = EvTarget (target_id target) (comm_id (content open_msg)) open_msg
                :: concat (onMsg_events target <$> msgs)) /\
  (forall e : JsError,
     load_result h load = inr e -> completion r3 = Normal tt /\ trace r3 = []).
Proof.
  intros Hal Hid. cbv zeta.
  assert (Hmaps : exists ps cs, _commPromises (engine w) = Some ps /\ _comms (engine w) = Some cs).
  { unfold alive in Hal.
    destruct (_futures (engine w)), (_commPromises (engine w)), (_comms (engine w));
      try discriminate; eauto. }
  destruct Hmaps as (ps & cs & Hps & Hcs).
  rewrite (handleCommOpen_run h open_msg w ps Hps). cbn [completion world trace].
  set (o := {| co_content := content open_msg; co_msg := open_msg;
               co_load := loadObject h (target_name (content open_msg))
                            (target_module (content open_msg)) (_targetRegistry (engine w));
               co_state := OpenPending; co_waiters := [] |}).
  set (w1 := with_engine _ (with_openings _ (tick w))).
  assert (Ho1 : openings w1 !! clock w = Some o) by (unfold w1; simpl; apply lookup_insert_eq).
  assert (Hps1 : _commPromises (engine w1) = Some (<[comm_id (content open_msg) := clock w]> ps))
    by reflexivity.
  assert (Hall : Forall (fun m => <[comm_id (content open_msg) := clock w]> ps
                                    !! comm_id (content m) = Some (clock w)) msgs).
  { eapply Forall_impl; [exact Hid|]. intros m Hm. simpl in Hm. rewrite Hm.
    apply lookup_insert_eq. }
  destruct (handleCommMsgs_chained msgs w1 _ (clock w) o Hps1 Hall Ho1 eq_refl)
    as (Hc2 & Ht2 & He2 & Ho2).
  cbv zeta in Hc2, Ht2, He2, Ho2.
  set (w2 := world (handleCommMsgs msgs w1)) in *.
  cbn [o co_content co_msg co_load co_waiters app] in Ho2.
  split; [|split; [|split]].
  - unfold waiting. rewrite Ho1. simpl. rewrite lookup_insert_eq. auto.
  - unfold waiting. rewrite Ho2. auto.
  - intros target Hload Hthrows.
    apply (settle_opening_resolved h (clock w) w2 _ target msgs
             (<[comm_id (content open_msg) := clock w]> ps) cs Ho2 eq_refl eq_refl Hload Hthrows).
    + rewrite He2. exact Hps1.
    + rewrite He2. exact Hcs.
  - intros e Hload.
    destruct (settle_opening_failed h (clock w) w2 _ e Ho2 eq_refl Hload) as (Hc & Ht & _).
    auto.
Qed.

Lemma C8_witness :
  trace (settle_opening host_requirejs (clock world_idle)
           (world (handleCommMsgs [msg_c1; msg_c1']
                     (world (Kernel__handleCommOpen host_requirejs open_c1 world_idle)))))
  = [EvTarget "tgt exported by module m" "c1" open_c1;
     EvCommOnMsg "onMsg set by the module target" msg_c1;
     EvCommOnMsg "onMsg set by the module target" msg_c1'].
Proof.
  destruct (C8_comm_msg_waits_for_open host_requirejs world_idle open_c1 [msg_c1; msg_c1']
              ltac:(vm_compute; reflexivity) ltac:(repeat constructor))
    as (_ & _ & Hresolved & _).
  destruct (Hresolved module_target ltac:(vm_compute; reflexivity) eq_refl) as [_ Ht].
  exact Ht.
Defined.

(** ** The target of a server-initiated comm_open *)

(** With a module name, loadObject does not look at the registry. *)
Lemma loadObject_module_first (h : Host) (name moduleName : string)
    (r1 r2 : option (gmap string Target)) :
  moduleName <> "" -> loadObject h name moduleName r1 = loadObject h name moduleName r2.
Proof.
  intros Hm. unfold loadObject.
  destruct (String.eqb_spec moduleName ""); [contradiction|reflexivity].
Qed.

(** Without one, the registered callback is the target. *)
Lemma loadObject_registry (h : Host) (name : string) (r : gmap string Target) (target : Target) :
  r !! name = Some target -> loadObject h name "" (Some r) = Loaded target.
Proof. intros Hr. unfold loadObject. simpl. rewrite Hr. reflexivity. Qed.

(** C6: the code does otherwise.  With "tgt" registered locally, a
    comm_open that names target_name "tgt" and target_module "m" is
    opened by the callback that module "m" exports, not by the
    registered one; where requirejs is not defined the open promise is
    rejected and no callback runs at all. *)
Theorem C6_module_loaded_despite_registry :
  let p := clock world_registered in
  let settled :=
    settle_opening host_requirejs p
      (world (Kernel__handleCommOpen host_requirejs open_c1 world_registered)) in
  let settled0 :=
    settle_opening host0 p (world (Kernel__handleCommOpen host0 open_c1 world_registered)) in
  (_targetRegistry (engine world_registered) ≫= (fun r => r !! "tgt")) = Some local_target /\
  trace settled = [EvTarget (target_id module_target) "c1" open_c1] /\
  trace settled0 = [] /\
  (co_state <$> openings (world settled0) !! p) = Some (OpenRejected (Error "requirejs not found")).
Proof. vm_compute. auto. Qed.

(** ** Session shutdown *)

Lemma killSessions_loop_terminated (id : string) (snapshot : list DefaultSession.t) :
  forall (running : list DefaultSession.t) (s : DefaultSession.t),
    s ∈ snapshot -> DefaultSession._id s = Some id ->
    Terminated (DefaultSession._uuid s) ∈ (DefaultSession.killSessions_loop id snapshot running).2 /\
    (DefaultSession._options s = true -> DefaultSession._kernel s = true ->
     KernelDisposed (DefaultSession._uuid s)
       ∈ (DefaultSession.killSessions_loop id snapshot running).2).
Proof.
  induction snapshot as [|x rest IH]; intros running s Hin Hid.
  - inversion Hin.
  - simpl. apply elem_of_cons in Hin as [->|Hin].
    + rewrite Hid, String.eqb_refl. simpl. split; [left|].
      intros Ho Hk. right. apply elem_of_app. left.
      unfold DefaultSession.dispose, DefaultSession.isDisposed. rewrite Ho, Hk. simpl. left.
    + destruct (IH running s Hin Hid) as [H1 H2].
      destruct (DefaultSession._id x) as [i|].
      * destruct (String.eqb i id); simpl.
        -- destruct (IH (DefaultSession.dispose x running).1 s Hin Hid) as [H3 H4].
           split; [right; apply elem_of_app; right; exact H3|].
           intros Ho Hk. right. apply elem_of_app. right. exact (H4 Ho Hk).
        -- split; assumption.
      * split; assumption.
Qed.

Lemma killSessions_loop_no_error (id : string) (snapshot : list DefaultSession.t) :
  forall running : list DefaultSession.t,
    Forall (fun e => is_error_log e = false)
      (DefaultSession.killSessions_loop id snapshot running).2.
Proof.
  induction snapshot as [|x rest IH]; intros running; simpl; [constructor|].
  destruct (DefaultSession._id x) as [i|]; [|apply IH].
  destruct (String.eqb i id); [|apply IH]. simpl.
  constructor; [reflexivity|]. apply Forall_app. split; [|apply IH].
  unfold DefaultSession.dispose.
  destruct (DefaultSession.isDisposed x); simpl; [constructor|].
  destruct (DefaultSession._kernel x); repeat constructor.
Qed.

(** C9, as stated, fails: the DELETE sent by Session.shutdown of the
    earlier session file has no case for 404; the promise is rejected
    and the session is left as it was. *)
Theorem C9_legacy_shutdown_rejects_404 :
  Session.outcome (Session.shutdown session_s1 not_found)
    = Session.RejectedWith (Error "Not Found") /\
  Session.session (Session.shutdown session_s1 not_found) = session_s1.
Proof. vm_compute. auto. Qed.

Lemma removeFirstOf_elem (l : list DefaultSession.t) (u : string) (s : DefaultSession.t) :
  s ∈ DefaultSession.removeFirstOf l u -> s ∈ l.
Proof.
  induction l as [|x l IH]; simpl; [auto|].
  destruct (String.eqb (DefaultSession._uuid x) u).
  - intros H. right. exact H.
  - intros H. apply elem_of_cons in H as [->|H]; [left | right; auto].
Qed.

Lemma removeFirstOf_NoDup (l : list DefaultSession.t) (u : string) :
  NoDup (DefaultSession._uuid <$> l) ->
  NoDup (DefaultSession._uuid <$> DefaultSession.removeFirstOf l u) /\
  forall s, s ∈ DefaultSession.removeFirstOf l u <-> s ∈ l /\ DefaultSession._uuid s <> u.
Proof.
  induction l as [|x l IH]; simpl; intros Hnd.
  - split; [constructor|]. intros s. split; [intros H; inversion H | intros [H _]; inversion H].
  - apply NoDup_cons in Hnd as [Hx Hnd]. destruct (IH Hnd) as [IH1 IH2].
    destruct (String.eqb_spec (DefaultSession._uuid x) u) as [Heq|Hne].
    + split; [exact Hnd|]. intros s. split.
      * intros Hs. split; [right; exact Hs|]. intros Hu. apply Hx.
        rewrite Heq, <- Hu. apply list_elem_of_fmap. eauto.
      * intros [Hs Hu]. apply elem_of_cons in Hs as [->|Hs]; [contradiction|exact Hs].
    + split.
      * simpl. apply NoDup_cons. split; [|exact IH1].
        intros Hin. apply Hx. apply list_elem_of_fmap in Hin as (y & Hy & Hin).
        apply list_elem_of_fmap. exists y. split; [exact Hy|].
        eapply removeFirstOf_elem, Hin.
      * intros s. rewrite !elem_of_cons, IH2. split.
        -- intros [->|[Hs Hu]]; auto.
        -- intros [[->|Hs] Hu]; auto.
Qed.

Lemma killSessions_loop_removes (id : string) (snapshot : list DefaultSession.t) :
  forall running : list DefaultSession.t,
    NoDup (DefaultSession._uuid <$> running) ->
    NoDup (DefaultSession._uuid <$> (DefaultSession.killSessions_loop id snapshot running).1) /\
    forall s, s ∈ (DefaultSession.killSessions_loop id snapshot running).1 ->
      s ∈ running /\
      forall x, x ∈ snapshot -> killed id x -> DefaultSession._uuid x <> DefaultSession._uuid s.
Proof.
  induction snapshot as [|x rest IH]; intros running Hnd; simpl.
  - split; [exact Hnd|]. intros s Hs. split; [exact Hs|]. intros y Hy. inversion Hy.
  - assert (Hskip : ~ killed id x ->
      NoDup (DefaultSession._uuid <$> (DefaultSession.killSessions_loop id rest running).1) /\
      forall s, s ∈ (DefaultSession.killSessions_loop id rest running).1 ->
        s ∈ running /\
        forall y, y ∈ x :: rest -> killed id y ->
          DefaultSession._uuid y <> DefaultSession._uuid s).
    { intros Hnk. destruct (IH running Hnd) as [H1 H2]. split; [exact H1|].
      intros s Hs. destruct (H2 s Hs) as [H3 H4]. split; [exact H3|].
      intros y Hy Hk. apply elem_of_cons in Hy as [->|Hy]; [contradiction | auto]. }
    destruct (DefaultSession._id x) as [i|] eqn:Hid;
      [|apply Hskip; intros [Hk _]; congruence].
    destruct (String.eqb_spec i id) as [->|Hne];
      [|apply Hskip; intros [Hk _]; congruence].
    simpl. unfold DefaultSession.dispose, DefaultSession.isDisposed.
    destruct (DefaultSession._options x) eqn:Ho; simpl;
      [|apply Hskip; intros [_ Hk]; congruence].
    destruct (removeFirstOf_NoDup running (DefaultSession._uuid x) Hnd) as [Hnd1 Hrem].
    destruct (IH _ Hnd1) as [H1 H2]. split; [exact H1|].
    intros s Hs. destruct (H2 s Hs) as [H3 H4]. apply Hrem in H3 as [H3 Hu].
    split; [exact H3|].
    intros y Hy Hk. apply elem_of_cons in Hy as [->|Hy]; [congruence | auto].
Qed.

(** C9, amended.  For the DELETE sent by Private.shutdownSession
    (session/default.ts): on a 404 whose body is JSON other than null,
    the promise resolves, a warning is logged and no error, and every
    running session of that id is terminated and disposed (gone from
    the running sessions, its kernel disposed); on a 410 the promise is
    rejected with the error of the request carrying the message that
    the kernel was deleted but the session was not, which is logged.
    Session.shutdown of the earlier session file rejects a 410 with the
    same message, and rejects a 404 too. *)
Theorem C9_session_delete (parse : string -> option JSON) (id : string)
    (running : list DefaultSession.t) (response : XHR) :
  let r := DefaultSession.shutdownSession parse id running response in
  (status response = 404 ->
   forall j : JSON, parse (responseText response) = Some j -> j <> JNull ->
     DefaultSession.outcome r = DefaultSession.Resolved /\
     (exists text, DefaultSession.log r = Warn text :: (DefaultSession.killSessions id running).2) /\
     Forall (fun e => is_error_log e = false) (DefaultSession.log r) /\
     (forall s, s ∈ running -> DefaultSession._id s = Some id ->
        Terminated (DefaultSession._uuid s) ∈ DefaultSession.log r /\
        (DefaultSession._options s = true -> DefaultSession._kernel s = true ->
         KernelDisposed (DefaultSession._uuid s) ∈ DefaultSession.log r)) /\
     (NoDup (DefaultSession._uuid <$> running) ->
      forall s, s ∈ running -> killed id s -> s ∉ DefaultSession.runningSessions r)) /\
  (status response = 410 ->
   exists err,
     DefaultSession.outcome r = DefaultSession.RejectedWith (DefaultSession.OfAjaxError err) /\
     DefaultSession.throwError err = Some "The kernel was deleted but the session was not" /\
     DefaultSession.xhr err = response /\
     DefaultSession.log r
       = [LogError "API request failed: The kernel was deleted but the session was not"] /\
     DefaultSession.runningSessions r = running) /\
  (forall (this : Session.t) (rejected : Session.IAjaxError),
     Session._options this = true -> status (Session.xhr rejected) = 410 ->
     Session.outcome (Session.shutdown this (Session.Failure rejected))
       = Session.RejectedWith (Error "The kernel was deleted but the session was not")) /\
  (forall (this : Session.t) (result : Session.AjaxResult),
     match result with
     | Session.Success x => status x
     | Session.Failure rejected => status (Session.xhr rejected)
     end = 404 ->
     exists e, Session.outcome (Session.shutdown this result) = Session.RejectedWith e).
Proof.
  simpl. split; [|split; [|split]].
  - intros H404 j Hj Hnull.
    destruct response as [code stext body]. simpl in H404, Hj. subst code.
    unfold DefaultSession.shutdownSession, DefaultSession.ajaxRequest.
    cbn [status DefaultSession.xhr responseText Nat.leb Nat.eqb].
    rewrite Hj.
    assert (Hkill : forall text,
      let r := {| DefaultSession.outcome := DefaultSession.Resolved;
                  DefaultSession.runningSessions := (DefaultSession.killSessions id running).1;
                  DefaultSession.log := Warn text :: (DefaultSession.killSessions id running).2 |} in
      DefaultSession.outcome r = DefaultSession.Resolved /\
      (exists text, DefaultSession.log r = Warn text :: (DefaultSession.killSessions id running).2) /\
      Forall (fun e => is_error_log e = false) (DefaultSession.log r) /\
      (forall s, s ∈ running -> DefaultSession._id s = Some id ->
         Terminated (DefaultSession._uuid s) ∈ DefaultSession.log r /\
         (DefaultSession._options s = true -> DefaultSession._kernel s = true ->
          KernelDisposed (DefaultSession._uuid s) ∈ DefaultSession.log r)) /\
      (NoDup (DefaultSession._uuid <$> running) ->
       forall s, s ∈ running -> killed id s -> s ∉ DefaultSession.runningSessions r)).
    { intros text. simpl. split; [reflexivity|]. split; [eauto|]. split.
      - constructor; [reflexivity|]. apply killSessions_loop_no_error.
      - split.
        + intros s Hs Hid.
          destruct (killSessions_loop_terminated id running running s Hs Hid) as [H1 H2].
          split; [right; exact H1|]. intros Ho Hk. right. exact (H2 Ho Hk).
        + intros Hnd s Hs Hk Hin.
          destruct (killSessions_loop_removes id running running Hnd) as [_ Hrem].
          destruct (Hrem s Hin) as [_ Hne]. exact (Hne s Hs Hk eq_refl). }
    cbv zeta in Hkill.
    destruct j as [|message|];
      [contradiction | exact (Hkill (DefaultSession.show message)) | exact (Hkill "undefined")].
  - intros H410.
    destruct response as [code stext body]. simpl in H410. subst code.
    unfold DefaultSession.shutdownSession, DefaultSession.ajaxRequest.
    cbn [status DefaultSession.xhr responseText Nat.leb Nat.eqb].
    eexists. repeat split.
  - intros this rejected Ho H410. unfold Session.shutdown. rewrite Ho, H410. reflexivity.
  - intros this result H404. unfold Session.shutdown.
    destruct (Session._options this); simpl; [|eauto].
    destruct result as [x|rejected]; simpl in *.
    + rewrite H404. simpl. eauto.
    + rewrite H404. simpl. eauto.
Qed.

Lemma C9_witness :
  DefaultSession.outcome
    (DefaultSession.shutdownSession parse_message "abc" running2 (response 404 "Not Found"))
    = DefaultSession.Resolved /\
  exists err,
    DefaultSession.outcome
      (DefaultSession.shutdownSession parse_message "abc" running2 (response 410 "Gone"))
      = DefaultSession.RejectedWith (DefaultSession.OfAjaxError err) /\
    DefaultSession.throwError err = Some "The kernel was deleted but the session was not".
Proof.
  split.
  - destruct (C9_session_delete parse_message "abc" running2 (response 404 "Not Found"))
      as (H404 & _).
    apply (H404 eq_refl (JObject (Some "body of the response")) eq_refl ltac:(discriminate)).
  - destruct (C9_session_delete parse_message "abc" running2 (response 410 "Gone"))
      as (_ & H410 & _).
    destruct (H410 eq_refl) as (err & Hout & Hmsg & _).
    exists err. split; [exact Hout | exact Hmsg].
Defined.

(** ** The registry of running kernels *)

(** The constructor files the socket under the kernel id. *)
Lemma KernelSocket_new_registers (h : Host) (options : IKernelOptions) (id : string) (w : World) :
  completion (KernelSocket_new h options id w) = Normal (clock w) /\
  runningKernels (world (KernelSocket_new h options id w)) !! id = Some (clock w).
Proof.
  unfold KernelSocket_new, KernelSocket__createSocket, update_socket, the_socket,
    fresh, modify, event, ret, bind. simpl.
  rewrite lookup_insert_eq. simpl. rewrite lookup_insert_eq. auto.
Qed.

(** dispose() deletes the entry under the websocket url: the entry
    under a kernel id that differs from that url stays. *)
Lemma KernelSocket_dispose_keeps_entry (this : nat) (w : World) (s : KernelSocket) (id : string) :
  sockets w !! this = Some s -> _wsUrl s <> id ->
  runningKernels (world (KernelSocket_dispose this w)) !! id = runningKernels w !! id.
Proof.
  intros Hs Hne. unfold KernelSocket_dispose.
  rewrite bind_run, (the_socket_run this w s Hs). simpl.
  destruct (_ws s); simpl; [|reflexivity].
  apply lookup_delete_ne. exact Hne.
Qed.

(** C10: the code does otherwise.  The socket made for kernel "k1" is
    filed under "k1"; after its dispose() the registry still holds it
    under "k1" (the entry deleted is the one under the websocket url),
    and connectToKernel("k1") gives the new kernel that disposed socket
    without asking the server or making a socket. *)
Theorem C10_disposed_socket_stays_registered :
  let made := KernelSocket_new host0 options0 "k1" world0 in
  let disposed := KernelSocket_dispose 0 (world made) in
  let again :=
    connectToKernel host0 "k1" (Some options0) (AjaxSuccess 200 (Some "k1")) (world disposed) in
  completion made = Normal 0 /\
  runningKernels (world made) !! "k1" = Some 0 /\
  completion disposed = Normal tt /\
  (KernelSocket_isDisposed <$> sockets (world disposed) !! 0) = Some true /\
  runningKernels (world disposed) !! "k1" = Some 0 /\
  completion again = Normal 0 /\
  trace again = [EvNewKernel 0].
Proof. vm_compute. auto 10. Qed.

(** ** Disposal, once more *)

Lemma alive_inv (k : Kernel) :
  alive k = true <->
  exists fs ps cs reg,
    _futures k = Some fs /\ _commPromises k = Some ps /\ _comms k = Some cs /\
    _targetRegistry k = Some reg.
Proof.
  unfold alive. split.
  - destruct (_futures k), (_commPromises k), (_comms k), (_targetRegistry k);
      try discriminate. eauto 10.
  - intros (fs & ps & cs & reg & -> & -> & -> & ->). reflexivity.
Qed.

Lemma KernelSocket_dispose_run (this : nat) (w : World) (s : KernelSocket) :
  sockets w !! this = Some s ->
  KernelSocket_dispose this w =
    match _ws s with
    | None => MkRun (Normal tt) w []
    | Some ws =>
        MkRun (Normal tt)
          (with_sockets (fun m => alter (set_ws None) this m)
             (with_runningKernels (fun m => delete (_wsUrl s) m) w))
          [EvWsClose (ws_url ws)]
    end.
Proof.
  intros Hs. unfold KernelSocket_dispose.
  rewrite bind_run, (the_socket_run this w s Hs). simpl.
  destruct (_ws s); reflexivity.
Qed.

Lemma Kernel_dispose_disposed (w : World) :
  Kernel_isDisposed (engine w) = true -> Kernel_dispose w = MkRun (Normal tt) w [].
Proof.
  intros Hd. unfold Kernel_dispose. rewrite bind_run. simpl. rewrite Hd. reflexivity.
Qed.

(** What follows the disposal of the socket in Kernel.dispose. *)
Lemma Kernel_dispose_rest (w : World) :
  alive (engine w) = true ->
  let r := (forEach_future >>> forEach_comm >>>
            update_engine (set_futures None) >>>
            update_engine (set_commPromises None) >>>
            update_engine (set_comms None) >>>
            update_engine (set_status Dead) >>>
            update_engine (set_targetRegistry None) >>>
            clearSignalData) w in
  completion r = Normal tt /\ trace r = [] /\
  sockets (world r) = sockets w /\ runningKernels (world r) = runningKernels w /\
  promises (world r) = promises w /\ openings (world r) = openings w.
Proof.
  intros Hal. cbv zeta.
  destruct (forEach_future_run w) as (Ht1 & Hsame1 & Hf). destruct (Hf Hal) as [Hc1 Hal1].
  rewrite (bind_normal _ _ w tt Hc1), Ht1.
  set (w1 := world (forEach_future w)) in *.
  destruct (forEach_comm_run w1) as (Ht2 & Hsame2 & Hg). destruct (Hg Hal1) as [Hc2 Hal2].
  rewrite (bind_normal _ _ w1 tt Hc2), Ht2.
  set (w2 := world (forEach_comm w1)) in *.
  pose proof (same_outside_maps_trans _ _ _ Hsame1 Hsame2)
    as (_ & _ & _ & _ & Hpr & Hop & Hsk & Hrk).
  simpl. auto 10.
Qed.

Lemma Kernel_dispose_closes (w : World) (x : nat) (s : KernelSocket) :
  alive (engine w) = true -> _socket (engine w) = Some x -> sockets w !! x = Some s ->
  trace (Kernel_dispose w)
    = match _ws s with Some ws => [EvWsClose (ws_url ws)] | None => [] end /\
  sockets (world (Kernel_dispose w)) !! x = Some (set_ws None s) /\
  promises (world (Kernel_dispose w)) = promises w.
Proof.
  intros Hal Hx Hs.
  unfold Kernel_dispose. rewrite bind_run. simpl.
  assert (Hd : Kernel_isDisposed (engine w) = false).
  { unfold alive in Hal. unfold Kernel_isDisposed.
    destruct (_futures (engine w)); [reflexivity|discriminate]. }
  rewrite Hd, bind_run. simpl. rewrite Hx.
  set (w1 := with_engine (set_status Dead) w).
  assert (Hs1 : sockets w1 !! x = Some s) by exact Hs.
  rewrite bind_run, (KernelSocket_dispose_run x w1 s Hs1).
  destruct (_ws s) as [ws|] eqn:Hws; cbn [completion world trace].
  - set (w2 := with_sockets _ _).
    assert (Hal2 : alive (engine w2) = true) by exact Hal.
    destruct (Kernel_dispose_rest w2 Hal2) as (_ & Ht & Hsk & _ & Hpr & _).
    cbv zeta in Ht, Hsk, Hpr. rewrite Ht, Hsk, Hpr. split; [reflexivity|].
    unfold w2, w1. simpl. rewrite lookup_alter_eq, Hs. auto.
  - assert (Hal1 : alive (engine w1) = true) by exact Hal.
    destruct (Kernel_dispose_rest w1 Hal1) as (_ & Ht & Hsk & _ & Hpr & _).
    cbv zeta in Ht, Hsk, Hpr. rewrite Ht, Hsk, Hpr. split; [reflexivity|].
    unfold w1. simpl. rewrite Hs. destruct s; simpl in *; subst; auto.
Qed.

(** Kernel.dispose on a live engine closes the websocket of its socket
    once (not at all when the socket has none) and leaves the engine
    disposed; the socket keeps its queue, and no promise is settled.
    A second call does nothing. *)
Theorem Kernel_dispose_once (w : World) (x : nat) (s : KernelSocket) :
  alive (engine w) = true -> _socket (engine w) = Some x -> sockets w !! x = Some s ->
  let r := Kernel_dispose w in
  completion r = Normal tt /\
  trace r = match _ws s with Some ws => [EvWsClose (ws_url ws)] | None => [] end /\
  Kernel_isDisposed (engine (world r)) = true /\
  sockets (world r) !! x = Some (set_ws None s) /\
  promises (world r) = promises w /\
  Kernel_dispose (world r) = MkRun (Normal tt) (world r) [].
Proof.
  intros Hal Hx Hs. cbv zeta.
  assert (Ha : attached w = true) by (apply attached_inv; eauto).
  destruct (Kernel_dispose_live w Hal Ha) as (Hc & Hf & _).
  assert (Hdisp : Kernel_isDisposed (engine (world (Kernel_dispose w))) = true).
  { unfold Kernel_isDisposed. rewrite Hf. reflexivity. }
  destruct (Kernel_dispose_closes w x s Hal Hx Hs) as (Ht & Hsk & Hpr).
  split; [exact Hc|]. split; [exact Ht|]. split; [exact Hdisp|]. split; [exact Hsk|].
  split; [exact Hpr|]. apply Kernel_dispose_disposed, Hdisp.
Qed.

(** ** Requests and their futures *)

Lemma sendShellMessage_queued (h : Host) (msg : IKernelMessage) (er dd : bool) (w : World)
    (x : nat) (s : KernelSocket) (fs : gmap string KernelFutureHandler) :
  _status (engine w) <> Dead -> _socket (engine w) = Some x -> sockets w !! x = Some s ->
  _isReady s = false -> _futures (engine w) = Some fs ->
  Kernel_sendShellMessage h msg er dd w =
    MkRun (Normal (new_future msg er dd))
      (with_engine (set_futures (Some (<[msg_id (header msg) := new_future msg er dd]> fs)))
         (with_sockets (fun m =>
            alter (fun s => set_pendingMessages (_pendingMessages s ++ [msg]) s) x m) w)) [].
Proof.
  intros Hst Hx Hs Hr Hfs. unfold Kernel_sendShellMessage.
  rewrite bind_run. cbn [the_engine completion world trace].
  destruct (decide (_status (engine w) = Dead)); [contradiction|].
  assert (Hsend : socket_send h msg w =
            MkRun (Normal tt)
              (with_sockets (fun m =>
                 alter (fun s => set_pendingMessages (_pendingMessages s ++ [msg]) s) x m) w) []).
  { unfold socket_send. rewrite bind_run. cbn [the_engine completion world trace].
    rewrite Hx. rewrite (KernelSocket_send_queues h x msg w s Hs Hr). reflexivity. }
  rewrite bind_run, Hsend. cbn [completion world trace].
  rewrite bind_run. cbn [the_engine completion world trace with_sockets engine].
  rewrite Hfs. reflexivity.
Qed.

(** sendShellMessage on a live engine whose socket is not ready: the
    message goes to the end of the queue of the socket, nothing is put
    on the wire, and the future made is the one the registry holds
    under the id of the message, the futures of other requests staying
    as they were.  Running the dispose callback of the future takes
    exactly that entry out again. *)
Theorem sendShellMessage_registers (h : Host) (msg : IKernelMessage) (er dd : bool) (w : World)
    (x : nat) (s : KernelSocket) :
  _status (engine w) <> Dead -> alive (engine w) = true ->
  _socket (engine w) = Some x -> sockets w !! x = Some s -> _isReady s = false ->
  let id := msg_id (header msg) in
  let r := Kernel_sendShellMessage h msg er dd w in
  let d := future_disposeCb id (world r) in
  completion r = Normal (new_future msg er dd) /\ trace r = [] /\
  pending_of (world r) x = Some (_pendingMessages s ++ [msg]) /\
  future_of (world r) id = Some (new_future msg er dd) /\
  (forall other, other <> id -> future_of (world r) other = future_of w other) /\
  completion d = Normal tt /\
  future_of (world d) id = None /\
  (forall other, other <> id -> future_of (world d) other = future_of w other).
Proof.
  intros Hst Hal Hx Hs Hr. cbv zeta.
  assert (Hfs : exists fs, _futures (engine w) = Some fs).
  { unfold alive in Hal. destruct (_futures (engine w)); [eauto|discriminate]. }
  destruct Hfs as [fs Hfs].
  rewrite (sendShellMessage_queued h msg er dd w x s fs Hst Hx Hs Hr Hfs).
  cbn [completion world trace].
  unfold future_of, pending_of, future_disposeCb.
  rewrite bind_run. cbn [the_engine completion world trace].
  simpl. rewrite Hfs. simpl.
  rewrite lookup_alter_eq, Hs, lookup_insert_eq, lookup_delete_eq. simpl.
  repeat split; auto.
  - intros other Hne. rewrite lookup_insert_ne; auto.
  - intros other Hne. rewrite lookup_delete_ne, lookup_insert_ne; auto.
Qed.

Lemma sendShellMessage_registers_witness :
  future_of (world (Kernel_sendShellMessage host0 request1 true true world_idle)) "m1"
    = Some (new_future request1 true true).
Proof.
  assert (Hs : sockets world_idle !! 0 = Some socket1) by (vm_compute; reflexivity).
  destruct (sendShellMessage_registers host0 request1 true true world_idle 0 socket1
              ltac:(vm_compute; discriminate) ltac:(vm_compute; reflexivity)
              eq_refl Hs eq_refl) as (_ & _ & _ & Hf & _).
  exact Hf.
Defined.

Lemma Kernel_dispose_once_witness :
  trace (Kernel_dispose world_idle)
    = [EvWsClose "ws://localhost:8888/api/kernels/k1/channels?session_id=undefined"].
Proof.
  assert (Hs : sockets world_idle !! 0 = Some socket1) by (vm_compute; reflexivity).
  destruct (Kernel_dispose_once world_idle 0 socket1 ltac:(vm_compute; reflexivity) eq_refl Hs)
    as (_ & Ht & _).
  exact Ht.
Defined.

Lemma socket_send_throws (h : Host) (msg : IKernelMessage) (w : World)
    (x : nat) (s : KernelSocket) :
  _socket (engine w) = Some x -> sockets w !! x = Some s -> _isReady s = true ->
  (_ws s = None \/ exists ws rest, _ws s = Some ws /\ ws_faults ws = true :: rest) ->
  exists e, completion (socket_send h msg w) = Throw e /\
            engine (world (socket_send h msg w)) = engine w /\
            promises (world (socket_send h msg w)) = promises w /\
            clock (world (socket_send h msg w)) = clock w /\
            trace (socket_send h msg w) = [].
Proof.
  intros Hx Hs Hr Hws. unfold socket_send.
  rewrite bind_run. cbn [the_engine completion world trace]. rewrite Hx.
  unfold KernelSocket_send. rewrite bind_run, (the_socket_run x w s Hs).
  cbn [completion world trace]. rewrite Hr. cbn [negb].
  unfold ws_send. rewrite Hs.
  destruct Hws as [Hws|(ws & rest & Hws & Hfault)]; rewrite Hws.
  - eexists. simpl. auto.
  - unfold WebSocket_send. rewrite Hfault. eexists. simpl. auto 10.
Qed.

(** When the socket is ready and the send of the websocket throws (or
    the socket has lost its websocket), sendShellMessage throws that
    error before it has made a future: the registry of futures is as it
    was and nothing went on the wire.  A request sent through
    Private.sendKernelMessage does not throw then: the promise it
    returns is rejected with the error. *)
Theorem sendShellMessage_send_throws (h : Host) (msg : IKernelMessage) (er dd : bool)
    (w : World) (x : nat) (s : KernelSocket) :
  _status (engine w) <> Dead ->
  _socket (engine w) = Some x -> sockets w !! x = Some s -> _isReady s = true ->
  (_ws s = None \/ exists ws rest, _ws s = Some ws /\ ws_faults ws = true :: rest) ->
  exists e,
    completion (Kernel_sendShellMessage h msg er dd w) = Throw e /\
    trace (Kernel_sendShellMessage h msg er dd w) = [] /\
    engine (world (Kernel_sendShellMessage h msg er dd w)) = engine w /\
    completion (sendKernelMessage h msg w) = Normal (clock w) /\
    promises (world (sendKernelMessage h msg w)) !! clock w = Some (Rejected e).
Proof.
  intros Hst Hx Hs Hr Hws.
  destruct (socket_send_throws h msg w x s Hx Hs Hr Hws) as (e & Hc & He & Hp & Hcl & Ht).
  assert (Hrun : forall er dd,
            completion (Kernel_sendShellMessage h msg er dd w) = Throw e /\
            trace (Kernel_sendShellMessage h msg er dd w) = [] /\
            world (Kernel_sendShellMessage h msg er dd w) = world (socket_send h msg w)).
  { intros er' dd'. unfold Kernel_sendShellMessage.
    rewrite bind_run. cbn [the_engine completion world trace].
    destruct (decide (_status (engine w) = Dead)); [contradiction|].
    rewrite (bind_throw _ _ w e Hc). cbn [completion world trace]. rewrite Ht. auto. }
  exists e. destruct (Hrun er dd) as (H1 & H2 & H3).
  split; [exact H1|]. split; [exact H2|]. split; [rewrite H3; exact He|].
  destruct (Hrun true true) as (H4 & H5 & H6).
  unfold sendKernelMessage. rewrite bind_run, attempt_run, H4.
  cbn [completion world trace]. rewrite new_promise_run. cbn [completion world trace].
  rewrite H6, Hcl. split; [reflexivity|].
  simpl. apply lookup_insert_eq.
Qed.

Lemma sendShellMessage_send_throws_witness :
  exists e,
    completion (Kernel_sendShellMessage host0 request1 true true world_ready_faulty) = Throw e /\
    future_of (world (Kernel_sendShellMessage host0 request1 true true world_ready_faulty)) "m1"
      = None.
Proof.
  destruct (sendShellMessage_send_throws host0 request1 true true world_ready_faulty 0
              (set_isReady true
                 (set_ws (Some {| ws_url := "ws://localhost:8888"; ws_faults := [true] |}) socket1))
              ltac:(vm_compute; discriminate) eq_refl ltac:(vm_compute; reflexivity) eq_refl
              ltac:(right; eexists _, _; split; reflexivity))
    as (e & Hc & _ & He & _).
  exists e. split; [exact Hc|]. unfold future_of. rewrite He. vm_compute. reflexivity.
Defined.

(** ** The registry of comm targets *)

(** registerCommTarget keeps one callback per name: after a second
    registration under the same name a comm_open without a module is
    given the second callback, and the targets of other names are as
    before.  The disposable of a registration deletes by name: the one
    returned for the first callback, disposed after the second
    registration, removes the second callback, and a comm_open for that
    name is then refused. *)
Theorem registerCommTarget_overrides (h : Host) (name : string) (cb1 cb2 : Target) (w : World) :
  alive (engine w) = true ->
  let r := (Kernel_registerCommTarget name cb1 >>> Kernel_registerCommTarget name cb2) w in
  let d := registerCommTarget_disposeCb name (world r) in
  completion r = Normal tt /\
  target_for h (world r) name = Loaded cb2 /\
  (forall other, other <> name -> target_for h (world r) other = target_for h w other) /\
  completion d = Normal tt /\
  target_for h (world d) name
    = LoadFailed (Error ("Object '" +:+ name +:+ "' not found in registry")) /\
  (forall other, other <> name -> target_for h (world d) other = target_for h w other).
Proof.
  intros Hal. cbv zeta.
  assert (Hreg : exists reg, _targetRegistry (engine w) = Some reg).
  { unfold alive in Hal.
    destruct (_futures (engine w)), (_commPromises (engine w)), (_comms (engine w)),
      (_targetRegistry (engine w)); try discriminate. eauto. }
  destruct Hreg as [reg Hreg].
  unfold Kernel_registerCommTarget, registerCommTarget_disposeCb, target_for, loadObject,
    update_engine, the_engine, modify, bind. simpl.
  rewrite Hreg. simpl.
  rewrite lookup_insert_eq, lookup_delete_eq.
  repeat split; auto.
  - intros other Hne. rewrite !lookup_insert_ne; auto.
  - intros other Hne. rewrite lookup_delete_ne, !lookup_insert_ne; auto.
Qed.

Lemma registerCommTarget_overrides_witness :
  target_for host0
    (world ((Kernel_registerCommTarget "tgt" module_target >>>
             Kernel_registerCommTarget "tgt" local_target) world_idle)) "tgt"
    = Loaded local_target.
Proof.
  destruct (registerCommTarget_overrides host0 "tgt" module_target local_target world_idle
              ltac:(vm_compute; reflexivity)) as (_ & Hl & _).
  exact Hl.
Defined.

(** ** Comms *)

Lemma connectToComm_run (h : Host) (targetName id : string) (w : World) (cs : gmap string Comm) :
  _comms (engine w) = Some cs ->
  Kernel_connectToComm h targetName (Some id) w =
    match cs !! id with
    | Some comm => MkRun (Normal comm) w []
    | None =>
        MkRun (Normal (client_comm targetName id))
          (with_engine (set_comms (Some (<[id := client_comm targetName id]> cs))) w) []
    end.
Proof.
  intros Hcs. unfold Kernel_connectToComm.
  unfold bind, ret, the_engine, update_engine, modify. simpl. rewrite Hcs.
  destruct (cs !! id); reflexivity.
Qed.

(** connectToComm with the id of a comm the engine holds returns that
    comm and changes nothing, whatever target name it is given: a
    second call with the same id gives the comm of the first, and a
    comm made for a free id is registered under it. *)
Theorem connectToComm_returns_existing (h : Host) (name1 name2 id : string) (w : World) :
  alive (engine w) = true ->
  let r1 := Kernel_connectToComm h name1 (Some id) w in
  let r2 := Kernel_connectToComm h name2 (Some id) (world r1) in
  (exists c, completion r1 = Normal c /\ comm_of (world r1) id = Some c /\
             Kernel_connectToComm h name2 (Some id) (world r1) = MkRun (Normal c) (world r1) []) /\
  (comm_of w id = None -> completion r1 = Normal (client_comm name1 id)) /\
  (forall c, comm_of w id = Some c -> r1 = MkRun (Normal c) w []) /\
  (forall other, other <> id -> comm_of (world r1) other = comm_of w other).
Proof.
  intros Hal. cbv zeta.
  assert (Hcs : exists cs, _comms (engine w) = Some cs).
  { unfold alive in Hal.
    destruct (_futures (engine w)), (_commPromises (engine w)), (_comms (engine w));
      try discriminate. eauto. }
  destruct Hcs as [cs Hcs].
  rewrite (connectToComm_run h name1 id w cs Hcs).
  unfold comm_of. rewrite Hcs. simpl.
  destruct (cs !! id) as [c|] eqn:Hc; cbn [completion world trace].
  - split; [|split; [discriminate|split]].
    + exists c. rewrite Hcs. simpl. rewrite Hc.
      rewrite (connectToComm_run h name2 id w cs Hcs), Hc. auto.
    + intros c' [= <-]. reflexivity.
    + intros other Hne. rewrite Hcs. reflexivity.
  - split; [|split; [reflexivity|split; [discriminate|]]].
    + exists (client_comm name1 id). simpl. rewrite lookup_insert_eq.
      erewrite connectToComm_run by reflexivity. rewrite lookup_insert_eq. auto.
    + intros other Hne. simpl. rewrite lookup_insert_ne; auto.
Qed.

Lemma connectToComm_returns_existing_witness :
  completion (Kernel_connectToComm host0 "other" (Some "c1")
                (world (Kernel_connectToComm host0 "target" (Some "c1") world_idle)))
    = Normal (client_comm "target" "c1").
Proof.
  destruct (connectToComm_returns_existing host0 "target" "other" "c1" world_idle
              ltac:(vm_compute; reflexivity)) as ((c & Hc & _ & Hr) & Hnew & _).
  rewrite Hr. simpl. rewrite <- Hc. apply Hnew. vm_compute. reflexivity.
Defined.

Lemma sendCommMessage_queued (h : Host) (payload : ICommPayload) (dd : bool) (w : World)
    (x : nat) (s : KernelSocket) (fs : gmap string KernelFutureHandler) :
  _status (engine w) <> Dead -> _socket (engine w) = Some x -> sockets w !! x = Some s ->
  _isReady s = false -> _futures (engine w) = Some fs ->
  let m := comm_message h (engine w) (clock w) (p_msgType payload) (p_content payload)
             (p_metadata payload) (p_buffers payload) in
  Kernel__sendCommMessage h payload dd w =
    MkRun (Normal (new_future m false dd))
      (with_engine (set_futures (Some (<[uuid h (clock w) := new_future m false dd]> fs)))
         (with_sockets (fun sk =>
            alter (fun s => set_pendingMessages (_pendingMessages s ++ [m]) s) x sk) (tick w))) [].
Proof.
  intros Hst Hx Hs Hr Hfs m. unfold Kernel__sendCommMessage.
  rewrite bind_run. cbn [the_engine completion world trace].
  unfold createKernelMessage. cbn [msgId String.eqb].
  rewrite !bind_run. cbn [fresh ret completion world trace app].
  match goal with
  | |- context [Kernel_sendShellMessage h ?m' false dd ?w'] =>
      rewrite (sendShellMessage_queued h m' false dd w' x s fs Hst Hx Hs Hr Hfs)
  end.
  reflexivity.
Qed.

Lemma unregisterComm_run (commId : option string) (w : World)
    (cs : gmap string Comm) (ps : gmap string nat) :
  _comms (engine w) = Some cs -> _commPromises (engine w) = Some ps ->
  Kernel__unregisterComm commId w =
    MkRun (Normal tt)
      (with_engine (fun k => set_commPromises (Some (delete_key commId ps))
                               (set_comms (Some (delete_key commId cs)) k)) w) [].
Proof.
  intros Hcs Hps. unfold Kernel__unregisterComm.
  unfold bind, the_engine, update_engine, modify. simpl. rewrite Hcs. simpl. rewrite Hps.
  reflexivity.
Qed.

(** The id a dispose callback unregisters: [comm.commId] is null by
    the time the callback of connectToComm reads it. *)
Lemma Comm_dispose_run (key : string) (c : Comm) (w : World)
    (cs : gmap string Comm) (ps : gmap string nat) :
  _comms (engine w) = Some cs -> _commPromises (engine w) = Some ps ->
  completion (Comm_dispose (Some key) c w) = Normal (Comm_cleared c) /\
  trace (Comm_dispose (Some key) c w) = [] /\
  sockets (world (Comm_dispose (Some key) c w)) = sockets w /\
  _status (engine (world (Comm_dispose (Some key) c w))) = _status (engine w) /\
  _futures (engine (world (Comm_dispose (Some key) c w))) = _futures (engine w) /\
  _targetRegistry (engine (world (Comm_dispose (Some key) c w))) = _targetRegistry (engine w) /\
  is_Some (_commPromises (engine (world (Comm_dispose (Some key) c w)))) /\
  _comms (engine (world (Comm_dispose (Some key) c w))) =
    Some (match c_callback c with
          | Some (UnregisterId i) => delete i (alter (fun _ => Comm_cleared c) key cs)
          | _ => alter (fun _ => Comm_cleared c) key cs
          end).
Proof.
  intros Hcs Hps. unfold Comm_dispose, write_back.
  rewrite bind_run. cbn [update_engine modify completion world trace].
  set (w1 := with_engine _ w).
  assert (Hcs1 : _comms (engine w1) = Some (alter (fun _ => Comm_cleared c) key cs)).
  { unfold w1. simpl. rewrite Hcs. reflexivity. }
  assert (Hps1 : _commPromises (engine w1) = Some ps) by exact Hps.
  destruct (c_callback c) as [[|i]|].
  - rewrite bind_run, (unregisterComm_run None w1 _ _ Hcs1 Hps1). simpl. eauto 10.
  - rewrite bind_run, (unregisterComm_run (Some i) w1 _ _ Hcs1 Hps1). simpl. eauto 10.
  - rewrite bind_run. simpl. rewrite Hcs. simpl. rewrite Hps. eauto 10.
Qed.

Lemma Comm_close_run (h : Host) (c : Comm) (id d md : string) (w : World)
    (x : nat) (s : KernelSocket) :
  _status (engine w) <> Dead -> alive (engine w) = true ->
  _socket (engine w) = Some x -> sockets w !! x = Some s -> _isReady s = false ->
  comm_of w id = Some c -> c_msgFunc c = true -> c_id c = Some id -> onClose_quiet c = true ->
  (c_callback c = Some UnregisterOwnId \/ c_callback c = Some (UnregisterId id)) ->
  let m := comm_message h (engine w) (clock w) "comm_close"
             {| execution_state := ""; comm_id := id; target_name := "";
                target_module := ""; data := d |} md [] in
  let r := Comm_close h (Some id) c d md w in
  completion r = Normal (Comm_cleared c) /\
  trace r = onClose_events c m /\
  pending_of (world r) x = Some (_pendingMessages s ++ [m]) /\
  _status (engine (world r)) = _status (engine w) /\
  alive (engine (world r)) = true /\
  (forall other, other <> id -> comm_of (world r) other = comm_of w other) /\
  comm_of (world r) id =
    match c_callback c with
    | Some UnregisterOwnId => Some (Comm_cleared c)
    | _ => None
    end.
Proof.
  intros Hst Hal Hx Hs Hr Hc Hmf Hid Hq Hcb. cbv zeta.
  unfold alive in Hal.
  destruct (_futures (engine w)) as [fs|] eqn:Hfs; [|discriminate].
  destruct (_commPromises (engine w)) as [ps|] eqn:Hps; [|discriminate].
  destruct (_comms (engine w)) as [cs|] eqn:Hcs; [|discriminate].
  destruct (_targetRegistry (engine w)) as [reg|] eqn:Hreg; [|discriminate].
  unfold comm_of in Hc. rewrite Hcs in Hc. simpl in Hc.
  unfold Comm_close, Comm_isDisposed. rewrite Hmf. cbn [negb].
  rewrite bind_run.
  rewrite (sendCommMessage_queued h _ true w x s fs Hst Hx Hs Hr Hfs).
  cbn [completion world trace p_msgType p_content p_metadata p_buffers f_msg new_future].
  rewrite Hid. cbn [id_or_undefined].
  set (m := comm_message _ _ _ _ _ _ _).
  set (w1 := with_engine _ (with_sockets _ (tick w))).
  assert (Hcs1 : _comms (engine w1) = Some cs) by exact Hcs.
  assert (Hps1 : _commPromises (engine w1) = Some ps) by exact Hps.
  destruct (Comm_dispose_run id c w1 cs ps Hcs1 Hps1)
    as (Hdc & Hdt & Hdsk & Hdst & Hdf & Hdreg & [ps' Hdps] & Hdcs).
  assert (Hcall : (match c_onClose c with
                   | Some onClose => call EvCommOnClose onClose m
                   | None => ret tt
                   end) w1 = MkRun (Normal tt) w1 (onClose_events c m)).
  { unfold onClose_quiet in Hq. unfold onClose_events.
    destruct (c_onClose c) as [cb|]; [|reflexivity].
    apply negb_true_iff in Hq. unfold call, bind, event. simpl. rewrite Hq. reflexivity. }
  rewrite bind_run, Hcall. cbn [completion world trace].
  rewrite Hdc, Hdt, app_nil_r.
  split; [reflexivity|]. split; [reflexivity|].
  split; [unfold pending_of; rewrite Hdsk; unfold w1; simpl;
          rewrite lookup_alter_eq, Hs; reflexivity|].
  split; [rewrite Hdst; reflexivity|].
  split; [unfold alive; rewrite Hdf, Hdps, Hdcs, Hdreg; unfold w1; simpl; rewrite Hreg; reflexivity|].
  unfold comm_of. rewrite Hdcs, Hcs. simpl.
  destruct Hcb as [Hcb|Hcb]; rewrite Hcb; split.
  - intros other Hne. rewrite lookup_alter_ne by auto. reflexivity.
  - rewrite lookup_alter_eq, Hc. reflexivity.
  - intros other Hne. rewrite lookup_delete_ne, lookup_alter_ne by auto. reflexivity.
  - apply lookup_delete_eq.
Qed.

(** A comm made by connectToComm stays in the registry of the engine
    when it is closed: close() sends one comm_close message and
    disposes the comm, but the dispose callback reads the id of the
    comm after dispose has set it to null, so that no entry is deleted.
    connectToComm with that id then returns the disposed comm, whose
    send throws. *)
Theorem connectToComm_close_stays_registered (h : Host) (name name' id d md : string)
    (w : World) (x : nat) (s : KernelSocket) :
  _status (engine w) <> Dead -> alive (engine w) = true ->
  _socket (engine w) = Some x -> sockets w !! x = Some s -> _isReady s = false ->
  comm_of w id = None ->
  let r1 := Kernel_connectToComm h name (Some id) w in
  let r2 := Comm_close h (Some id) (client_comm name id) d md (world r1) in
  let r3 := Kernel_connectToComm h name' (Some id) (world r2) in
  let m := comm_message h (engine w) (clock w) "comm_close"
             {| execution_state := ""; comm_id := id; target_name := "";
                target_module := ""; data := d |} md [] in
  completion r1 = Normal (client_comm name id) /\
  completion r2 = Normal (Comm_cleared (client_comm name id)) /\
  trace r2 = [] /\
  pending_of (world r2) x = Some (_pendingMessages s ++ [m]) /\
  comm_of (world r2) id = Some (Comm_cleared (client_comm name id)) /\
  r3 = MkRun (Normal (Comm_cleared (client_comm name id))) (world r2) [] /\
  forall d' md' bf dd w',
    Comm_send h (Comm_cleared (client_comm name id)) d' md' bf dd w'
      = MkRun (Throw (Error "Comm is closed")) w' [].
Proof.
  intros Hst Hal Hx Hs Hr Hfree. cbv zeta.
  pose proof Hal as Hal'. apply alive_inv in Hal' as (fs & ps & cs & reg & Hfs & Hps & Hcs & Hreg).
  unfold comm_of in Hfree. rewrite Hcs in Hfree. simpl in Hfree.
  rewrite (connectToComm_run h name id w cs Hcs), Hfree. cbn [completion world trace].
  set (w1 := with_engine _ w).
  assert (Hc1 : comm_of w1 id = Some (client_comm name id)).
  { unfold comm_of, w1. simpl. apply lookup_insert_eq. }
  assert (Hal1 : alive (engine w1) = true).
  { apply alive_inv. unfold w1. simpl. eauto 10. }
  destruct (Comm_close_run h (client_comm name id) id d md w1 x s Hst Hal1 Hx Hs Hr Hc1
              eq_refl eq_refl eq_refl ltac:(left; reflexivity))
    as (H1 & H2 & H3 & H4 & H5 & H6 & H7).
  cbv zeta in *. simpl in H7.
  split; [reflexivity|]. split; [exact H1|]. split; [exact H2|].
  split; [exact H3|]. split; [exact H7|]. split; [|reflexivity].
  set (w2 := world _) in *.
  unfold comm_of in H7.
  destruct (_comms (engine w2)) as [cs2|] eqn:Hcs2; [|discriminate]. simpl in H7.
  rewrite (connectToComm_run h name' id w2 cs2 Hcs2), H7. reflexivity.
Qed.

Lemma settle_opening_opens (h : Host) (p : nat) (w : World) (o : CommOpening) (target : Target)
    (ps : gmap string nat) (cs : gmap string Comm) :
  openings w !! p = Some o -> co_state o = OpenPending -> co_waiters o = [] ->
  load_result h (co_load o) = inl target -> target_throws target = false ->
  _commPromises (engine w) = Some ps -> _comms (engine w) = Some cs ->
  let id := comm_id (co_content o) in
  settle_opening h p w =
    MkRun (Normal tt)
      (with_openings (fun m => alter (set_co_state (OpenFulfilled (kernel_comm target (co_content o)))) p m)
         (with_engine (fun k =>
            set_comms (Some (<[id := kernel_comm target (co_content o)]> cs))
              (set_commPromises (Some (delete id ps)) k)) w))
      [EvTarget (target_id target) id (co_msg o)].
Proof.
  intros Ho Hst Hwt Hload Hthrows Hps Hcs.
  unfold settle_opening, opening_callback, call_target, attempt, update_opening,
    update_engine, the_engine, get, modify, event, ret, throw, bind.
  simpl. rewrite Ho, Hst, Hload. simpl. rewrite Hthrows. simpl. rewrite Hps. simpl.
  rewrite Hcs. simpl. rewrite lookup_alter_eq, Ho. simpl. rewrite Hwt. reflexivity.
Qed.

(** A comm that the kernel opened leaves the registry when the client
    closes it: once the target of a comm_open has run, the comm is held
    under its id; close() on it sends one comm_close message, calls the
    onClose the target installed with the message sent, and the dispose
    callback, which was given the id of the open message, deletes the
    entry. *)
Theorem opened_comm_close_unregisters (h : Host) (open_msg : IKernelMessage) (d md : string)
    (w : World) (x : nat) (s : KernelSocket) (target : Target) :
  _status (engine w) <> Dead -> alive (engine w) = true ->
  _socket (engine w) = Some x -> sockets w !! x = Some s -> _isReady s = false ->
  load_result h (loadObject h (target_name (content open_msg)) (target_module (content open_msg))
                   (_targetRegistry (engine w))) = inl target ->
  target_throws target = false ->
  let id := comm_id (content open_msg) in
  let c := kernel_comm target (content open_msg) in
  onClose_quiet c = true ->
  let r1 := (Kernel__handleCommOpen h open_msg >>> settle_opening h (clock w)) w in
  let r2 := Comm_close h (Some id) c d md (world r1) in
  let m := comm_message h (engine w) (S (clock w)) "comm_close"
             {| execution_state := ""; comm_id := id; target_name := "";
                target_module := ""; data := d |} md [] in
  completion r1 = Normal tt /\
  trace r1 = [EvTarget (target_id target) id open_msg] /\
  comm_of (world r1) id = Some c /\
  completion r2 = Normal (Comm_cleared c) /\
  trace r2 = onClose_events c m /\
  pending_of (world r2) x = Some (_pendingMessages s ++ [m]) /\
  comm_of (world r2) id = None.
Proof.
  intros Hst Hal Hx Hs Hr Hload Hthrows id c Hq. cbv zeta.
  pose proof Hal as Hal'. apply alive_inv in Hal' as (fs & ps & cs & reg & Hfs & Hps & Hcs & Hreg).
  rewrite bind_run, (handleCommOpen_run h open_msg w ps Hps). cbn [completion world trace].
  set (o := {| co_content := content open_msg; co_msg := open_msg;
               co_load := loadObject h (target_name (content open_msg))
                            (target_module (content open_msg)) (_targetRegistry (engine w));
               co_state := OpenPending; co_waiters := [] |}).
  set (w0 := with_engine _ (with_openings _ (tick w))).
  assert (Ho : openings w0 !! clock w = Some o) by (unfold w0; simpl; apply lookup_insert_eq).
  assert (Hps0 : _commPromises (engine w0) = Some (<[id := clock w]> ps)) by reflexivity.
  assert (Hcs0 : _comms (engine w0) = Some cs) by exact Hcs.
  rewrite (settle_opening_opens h (clock w) w0 o target _ cs Ho eq_refl eq_refl Hload Hthrows
             Hps0 Hcs0).
  cbn [completion world trace app co_content co_msg o].
  set (w1 := with_openings _ _).
  assert (Hc1 : comm_of w1 id = Some c).
  { unfold comm_of, w1, w0. simpl. apply lookup_insert_eq. }
  assert (Hal1 : alive (engine w1) = true).
  { apply alive_inv. unfold w1, w0. simpl. rewrite Hfs, Hreg. eauto 10. }
  destruct (Comm_close_run h c id d md w1 x s Hst Hal1 Hx Hs Hr Hc1
              eq_refl eq_refl Hq ltac:(right; reflexivity))
    as (H1 & H2 & H3 & H4 & H5 & H6 & H7).
  cbv zeta in *. simpl in H7.
  repeat split; auto.
Qed.

Lemma opened_comm_close_unregisters_witness :
  comm_of
    (world (Comm_close host0 (Some "c2") (kernel_comm local_target (content
              (message "comm_open" "o3" "iopub" None
                 {| execution_state := ""; comm_id := "c2"; target_name := "tgt";
                    target_module := ""; data := "" |}))) "" ""
       (world ((Kernel__handleCommOpen host0
                  (message "comm_open" "o3" "iopub" None
                     {| execution_state := ""; comm_id := "c2"; target_name := "tgt";
                        target_module := ""; data := "" |}) >>>
                settle_opening host0 (clock world_registered)) world_registered))))
    "c2" = None.
Proof.
  assert (Hs : sockets world_registered !! 0 = Some socket1) by (vm_compute; reflexivity).
  destruct (opened_comm_close_unregisters host0
              (message "comm_open" "o3" "iopub" None
                 {| execution_state := ""; comm_id := "c2"; target_name := "tgt";
                    target_module := ""; data := "" |}) "" "" world_registered 0 socket1
              local_target
              ltac:(vm_compute; discriminate) ltac:(vm_compute; reflexivity)
              eq_refl Hs eq_refl ltac:(vm_compute; reflexivity) eq_refl eq_refl)
    as (_ & _ & _ & _ & _ & _ & Hnone).
  exact Hnone.
Defined.

Lemma connectToComm_close_stays_registered_witness :
  comm_of
    (world (Comm_close host0 (Some "c1") (client_comm "target" "c1") "" ""
              (world (Kernel_connectToComm host0 "target" (Some "c1") world_idle)))) "c1"
    = Some (Comm_cleared (client_comm "target" "c1")).
Proof.
  assert (Hs : sockets world_idle !! 0 = Some socket1) by (vm_compute; reflexivity).
  destruct (connectToComm_close_stays_registered host0 "target" "target" "c1" "" ""
              world_idle 0 socket1
              ltac:(vm_compute; discriminate) ltac:(vm_compute; reflexivity)
              eq_refl Hs eq_refl ltac:(vm_compute; reflexivity))
    as (_ & _ & _ & _ & Hstays & _).
  exact Hstays.
Defined.

(** A disposed comm: close() returns without effect, send() throws
    the error "Comm is closed", and open() calls the null _msgFunc (its
    guard tests for undefined), which is a TypeError; a second dispose
    does not run the dispose callback again. *)
Theorem Comm_disposed_operations (h : Host) (c : Comm) (place : option string) (w : World) :
  alive (engine w) = true ->
  let c' := Comm_cleared c in
  completion (Comm_dispose place c w) = Normal c' /\
  Comm_isDisposed c' = true /\
  (forall d md w', Comm_close h place c' d md w' = MkRun (Normal c') w' []) /\
  (forall d md bf dd w',
     Comm_send h c' d md bf dd w' = MkRun (Throw (Error "Comm is closed")) w' []) /\
  (forall d md w',
     Comm_open h c' d md w'
       = MkRun (Throw (TypeError "this._msgFunc is not a function")) w' []) /\
  (forall w', Comm_dispose None c' w' = MkRun (Normal c') w' []).
Proof.
  intros Hal. cbv zeta.
  apply alive_inv in Hal as (fs & ps & cs & reg & Hfs & Hps & Hcs & Hreg).
  split; [|repeat split].
  unfold Comm_dispose, write_back.
  destruct place as [key|].
  - destruct (Comm_dispose_run key c w cs ps Hcs Hps) as (Hc & _). exact Hc.
  - rewrite bind_run. cbn [ret completion world trace].
    destruct (c_callback c) as [[|i]|].
    + rewrite bind_run, (unregisterComm_run None w cs ps Hcs Hps). reflexivity.
    + rewrite bind_run, (unregisterComm_run (Some i) w cs ps Hcs Hps). reflexivity.
    + reflexivity.
Qed.

Lemma Comm_disposed_operations_witness :
  completion (Comm_open host0 (Comm_cleared (client_comm "target" "c1")) "" "" world_idle)
    = Throw (TypeError "this._msgFunc is not a function").
Proof.
  destruct (Comm_disposed_operations host0 (client_comm "target" "c1") None world_idle
              ltac:(vm_compute; reflexivity)) as (_ & _ & _ & _ & Hopen & _).
  rewrite Hopen. reflexivity.
Defined.

(** ** The engine enters Dead *)









(** ** Comm messages from the kernel *)

Lemma handleCommClose_run (msg : IKernelMessage) (w : World)
    (ps : gmap string nat) (cs : gmap string Comm) :
  _commPromises (engine w) = Some ps -> _comms (engine w) = Some cs ->
  ps !! comm_id (content msg) = None ->
  Kernel__handleCommClose msg w =
    match cs !! comm_id (content msg) with
    | None =>
        MkRun (Normal tt) w
          [EvConsole "error" ("Comm not found for comm id " +:+ comm_id (content msg))]
    | Some comm =>
        MkRun (Normal tt)
          (with_jobs (fun js => js ++ [JobReaction (ThenCommClose msg) comm]) w) []
    end.
Proof.
  intros Hps Hcs Hp. unfold Kernel__handleCommClose.
  unfold bind, the_engine, modify, event. simpl. rewrite Hps, Hp, Hcs.
  destruct (cs !! comm_id (content msg)); reflexivity.
Qed.

Lemma handleCommMsg_run (msg : IKernelMessage) (w : World)
    (ps : gmap string nat) (cs : gmap string Comm) :
  _commPromises (engine w) = Some ps -> _comms (engine w) = Some cs ->
  ps !! comm_id (content msg) = None ->
  Kernel__handleCommMsg msg w =
    match cs !! comm_id (content msg) with
    | None =>
        MkRun (Normal tt) w
          [EvConsole "error" ("Comm not found for comm id " +:+ comm_id (content msg))]
    | Some comm =>
        match c_onMsg comm with
        | Some onMsg =>
            MkRun (if cb_throws onMsg then Throw (Raised (cb_name onMsg)) else Normal tt) w
              [EvCommOnMsg (cb_name onMsg) msg]
        | None => MkRun (Normal tt) w []
        end
    end.
Proof.
  intros Hps Hcs Hp. unfold Kernel__handleCommMsg.
  unfold bind, the_engine, modify, event, call. simpl. rewrite Hps, Hp, Hcs.
  destruct (cs !! comm_id (content msg)) as [comm|]; [|reflexivity].
  destruct (c_onMsg comm) as [cb|]; [|reflexivity].
  unfold bind, event, throw, ret. simpl. destruct (cb_throws cb); reflexivity.
Qed.

(** A comm_close from the kernel for a comm the engine holds: the
    handler only queues the callback; when that runs, the comm is taken
    out of the registry first, then its onClose is called with the
    close message, and an onClose that throws is caught and logged.
    A comm_msg for the same id that comes afterwards finds no comm: it
    is logged and dropped.  A comm_close for an id the engine does not
    know is logged and queues nothing. *)
Theorem handleCommClose_unregisters (close_msg comm_msg : IKernelMessage) (w : World) (c : Comm) :
  alive (engine w) = true ->
  let id := comm_id (content close_msg) in
  comm_id (content comm_msg) = id ->
  no_opening w id ->
  let r1 := Kernel__handleCommClose close_msg w in
  (comm_of w id = Some c -> c_id c = Some id ->
     let r2 := run_job (JobReaction (ThenCommClose close_msg) c) (world r1) in
     let r3 := Kernel__handleCommMsg comm_msg (world r2) in
     r1 = MkRun (Normal tt)
            (with_jobs (fun js => js ++ [JobReaction (ThenCommClose close_msg) c]) w) [] /\
     completion r2 = Normal tt /\
     trace r2 = server_close_events c close_msg /\
     comm_of (world r2) id = None /\
     r3 = MkRun (Normal tt) (world r2) [EvConsole "error" ("Comm not found for comm id " +:+ id)]) /\
  (comm_of w id = None ->
     r1 = MkRun (Normal tt) w [EvConsole "error" ("Comm not found for comm id " +:+ id)]).
Proof.
  intros Hal id Hid Hno. cbv zeta.
  apply alive_inv in Hal as (fs & ps & cs & reg & Hfs & Hps & Hcs & Hreg).
  unfold no_opening in Hno. rewrite Hps in Hno. simpl in Hno.
  unfold comm_of. rewrite Hcs. simpl.
  rewrite (handleCommClose_run close_msg w ps cs Hps Hcs Hno). fold id.
  split.
  - intros Hc Hcid. rewrite Hc. cbn [completion world trace].
    split; [reflexivity|].
    set (w1 := with_jobs _ w).
    assert (Hjob : exists cs2 ps2,
              completion (run_job (JobReaction (ThenCommClose close_msg) c) w1) = Normal tt /\
              trace (run_job (JobReaction (ThenCommClose close_msg) c) w1)
                = server_close_events c close_msg /\
              _comms (engine (world (run_job (JobReaction (ThenCommClose close_msg) c) w1)))
                = Some cs2 /\
              _commPromises (engine (world (run_job (JobReaction (ThenCommClose close_msg) c) w1)))
                = Some ps2 /\
              cs2 !! id = None /\ ps2 !! id = None).
    { unfold run_job, run_reaction, commClose_callback.
      rewrite bind_run, attempt_run, bind_run.
      rewrite (unregisterComm_run (c_id c) w1 cs ps Hcs Hps). cbn [completion world trace].
      rewrite Hcid. cbn [delete_key].
      set (w2 := with_engine _ w1).
      assert (Hcs2 : _comms (engine w2) = Some (delete id cs)) by reflexivity.
      assert (Hps2 : _commPromises (engine w2) = Some (delete id ps)) by reflexivity.
      unfold try_catch, server_close_events.
      destruct (c_onClose c) as [cb|].
      - unfold call. rewrite !bind_run. cbn [event completion world trace].
        destruct (cb_throws cb); cbn [throw ret event bind completion world trace app].
        + exists (delete id cs), (delete id ps).
          rewrite lookup_delete_eq, lookup_delete_eq. auto 10.
        + unfold Comm_dispose, write_back.
          destruct (c_callback c) as [[|i]|].
          * rewrite !bind_run. cbn [ret completion world trace].
            rewrite (unregisterComm_run None w2 _ _ Hcs2 Hps2). cbn [completion world trace app].
            eexists _, _. simpl. rewrite !lookup_delete_eq. auto 10.
          * rewrite !bind_run. cbn [ret completion world trace].
            rewrite (unregisterComm_run (Some i) w2 _ _ Hcs2 Hps2). cbn [completion world trace app].
            eexists _, _. simpl.
            split; [reflexivity|]. split; [reflexivity|]. split; [reflexivity|].
            split; [reflexivity|].
            split; (destruct (decide (i = id)) as [->|Hne];
                    [rewrite lookup_delete_eq|rewrite lookup_delete_ne, lookup_delete_eq by auto]);
              reflexivity.
          * rewrite !bind_run. cbn [ret completion world trace app].
            eexists _, _. simpl. rewrite !lookup_delete_eq. auto 10.
      - unfold Comm_dispose, write_back.
        destruct (c_callback c) as [[|i]|].
        + rewrite !bind_run. cbn [ret completion world trace].
          rewrite (unregisterComm_run None w2 _ _ Hcs2 Hps2). cbn [completion world trace app].
          eexists _, _. simpl. rewrite !lookup_delete_eq. auto 10.
        + rewrite !bind_run. cbn [ret completion world trace].
          rewrite (unregisterComm_run (Some i) w2 _ _ Hcs2 Hps2). cbn [completion world trace app].
          eexists _, _. simpl.
          split; [reflexivity|]. split; [reflexivity|]. split; [reflexivity|].
          split; [reflexivity|].
          split; (destruct (decide (i = id)) as [->|Hne];
                  [rewrite lookup_delete_eq|rewrite lookup_delete_ne, lookup_delete_eq by auto]);
            reflexivity.
        + rewrite !bind_run. cbn [ret completion world trace app].
          eexists _, _. simpl. rewrite !lookup_delete_eq. auto 10. }
    destruct Hjob as (cs2 & ps2 & Hc2 & Ht2 & Hcs2 & Hps2 & Hl1 & Hl2).
    cbn [run_job run_reaction] in *.
    split; [exact Hc2|]. split; [exact Ht2|]. rewrite Hcs2. simpl.
    split; [exact Hl1|].
    rewrite <- Hid in Hl1, Hl2.
    rewrite (handleCommMsg_run comm_msg _ ps2 cs2 Hps2 Hcs2 Hl2), Hl1, Hid. reflexivity.
  - intros Hc. rewrite Hc. reflexivity.
Qed.

Lemma handleCommClose_unregisters_witness :
  comm_of (world (run_job (JobReaction (ThenCommClose close_c1) (client_comm "target" "c1"))
                    (world (Kernel__handleCommClose close_c1 world_comm)))) "c1" = None.
Proof.
  destruct (handleCommClose_unregisters close_c1 msg_c1 world_comm (client_comm "target" "c1")
              ltac:(vm_compute; reflexivity) eq_refl ltac:(vm_compute; reflexivity))
    as (Hknown & _).
  destruct (Hknown ltac:(vm_compute; reflexivity) eq_refl) as (_ & _ & _ & Hnone & _).
  exact Hnone.
Defined.

(** ** Dispatch of comm and status messages *)

Lemma onKernelMessage_unclaimed (h : Host) (msg : IKernelMessage) (w : World) :
  validateKernelMessage h msg = None -> unclaimed w msg ->
  Kernel__onKernelMessage h msg w =
    (when (String.eqb (channel msg) "iopub")
       (iopub_dispatch h msg >>> emit IOPubReceived (ArgMsg msg)) >>>
     emit UnhandledMessage (ArgMsg msg)) w.
Proof.
  intros Hv Hun. rewrite (onKernelMessage_unfold h msg w Hv).
  match goal with
  | |- bind ?hc _ w = _ => assert (Hh : hc w = MkRun (Normal false) w [])
  end.
  { unfold unclaimed in Hun. destruct (parent_header msg) as [ph|]; [|reflexivity].
    unfold bind, the_engine. simpl. rewrite Hun. reflexivity. }
  unfold bind at 1. rewrite Hh. cbn [negb when].
  match goal with |- match ?r with _ => _ end = _ => destruct r end. reflexivity.
Qed.

(** A comm_msg on iopub for a comm the engine holds, with no open
    promise stored for it, goes to the onMsg of the comm at once and
    outside any try block: an onMsg that throws makes _onKernelMessage
    throw, and the message is then broadcast on neither iopubReceived
    nor unhandledMessage.  With an onMsg that returns, or none, both
    broadcasts follow the delivery. *)
Theorem comm_msg_direct_delivery (h : Host) (msg : IKernelMessage) (w : World) (c : Comm) :
  validateKernelMessage h msg = None -> unclaimed w msg ->
  channel msg = "iopub" -> msg_type (header msg) = "comm_msg" ->
  alive (engine w) = true ->
  no_opening w (comm_id (content msg)) -> comm_of w (comm_id (content msg)) = Some c ->
  let r := Kernel__onKernelMessage h msg w in
  let broadcasts :=
    [EvEmit IOPubReceived (ArgMsg msg) (listeners w IOPubReceived);
     EvEmit UnhandledMessage (ArgMsg msg) (listeners w UnhandledMessage)] in
  match c_onMsg c with
  | Some cb =>
      if cb_throws cb
      then r = MkRun (Throw (Raised (cb_name cb))) w [EvCommOnMsg (cb_name cb) msg]
      else r = MkRun (Normal tt) w (EvCommOnMsg (cb_name cb) msg :: broadcasts)
  | None => r = MkRun (Normal tt) w broadcasts
  end.
Proof.
  intros Hv Hun Hch Hty Hal Hno Hc. cbv zeta.
  apply alive_inv in Hal as (fs & ps & cs & reg & Hfs & Hps & Hcs & Hreg).
  unfold no_opening in Hno. rewrite Hps in Hno. simpl in Hno.
  unfold comm_of in Hc. rewrite Hcs in Hc. simpl in Hc.
  rewrite (onKernelMessage_unclaimed h msg w Hv Hun), Hch. cbn [String.eqb Ascii.eqb Bool.eqb when].
  unfold iopub_dispatch. rewrite Hty. cbn [String.eqb Ascii.eqb Bool.eqb].
  rewrite !bind_run, (handleCommMsg_run msg w ps cs Hps Hcs Hno), Hc.
  unfold listeners.
  destruct (c_onMsg c) as [cb|]; [destruct (cb_throws cb)|]; reflexivity.
Qed.

Lemma comm_msg_direct_delivery_witness :
  Kernel__onKernelMessage host0 msg_c3 world_throwing
    = MkRun (Throw (Raised "onMsg that throws")) world_throwing
        [EvCommOnMsg "onMsg that throws" msg_c3].
Proof.
  exact (comm_msg_direct_delivery host0 msg_c3 world_throwing
           (kernel_comm throwing_target (content open_c3))
           eq_refl ltac:(vm_compute; reflexivity) eq_refl eq_refl ltac:(vm_compute; reflexivity)
           ltac:(vm_compute; reflexivity) ltac:(vm_compute; reflexivity)).
Defined.

Lemma emit_run (sig : Signal) (arg : SignalArg) (w : World) :
  emit sig arg w = MkRun (Normal tt) w [EvEmit sig arg (receivers sig (slots (engine w)))].
Proof. reflexivity. Qed.

(** A status that differs from the current one, on an engine whose
    _socket is null: the status is set, and logKernelStatus returns
    for Idle, Busy and Unknown but reads the id of the kernel for the
    others, which throws before the announcement. *)
Lemma updateStatus_socketless (state : string) (st : KernelStatus) (w : World) :
  status_of_state state = Some st -> st <> _status (engine w) ->
  _socket (engine w) = None ->
  Kernel__updateStatus state w =
    match st with
    | Idle | Busy | Unknown =>
        MkRun (Normal tt) (with_engine (set_status st) w)
          [EvEmit StatusChanged (ArgStatus st) (receivers StatusChanged (slots (engine w)))]
    | _ => MkRun (Throw (null_member "id")) (with_engine (set_status st) w) []
    end.
Proof.
  intros Hst Hne Hx. rewrite updateStatus_unfold, Hst.
  destruct (decide (st = _status (engine w))) as [|_]; [contradiction|].
  unfold logKernelStatus, emit, when, bind, the_engine, get, event, throw, ret.
  simpl. rewrite Hx. destruct st; reflexivity.
Qed.

(** A status message on iopub that no future claims and that names a
    status other than the current one; the status is the one it names
    afterwards.  On an engine that holds its socket, statusChanged
    announces it before the message is broadcast on iopubReceived and
    unhandledMessage; when it names Dead, the engine disposes itself in
    between, which clears the connections of its signals: the two
    broadcasts of that last message reach no listener.  On an engine
    whose _socket is null, as the constructor leaves it, the same holds
    for Idle and Busy, which are not logged; for the other statuses
    the log line reads the id of the kernel and the call throws a
    TypeError: nothing is announced or broadcast and the engine is not
    disposed. *)
Theorem status_message_dispatch (h : Host) (msg : IKernelMessage) (w : World)
    (st : KernelStatus) :
  validateKernelMessage h msg = None -> unclaimed w msg ->
  channel msg = "iopub" -> msg_type (header msg) = "status" ->
  alive (engine w) = true ->
  status_of_state (execution_state (content msg)) = Some st ->
  st <> _status (engine w) ->
  let r := Kernel__onKernelMessage h msg w in
  let announce := EvEmit StatusChanged (ArgStatus st) (listeners w StatusChanged) in
  let broadcasts :=
    [EvEmit IOPubReceived (ArgMsg msg) (listeners w IOPubReceived);
     EvEmit UnhandledMessage (ArgMsg msg) (listeners w UnhandledMessage)] in
  _status (engine (world r)) = st /\
  (forall (x : nat) (s : KernelSocket),
     _socket (engine w) = Some x -> sockets w !! x = Some s ->
     completion r = Normal tt /\
     (st <> Dead -> trace r = log_line st (_id s) ++ announce :: broadcasts) /\
     (st = Dead ->
      trace r = log_line st (_id s) ++ [announce] ++ close_events s ++
                [EvEmit IOPubReceived (ArgMsg msg) []; EvEmit UnhandledMessage (ArgMsg msg) []])) /\
  (_socket (engine w) = None ->
   Kernel_isDisposed (engine (world r)) = false /\
   match st with
   | Idle | Busy | Unknown => completion r = Normal tt /\ trace r = announce :: broadcasts
   | _ => completion r = Throw (null_member "id") /\ trace r = []
   end).
Proof.
  intros Hv Hun Hch Hty Hal Hst Hne. cbv zeta.
  rewrite (onKernelMessage_unclaimed h msg w Hv Hun), Hch.
  cbn [String.eqb Ascii.eqb Bool.eqb when].
  unfold iopub_dispatch. rewrite Hty. cbn [String.eqb Ascii.eqb Bool.eqb].
  unfold listeners.
  assert (Hstatus : forall x s, _socket (engine w) = Some x -> sockets w !! x = Some s ->
            let r := ((Kernel__updateStatus (execution_state (content msg)) >>>
                       emit IOPubReceived (ArgMsg msg)) >>>
                      emit UnhandledMessage (ArgMsg msg)) w in
            _status (engine (world r)) = st /\
            completion r = Normal tt /\
            (st <> Dead ->
             trace r = log_line st (_id s) ++
               EvEmit StatusChanged (ArgStatus st) (receivers StatusChanged (slots (engine w)))
               :: [EvEmit IOPubReceived (ArgMsg msg) (receivers IOPubReceived (slots (engine w)));
                   EvEmit UnhandledMessage (ArgMsg msg)
                     (receivers UnhandledMessage (slots (engine w)))]) /\
            (st = Dead ->
             trace r = log_line st (_id s) ++
               [EvEmit StatusChanged (ArgStatus st) (receivers StatusChanged (slots (engine w)))] ++
               close_events s ++
               [EvEmit IOPubReceived (ArgMsg msg) []; EvEmit UnhandledMessage (ArgMsg msg) []])).
  { intros x s Hx Hs. cbv zeta.
    destruct (decide (st = Dead)) as [Hd|Hnd].
    - subst st.
      assert (Hcur : _status (engine w) <> Dead) by congruence.
      destruct (updateStatus_dead _ w x s Hst Hcur Hx Hs) as (Hc & Hw & Ht).
      cbv zeta in Hc, Hw, Ht.
      set (w1 := with_engine (set_status Dead) w) in *.
      assert (Hal1 : alive (engine w1) = true) by exact Hal.
      assert (Ha1 : attached w1 = true) by (apply attached_inv; exists x, s; auto).
      destruct (Kernel_dispose_live w1 Hal1 Ha1) as (Hdc & _ & _ & _ & _ & Hsl & Hdst).
      destruct (Kernel_dispose_closes w1 x s Hal1 Hx Hs) as (Hdt & _).
      rewrite Hdc in Hc. rewrite Hdt in Ht.
      rewrite !bind_run, Hc. cbn [completion world trace].
      rewrite !emit_run. cbn [completion world trace].
      rewrite Hw, Hsl, Ht. cbn [receivers filter]. unfold close_events.
      split; [exact Hdst|]. split; [reflexivity|]. split; [congruence|]. intros _.
      simpl. rewrite <- !app_assoc. reflexivity.
    - rewrite !bind_run, (updateStatus_change _ st w x s Hst Hne Hnd Hx Hs).
      cbn [completion world trace]. rewrite !emit_run. cbn [completion world trace].
      split; [reflexivity|]. split; [reflexivity|]. split; [|contradiction]. intros _.
      simpl. rewrite <- !app_assoc. reflexivity. }
  destruct (_socket (engine w)) as [x|] eqn:Hx.
  - destruct (sockets w !! x) as [s|] eqn:Hs.
    + destruct (Hstatus x s eq_refl Hs) as (H1 & H2 & H3 & H4).
      split; [exact H1|]. split; [|discriminate].
      intros x' s' Hx' Hs'. injection Hx' as <-. rewrite Hs in Hs'. injection Hs' as <-. auto.
    + split; [|split; [intros x' s' Hx' Hs'; congruence | discriminate]].
      rewrite !bind_run, updateStatus_unfold, Hst.
      destruct (decide (st = _status (engine w))) as [|_]; [contradiction|].
      unfold logKernelStatus, Kernel_dispose, KernelSocket_dispose, the_socket, emit, when,
        bind, the_engine, get, event, throw, ret.
      destruct st; simpl; rewrite ?Hx; simpl; rewrite ?Hs; reflexivity.
  - rewrite !bind_run, (updateStatus_socketless _ st w Hst Hne Hx).
    split; [destruct st; reflexivity|]. split; [discriminate|]. intros _.
    unfold alive in Hal. unfold Kernel_isDisposed.
    destruct st; simpl; destruct (_futures (engine w)); try discriminate; auto.
Qed.

Lemma status_message_dispatch_witness :
  trace (Kernel__onKernelMessage host0 (status_message "s9" "dead") world_idle)
    = [EvConsole "log" "Kernel: dead (k1)";
       EvEmit StatusChanged (ArgStatus Dead) ["ui"];
       EvWsClose "ws://localhost:8888/api/kernels/k1/channels?session_id=undefined";
       EvEmit IOPubReceived (ArgMsg (status_message "s9" "dead")) [];
       EvEmit UnhandledMessage (ArgMsg (status_message "s9" "dead")) []].
Proof.
  assert (Hs : sockets world_idle !! 0 = Some socket1) by (vm_compute; reflexivity).
  destruct (status_message_dispatch host0 (status_message "s9" "dead") world_idle Dead
              eq_refl ltac:(vm_compute; reflexivity) eq_refl eq_refl
              ltac:(vm_compute; reflexivity) eq_refl ltac:(vm_compute; discriminate))
    as (_ & Hheld & _).
  destruct (Hheld 0 socket1 eq_refl Hs) as (_ & _ & Hdead).
  rewrite (Hdead eq_refl). vm_compute. reflexivity.
Defined.

(** ** The engine after disposal *)

Lemma forEach_future_disposed (w : World) :
  _futures (engine w) = None -> forEach_future w = MkRun (Throw (null_member "forEach")) w [].
Proof. intros Hf. unfold forEach_future, bind, the_engine. simpl. rewrite Hf. reflexivity. Qed.

(** The operations of a disposed engine.  interrupt() returns a promise
    rejected with "Kernel is dead" and sends no request; restart() and
    shutdown() do not get that far: they first clear the state, which
    reads the map of futures that dispose has set to null, and throw a
    TypeError synchronously, as do registerCommTarget and
    connectToComm.  In no case is a request sent or the engine
    changed. *)
Theorem disposed_engine_operations (h : Host) (w : World) :
  alive (engine w) = true -> attached w = true ->
  let w' := world (Kernel_dispose w) in
  Kernel_restart h w' = MkRun (Throw (null_member "forEach")) w' [] /\
  Kernel_shutdown h w' = MkRun (Throw (null_member "forEach")) w' [] /\
  completion (Kernel_interrupt h w') = Normal (clock w') /\
  trace (Kernel_interrupt h w') = [] /\
  promises (world (Kernel_interrupt h w')) !! clock w' = Some (Rejected (Error "Kernel is dead")) /\
  engine (world (Kernel_interrupt h w')) = engine w' /\
  (forall name cb,
     Kernel_registerCommTarget name cb w' = MkRun (Throw (null_member name)) w' []) /\
  (forall name id,
     Kernel_connectToComm h name (Some id) w' = MkRun (Throw (null_member "get")) w' []).
Proof.
  intros Hal Ha. cbv zeta.
  destruct (Kernel_dispose_live w Hal Ha) as (_ & Hf & Hps & Hcs & Hreg & _ & Hst).
  set (w' := world (Kernel_dispose w)) in *.
  split; [|split].
  - unfold Kernel_restart, Kernel__clearState.
    rewrite bind_run, bind_run, (forEach_future_disposed w' Hf). reflexivity.
  - unfold Kernel_shutdown, Kernel__clearState.
    rewrite bind_run, bind_run, (forEach_future_disposed w' Hf). reflexivity.
  - unfold Kernel_interrupt, rest_call.
    rewrite bind_run. cbn [the_engine completion world trace].
    destruct (decide (_status (engine w') = Dead)); [|contradiction].
    rewrite new_promise_run. cbn [completion world trace].
    split; [reflexivity|]. split; [reflexivity|]. split; [simpl; apply lookup_insert_eq|].
    split; [reflexivity|]. split.
    + intros name cb. unfold Kernel_registerCommTarget, bind, the_engine. simpl.
      rewrite Hreg. reflexivity.
    + intros name id. unfold Kernel_connectToComm, bind, the_engine, ret. simpl.
      rewrite Hcs. reflexivity.
Qed.

Lemma disposed_engine_operations_witness :
  completion (Kernel_restart host0 world_dead) = Throw (null_member "forEach").
Proof.
  destruct (disposed_engine_operations host0 world_idle
              ltac:(vm_compute; reflexivity) ltac:(vm_compute; reflexivity)) as (Hr & _).
  change world_dead with (world (Kernel_dispose world_idle)).
  rewrite Hr. reflexivity.
Defined.

(** ** A comm_open that fails *)

Lemma chain_rejected (p : nat) (r : Reaction) (w : World) (o : CommOpening) (e : JsError) :
  openings w !! p = Some o -> co_state o = OpenRejected e ->
  chain p r w = MkRun (Normal tt) w [].
Proof.
  intros Ho Hst. unfold chain, bind, get. simpl. rewrite Ho, Hst. reflexivity.
Qed.

(** A comm_open for a target that is not registered, and names no
    module: the open promise is rejected and stays in _commPromises.
    Nothing is logged and nothing is sent to the kernel, no comm is
    registered, and every later comm_msg or comm_close for that comm id
    is chained on the rejected promise: it is dropped without a
    trace. *)
Theorem comm_open_unknown_target (h : Host) (open_msg later : IKernelMessage) (w : World) :
  alive (engine w) = true ->
  target_module (content open_msg) = "" ->
  (_targetRegistry (engine w) ≫= (fun reg => reg !! target_name (content open_msg))) = None ->
  comm_id (content later) = comm_id (content open_msg) ->
  let r := (Kernel__handleCommOpen h open_msg >>> settle_opening h (clock w)) w in
  completion r = Normal tt /\ trace r = [] /\
  sockets (world r) = sockets w /\
  _comms (engine (world r)) = _comms (engine w) /\
  (co_state <$> openings (world r) !! clock w)
    = Some (OpenRejected (Error ("Object '" +:+ target_name (content open_msg)
                                 +:+ "' not found in registry"))) /\
  Kernel__handleCommMsg later (world r) = MkRun (Normal tt) (world r) [] /\
  Kernel__handleCommClose later (world r) = MkRun (Normal tt) (world r) [].
Proof.
  intros Hal Hmod Hreg Hid. cbv zeta.
  apply alive_inv in Hal as (fs & ps & cs & reg & Hfs & Hps & Hcs & Hreg').
  rewrite bind_run, (handleCommOpen_run h open_msg w ps Hps). cbn [completion world trace].
  set (e := Error ("Object '" +:+ target_name (content open_msg) +:+ "' not found in registry")).
  assert (Hload : loadObject h (target_name (content open_msg)) (target_module (content open_msg))
                    (_targetRegistry (engine w)) = LoadFailed e).
  { unfold loadObject. rewrite Hmod. cbn [String.eqb negb]. rewrite Hreg. reflexivity. }
  rewrite Hload.
  set (o := {| co_content := content open_msg; co_msg := open_msg; co_load := LoadFailed e;
               co_state := OpenPending; co_waiters := [] |}).
  set (w0 := with_engine _ (with_openings _ (tick w))).
  assert (Ho : openings w0 !! clock w = Some o) by (unfold w0; simpl; apply lookup_insert_eq).
  assert (Hrun : settle_opening h (clock w) w0 =
            MkRun (Normal tt)
              (with_openings (fun m => alter (set_co_state (OpenRejected e)) (clock w) m) w0) []).
  { unfold settle_opening. rewrite bind_run. cbn [get completion world trace].
    rewrite Ho. reflexivity. }
  rewrite Hrun. cbn [completion world trace app].
  set (w1 := with_openings _ w0).
  assert (Ho1 : openings w1 !! clock w = Some (set_co_state (OpenRejected e) o)).
  { unfold w1. cbn [with_openings openings]. rewrite lookup_alter_eq, Ho. reflexivity. }
  split; [reflexivity|]. split; [reflexivity|]. split; [reflexivity|].
  split; [reflexivity|]. split; [rewrite Ho1; reflexivity|].
  assert (Hps1 : _commPromises (engine w1) = Some (<[comm_id (content open_msg) := clock w]> ps))
    by reflexivity.
  split.
  - unfold Kernel__handleCommMsg. rewrite bind_run. cbn [the_engine completion world trace].
    rewrite Hps1, Hid, lookup_insert_eq.
    rewrite (chain_rejected _ _ w1 _ e Ho1 eq_refl). reflexivity.
  - unfold Kernel__handleCommClose. rewrite bind_run. cbn [the_engine completion world trace].
    rewrite Hps1, Hid, lookup_insert_eq.
    rewrite (chain_rejected _ _ w1 _ e Ho1 eq_refl). reflexivity.
Qed.

Lemma comm_open_unknown_target_witness :
  Kernel__handleCommMsg msg_c3
    (world ((Kernel__handleCommOpen host0 open_c3 >>> settle_opening host0 (clock world_idle))
              world_idle))
  = MkRun (Normal tt)
      (world ((Kernel__handleCommOpen host0 open_c3 >>> settle_opening host0 (clock world_idle))
                world_idle)) [].
Proof.
  destruct (comm_open_unknown_target host0 open_c3 msg_c3 world_idle
              ltac:(vm_compute; reflexivity) eq_refl ltac:(vm_compute; reflexivity) eq_refl)
    as (_ & _ & _ & _ & _ & Hmsg & _).
  exact Hmsg.
Defined.

Lemma opening_callback_throws (h : Host) (o : CommOpening) (target : Target) (w : World)
    (x : nat) (s : KernelSocket) :
  _status (engine w) <> Dead -> alive (engine w) = true ->
  _socket (engine w) = Some x -> sockets w !! x = Some s -> _isReady s = false ->
  target_throws target = true ->
  let id := comm_id (co_content o) in
  let c := kernel_comm target (co_content o) in
  onClose_quiet c = true ->
  let m := comm_message h (engine w) (clock w) "comm_close"
             {| execution_state := ""; comm_id := id; target_name := "";
                target_module := ""; data := "" |} "" [] in
  let r := opening_callback h o target w in
  completion r = Throw (Raised (target_id target)) /\
  trace r = EvTarget (target_id target) id (co_msg o) :: onClose_events c m ++
            [EvConsole "error" "Exception opening new comm"] /\
  pending_of (world r) x = Some (_pendingMessages s ++ [m]) /\
  openings (world r) = openings w /\
  (exists cs ps, _comms (engine (world r)) = Some cs /\ cs !! id = None /\
                 _commPromises (engine (world r)) = Some ps /\ ps !! id = None).
Proof.
  intros Hst Hal Hx Hs Hr Hthrows id c Hq. cbv zeta.
  apply alive_inv in Hal as (fs & ps & cs & reg & Hfs & Hps & Hcs & Hreg).
  unfold opening_callback.
  match goal with
  | |- context [call_target target ?c0 ?mm] =>
      assert (Hct : call_target target c0 mm w =
                MkRun (Normal (c, Some (Raised (target_id target)))) w
                  [EvTarget (target_id target) id mm])
  end.
  { unfold call_target, bind, event, ret. simpl. rewrite Hthrows. reflexivity. }
  rewrite bind_run, Hct. cbn [completion world trace fst snd].
  rewrite bind_run.
  assert (Hclose :
    let m := comm_message h (engine w) (clock w) "comm_close"
               {| execution_state := ""; comm_id := id; target_name := "";
                  target_module := ""; data := "" |} "" [] in
    completion (Comm_close h None c "" "" w) = Normal (Comm_cleared c) /\
    trace (Comm_close h None c "" "" w) = onClose_events c m /\
    pending_of (world (Comm_close h None c "" "" w)) x = Some (_pendingMessages s ++ [m]) /\
    openings (world (Comm_close h None c "" "" w)) = openings w /\
    _comms (engine (world (Comm_close h None c "" "" w))) = Some (delete id cs) /\
    _commPromises (engine (world (Comm_close h None c "" "" w))) = Some (delete id ps)).
  { cbv zeta. unfold Comm_close, Comm_isDisposed. cbn [c kernel_comm c_msgFunc negb c_id id_or_undefined].
    rewrite bind_run.
    rewrite (sendCommMessage_queued h _ true w x s fs Hst Hx Hs Hr Hfs).
    cbn [completion world trace p_msgType p_content p_metadata p_buffers f_msg new_future].
    fold id.
    set (m := comm_message _ _ _ _ _ _ _).
    set (w1 := with_engine _ (with_sockets _ (tick w))).
    assert (Hcs1 : _comms (engine w1) = Some cs) by exact Hcs.
    assert (Hps1 : _commPromises (engine w1) = Some ps) by exact Hps.
    match goal with
    | |- context [bind ?mm _ w1] =>
        assert (Hcall : mm w1 = MkRun (Normal tt) w1 (onClose_events c m))
    end.
    { unfold onClose_quiet in Hq. unfold onClose_events.
      change (c_onClose c) with (installs_onClose target) in *.
      cbn [c_onClose].
      destruct (installs_onClose target) as [cb|]; [|reflexivity].
      apply negb_true_iff in Hq. unfold call, bind, event. simpl. rewrite Hq. reflexivity. }
    rewrite bind_run, Hcall. cbn [completion world trace].
    unfold Comm_dispose, write_back. cbn [kernel_comm c_callback].
    rewrite !bind_run. cbn [ret completion world trace].
    change (c_callback c) with (Some (UnregisterId id)). cbv beta iota.
    rewrite (unregisterComm_run (Some id) w1 cs ps Hcs1 Hps1).
    cbn [completion world trace]. rewrite !app_nil_r.
    split; [reflexivity|]. split; [reflexivity|].
    split; [unfold pending_of, w1; simpl; rewrite lookup_alter_eq, Hs; reflexivity|].
    split; [reflexivity|]. split; reflexivity. }
  cbv zeta in Hclose. destruct Hclose as (Hc1 & Ht1 & Hp1 & Ho1 & Hcs1 & Hps1).
  repeat match goal with
  | |- context [Comm_close h None ?cc "" "" ?ww] =>
      progress (change (Comm_close h None cc "" "" ww) with (Comm_close h None c "" "" w))
  end.
  rewrite Hc1, Ht1. cbn [completion world trace].
  rewrite !bind_run. cbn [event throw completion world trace].
  split; [reflexivity|]. split; [cbn [app]; rewrite ?app_nil_r; reflexivity|].
  split; [exact Hp1|]. split; [exact Ho1|].
  exists (delete id cs), (delete id ps). rewrite !lookup_delete_eq. auto.
Qed.

(** A comm_open whose target callback throws: the comm is closed,
    which sends a comm_close to the kernel and calls the onClose the
    target has set, the error "Exception opening new comm" is logged
    and the open promise is rejected.  Closing disposes the comm, whose
    dispose callback forgets the comm id altogether, the open promise
    included: a later comm_msg for that id is logged as having no
    comm. *)
Theorem comm_open_target_throws (h : Host) (open_msg later : IKernelMessage) (w : World)
    (x : nat) (s : KernelSocket) (target : Target) :
  _status (engine w) <> Dead -> alive (engine w) = true ->
  _socket (engine w) = Some x -> sockets w !! x = Some s -> _isReady s = false ->
  load_result h (loadObject h (target_name (content open_msg)) (target_module (content open_msg))
                   (_targetRegistry (engine w))) = inl target ->
  target_throws target = true ->
  comm_id (content later) = comm_id (content open_msg) ->
  let id := comm_id (content open_msg) in
  let c := kernel_comm target (content open_msg) in
  onClose_quiet c = true ->
  let m := comm_message h (engine w) (S (clock w)) "comm_close"
             {| execution_state := ""; comm_id := id; target_name := "";
                target_module := ""; data := "" |} "" [] in
  let r := (Kernel__handleCommOpen h open_msg >>> settle_opening h (clock w)) w in
  completion r = Normal tt /\
  trace r = EvTarget (target_id target) id open_msg :: onClose_events c m ++
            [EvConsole "error" "Exception opening new comm"] /\
  pending_of (world r) x = Some (_pendingMessages s ++ [m]) /\
  comm_of (world r) id = None /\
  (co_state <$> openings (world r) !! clock w) = Some (OpenRejected (Raised (target_id target))) /\
  Kernel__handleCommMsg later (world r)
    = MkRun (Normal tt) (world r) [EvConsole "error" ("Comm not found for comm id " +:+ id)].
Proof.
  intros Hst Hal Hx Hs Hr Hload Hthrows Hid id c Hq. cbv zeta.
  pose proof Hal as Hal'. apply alive_inv in Hal' as (fs & ps & cs & reg & Hfs & Hps & Hcs & Hreg).
  rewrite bind_run, (handleCommOpen_run h open_msg w ps Hps). cbn [completion world trace].
  set (o := {| co_content := content open_msg; co_msg := open_msg;
               co_load := loadObject h (target_name (content open_msg))
                            (target_module (content open_msg)) (_targetRegistry (engine w));
               co_state := OpenPending; co_waiters := [] |}).
  set (w0 := with_engine _ (with_openings _ (tick w))).
  assert (Ho : openings w0 !! clock w = Some o) by (unfold w0; simpl; apply lookup_insert_eq).
  assert (Hal0 : alive (engine w0) = true).
  { apply alive_inv. unfold w0. simpl. rewrite Hfs, Hcs, Hreg. eauto 10. }
  destruct (opening_callback_throws h o target w0 x s Hst Hal0 Hx Hs Hr Hthrows Hq)
    as (Hc & Ht & Hp & Hop & cs1 & ps1 & Hcs1 & Hl1 & Hps1 & Hl2).
  cbv zeta in *.
  assert (Hrun : settle_opening h (clock w) w0 =
            MkRun (Normal tt)
              (with_openings
                 (fun m => alter (set_co_state (OpenRejected (Raised (target_id target))))
                             (clock w) m)
                 (world (opening_callback h o target w0)))
              (trace (opening_callback h o target w0))).
  { unfold settle_opening. rewrite bind_run. cbn [get completion world trace].
    rewrite Ho. cbn [co_state o co_load]. rewrite Hload.
    rewrite bind_run, attempt_run, Hc. cbn [completion world trace update_opening modify].
    rewrite app_nil_r. reflexivity. }
  rewrite Hrun, Ht. cbn [completion world trace app co_content co_msg o].
  set (w1 := with_openings _ _).
  split; [reflexivity|]. split; [reflexivity|]. split; [exact Hp|].
  split; [unfold comm_of; cbn [w1 with_openings engine]; rewrite Hcs1; exact Hl1|].
  split.
  - unfold w1. cbn [with_openings openings]. rewrite lookup_alter_eq, Hop, Ho. reflexivity.
  - change (cs1 !! comm_id (content open_msg) = None) in Hl1.
    change (ps1 !! comm_id (content open_msg) = None) in Hl2.
    rewrite <- Hid in Hl1, Hl2.
    rewrite (handleCommMsg_run later w1 ps1 cs1 Hps1 Hcs1 Hl2), Hl1, Hid. reflexivity.
Qed.

Lemma comm_open_target_throws_witness :
  trace ((Kernel__handleCommOpen host0 open_c4 >>> settle_opening host0 (clock world_failing))
           world_failing)
    = [EvTarget "failing" "c4" open_c4; EvConsole "error" "Exception opening new comm"].
Proof.
  assert (Hs : sockets world_failing !! 0 = Some socket1) by (vm_compute; reflexivity).
  destruct (comm_open_target_throws host0 open_c4 msg_c4 world_failing 0 socket1 failing_target
              ltac:(vm_compute; discriminate) ltac:(vm_compute; reflexivity)
              eq_refl Hs eq_refl ltac:(vm_compute; reflexivity) eq_refl eq_refl eq_refl)
    as (_ & Ht & _).
  exact Ht.
Defined.

(** ** Messages of a comm *)

(** open() and send() on a comm that is not disposed, on a live engine
    whose socket is not ready: each queues one message on the shell
    channel that carries the id of the comm (open also its target
    name), the session and the user name of the engine and a fresh
    message id; the two messages are queued in the order of the calls
    and each has a future that expects no reply. *)
Theorem Comm_open_then_send (h : Host) (c : Comm) (id d1 md1 d2 md2 : string)
    (bf : list string) (dd : bool) (w : World) (x : nat) (s : KernelSocket) :
  _status (engine w) <> Dead -> alive (engine w) = true ->
  _socket (engine w) = Some x -> sockets w !! x = Some s -> _isReady s = false ->
  c_msgFunc c = true -> c_id c = Some id ->
  let m1 := comm_message h (engine w) (clock w) "comm_open"
              {| execution_state := ""; comm_id := id; target_name := c_target c;
                 target_module := ""; data := d1 |} md1 [] in
  let m2 := comm_message h (engine w) (S (clock w)) "comm_msg"
              {| execution_state := ""; comm_id := id; target_name := "";
                 target_module := ""; data := d2 |} md2 bf in
  let r1 := Comm_open h c d1 md1 w in
  let r2 := Comm_send h c d2 md2 bf dd (world r1) in
  completion r1 = Normal (new_future m1 false true) /\ trace r1 = [] /\
  completion r2 = Normal (new_future m2 false dd) /\ trace r2 = [] /\
  pending_of (world r2) x = Some (_pendingMessages s ++ [m1; m2]) /\
  future_of (world r2) (uuid h (S (clock w))) = Some (new_future m2 false dd) /\
  (uuid h (clock w) <> uuid h (S (clock w)) ->
   future_of (world r2) (uuid h (clock w)) = Some (new_future m1 false true)).
Proof.
  intros Hst Hal Hx Hs Hr Hmf Hid. cbv zeta.
  apply alive_inv in Hal as (fs & ps & cs & reg & Hfs & Hps & Hcs & Hreg).
  unfold Comm_open, Comm_send, Comm_isDisposed. rewrite Hmf, Hid. cbn [negb id_or_undefined].
  rewrite (sendCommMessage_queued h _ true w x s fs Hst Hx Hs Hr Hfs).
  cbn [completion world trace p_msgType p_content p_metadata p_buffers].
  set (m1 := comm_message h (engine w) (clock w) "comm_open" _ md1 []).
  set (w1 := with_engine _ (with_sockets _ (tick w))).
  assert (Hs1 : sockets w1 !! x = Some (set_pendingMessages (_pendingMessages s ++ [m1]) s)).
  { unfold w1. simpl. rewrite lookup_alter_eq, Hs. reflexivity. }
  assert (Hfs1 : _futures (engine w1) = Some (<[uuid h (clock w) := new_future m1 false true]> fs))
    by reflexivity.
  rewrite (sendCommMessage_queued h _ dd w1 x _ _ Hst Hx Hs1 Hr Hfs1).
  cbn [completion world trace p_msgType p_content p_metadata p_buffers].
  split; [reflexivity|]. split; [reflexivity|]. split; [reflexivity|]. split; [reflexivity|].
  unfold pending_of, future_of. simpl.
  rewrite !lookup_alter_eq, Hs. simpl. rewrite <- app_assoc. simpl.
  split; [reflexivity|]. split; [apply lookup_insert_eq|].
  intros Hne. rewrite lookup_insert_ne by auto. apply lookup_insert_eq.
Qed.

Lemma Comm_open_then_send_witness :
  pending_of
    (world (Comm_send host0 (client_comm "target" "c1") "x" "" [] true
              (world (Comm_open host0 (client_comm "target" "c1") "" "" world_comm)))) 0
  = Some [comm_message host0 (engine world_comm) 1 "comm_open"
            {| execution_state := ""; comm_id := "c1"; target_name := "target";
               target_module := ""; data := "" |} "" [];
          comm_message host0 (engine world_comm) 2 "comm_msg"
            {| execution_state := ""; comm_id := "c1"; target_name := "";
               target_module := ""; data := "x" |} "" []].
Proof.
  assert (Hs : sockets world_comm !! 0 = Some socket1) by (vm_compute; reflexivity).
  destruct (Comm_open_then_send host0 (client_comm "target" "c1") "c1" "" "" "x" "" [] true
              world_comm 0 socket1
              ltac:(vm_compute; discriminate) ltac:(vm_compute; reflexivity)
              eq_refl Hs eq_refl eq_refl eq_refl)
    as (_ & _ & _ & _ & Hp & _).
  exact Hp.
Defined.

(** sendInputReply on an engine that is not Dead, whose socket is not
    ready: one input_reply message on the stdin channel goes to the end
    of the queue of the socket, and no future is made for it: the
    registry of futures is as it was. *)
Theorem sendInputReply_no_future (h : Host) (c : Content) (w : World)
    (x : nat) (s : KernelSocket) :
  _status (engine w) <> Dead ->
  _socket (engine w) = Some x -> sockets w !! x = Some s -> _isReady s = false ->
  let r := Kernel_sendInputReply h c w in
  completion r = Normal tt /\ trace r = [] /\
  _futures (engine (world r)) = _futures (engine w) /\
  pending_of (world r) x = Some (_pendingMessages s ++ [input_reply h (engine w) (clock w) c]).
Proof.
  intros Hst Hx Hs Hr. cbv zeta.
  unfold Kernel_sendInputReply. rewrite bind_run. cbn [the_engine completion world trace].
  destruct (decide (_status (engine w) = Dead)); [contradiction|].
  unfold createKernelMessage. cbn [msgId String.eqb].
  rewrite !bind_run. cbn [fresh ret completion world trace app].
  unfold socket_send. rewrite bind_run. cbn [the_engine completion world trace tick engine].
  rewrite Hx.
  match goal with
  | |- context [KernelSocket_send h x ?m ?w'] =>
      rewrite (KernelSocket_send_queues h x m w' s Hs Hr)
  end.
  cbn [completion world trace]. unfold pending_of. simpl.
  rewrite lookup_alter_eq, Hs. auto.
Qed.

Lemma sendInputReply_no_future_witness :
  _futures (engine (world (Kernel_sendInputReply host0 empty_content world_idle)))
    = _futures (engine world_idle).
Proof.
  assert (Hs : sockets world_idle !! 0 = Some socket1) by (vm_compute; reflexivity).
  destruct (sendInputReply_no_future host0 empty_content world_idle 0 socket1
              ltac:(vm_compute; discriminate) eq_refl Hs eq_refl) as (_ & _ & Hf & _).
  exact Hf.
Defined.

(** ** The socket after a close event, and on an open event *)

Lemma sendPending_loop_fields (h : Host) (this : nat) (q : list IKernelMessage) :
  forall (w : World) (s : KernelSocket),
    sockets w !! this = Some s ->
    exists s',
      sockets (world (sendPending_loop h this q w)) !! this = Some s' /\
      _reconnectAttempt s' = _reconnectAttempt s /\
      _reconnectLimit s' = _reconnectLimit s /\
      _isReady s' = _isReady s /\
      engine (world (sendPending_loop h this q w)) = engine w.
Proof.
  induction q as [|msg rest IH]; intros w s Hs.
  - simpl. eauto 10.
  - cbn [sendPending_loop]. rewrite bind_run.
    destruct (_ws s) as [ws|] eqn:Hws.
    + rewrite (ws_send_run this _ w s ws Hs Hws).
      destruct (WebSocket_send ws (serialize h msg)) as [[c ws'] t] eqn:Hsend.
      cbn [fst snd completion world trace].
      destruct c as [[]|e]; cbn [completion world trace].
      * rewrite bind_run. cbn [update_socket modify completion world trace].
        set (w2 := with_sockets _ (with_sockets _ w)).
        assert (Hs2 : sockets w2 !! this
                      = Some (set_pendingMessages rest (set_ws (Some ws') s))).
        { unfold w2. simpl. rewrite lookup_alter_eq, lookup_insert_eq. reflexivity. }
        destruct (IH w2 _ Hs2) as (s' & Hs' & H1 & H2 & H3 & H4).
        exists s'. simpl in *. auto 10.
      * simpl. rewrite lookup_insert_eq. eexists. split; [reflexivity|]. simpl. auto.
    + unfold ws_send. rewrite Hs, Hws. simpl. eauto 10.
Qed.

Lemma onWSOpen_resets (h : Host) (this : nat) (w : World) (s : KernelSocket) :
  sockets w !! this = Some s ->
  exists s',
    sockets (world (KernelSocket__onWSOpen h this w)) !! this = Some s' /\
    _reconnectAttempt s' = 0 /\ _reconnectLimit s' = _reconnectLimit s /\
    _isReady s' = false /\
    engine (world (KernelSocket__onWSOpen h this w)) = engine w.
Proof.
  intros Hs. unfold KernelSocket__onWSOpen.
  rewrite !bind_run. cbn [update_socket modify completion world trace].
  set (w2 := with_sockets _ (with_sockets _ w)).
  assert (Hs2 : sockets w2 !! this = Some (set_isReady false (set_reconnectAttempt 0 s))).
  { unfold w2. simpl. rewrite !lookup_alter_eq, Hs. reflexivity. }
  unfold KernelSocket__sendPending. rewrite bind_run, (the_socket_run this w2 _ Hs2).
  cbn [completion world trace].
  destruct (sendPending_loop_fields h this
              (_pendingMessages (set_isReady false (set_reconnectAttempt 0 s))) w2 _ Hs2)
    as (s' & Hs' & H1 & H2 & H3 & H4).
  exists s'. simpl in *.
  destruct (completion (sendPending_loop h this (_pendingMessages s) w2)); simpl; auto 10.
Qed.

(** A close or error event leaves the socket disposed: the handler has
    set [_ws] to null when it throws, and it has scheduled no new
    websocket.  A later dispose() of the socket then does nothing (it
    closes no websocket and leaves the registry of running kernels as it
    is), a message sent while the socket is ready throws, and one sent
    while it is not ready is queued.  An open event resets the count of
    attempts to 0 and marks the socket as not ready, whether or not the
    flush of the queue succeeds. *)
Theorem close_event_leaves_socket_disposed (h : Host) (this : nat) (w : World)
    (s : KernelSocket) (ws : WebSocket) :
  sockets w !! this = Some s -> _ws s = Some ws ->
  let r := KernelSocket__onWSClose this w in
  let opened := KernelSocket__onWSOpen h this w in
  sockets (world r) !! this = Some (set_ws None s) /\
  KernelSocket_isDisposed (set_ws None s) = true /\
  runningKernels (world r) = runningKernels w /\
  Forall (fun e => match e with EvWsNew _ | EvSetTimeout _ => False | _ => True end) (trace r) /\
  KernelSocket_dispose this (world r) = MkRun (Normal tt) (world r) [] /\
  (forall msg : IKernelMessage,
     if _isReady s
     then KernelSocket_send h this msg (world r)
            = MkRun (Throw (null_member "send")) (world r) []
     else completion (KernelSocket_send h this msg (world r)) = Normal tt /\
          trace (KernelSocket_send h this msg (world r)) = [] /\
          pending_of (world (KernelSocket_send h this msg (world r))) this
            = Some (_pendingMessages s ++ [msg])) /\
  (exists s', sockets (world opened) !! this = Some s' /\
              _reconnectAttempt s' = 0 /\ _reconnectLimit s' = _reconnectLimit s /\
              _isReady s' = false).
Proof.
  intros Hs Hws. cbv zeta. rewrite (onWSClose_run this w), Hs, Hws.
  cbn [completion world trace].
  set (w1 := with_sockets (fun m => alter (set_ws None) this m) w).
  assert (Hs1 : sockets w1 !! this = Some (set_ws None s)).
  { unfold w1. simpl. rewrite lookup_alter_eq, Hs. reflexivity. }
  split; [exact Hs1|]. split; [reflexivity|]. split; [reflexivity|]. split; [constructor|].
  split; [|split].
  - rewrite (KernelSocket_dispose_run this w1 _ Hs1). reflexivity.
  - intros msg. destruct (_isReady s) eqn:Hready.
    + unfold KernelSocket_send. rewrite bind_run, (the_socket_run this w1 _ Hs1).
      cbn [completion world trace set_ws _isReady]. rewrite Hready. cbn [negb].
      unfold ws_send. rewrite Hs1. reflexivity.
    + rewrite (KernelSocket_send_queues h this msg w1 _ Hs1 Hready).
      cbn [completion world trace]. split; [reflexivity|]. split; [reflexivity|].
      unfold pending_of. cbn [with_sockets sockets]. rewrite lookup_alter_eq, Hs1. reflexivity.
  - destruct (onWSOpen_resets h this w s Hs) as (s' & Hs' & H1 & H2 & H3 & _). eauto 10.
Qed.

Lemma close_event_leaves_socket_disposed_witness :
  KernelSocket_dispose 0 (world (KernelSocket__onWSClose 0 world1))
    = MkRun (Normal tt) (world (KernelSocket__onWSClose 0 world1)) [].
Proof.
  assert (Hs : sockets world1 !! 0 = Some socket1) by (vm_compute; reflexivity).
  destruct (close_event_leaves_socket_disposed host0 0 world1 socket1
              {| ws_url := "ws://localhost:8888/api/kernels/k1/channels?session_id=undefined";
                 ws_faults := [] |} Hs eq_refl) as (_ & _ & _ & _ & Hdispose & _).
  exact Hdispose.
Defined.

(** ** Connecting to kernels *)

Lemma KernelSocket_new_run (h : Host) (options : IKernelOptions) (id : string) (w : World) :
  completion (KernelSocket_new h options id w) = Normal (clock w) /\
  trace (KernelSocket_new h options id w) = socket_events h options id /\
  runningKernels (world (KernelSocket_new h options id w)) = <[id := clock w]> (runningKernels w) /\
  (exists s, sockets (world (KernelSocket_new h options id w)) !! clock w = Some s /\
             _name s = opt_name options /\ _id s = id /\ _isReady s = false /\
             _pendingMessages s = [] /\ _wsUrl s = socket_wsUrl h options) /\
  engine (world (KernelSocket_new h options id w)) = engine w.
Proof.
  unfold KernelSocket_new, KernelSocket__createSocket, update_socket, the_socket,
    fresh, modify, event, ret, bind, socket_events, socket_wsUrl, options_baseUrl. simpl.
  rewrite lookup_insert_eq. simpl.
  rewrite lookup_alter_eq, lookup_insert_eq. simpl.
  split; [reflexivity|]. split; [reflexivity|]. split; [reflexivity|].
  split; [|reflexivity]. eexists. split; [reflexivity|]. simpl. auto 10.
Qed.

Lemma getKernelId_found (h : Host) (id : string) (options : IKernelOptions) (reply : AjaxReply)
    (data : string) (w : World) :
  found reply = Some data ->
  getKernelId h id options reply w =
    MkRun (Normal data) w [EvAjax "GET" (kernels_url h options [id])].
Proof.
  intros Hf. destruct reply as [status [d|]|]; try discriminate.
  unfold found in Hf. unfold getKernelId, bind, event, ret. simpl.
  destruct (status =? 200)%nat; [|discriminate].
  injection Hf as ->. reflexivity.
Qed.

Lemma getKernelId_refused (h : Host) (id : string) (options : IKernelOptions) (reply : AjaxReply)
    (w : World) :
  found reply = None ->
  exists e,
    getKernelId h id options reply w =
      MkRun (Throw e) w (EvAjax "GET" (kernels_url h options [id]) :: refusal_events reply).
Proof.
  intros Hf. destruct reply as [status model|statusText].
  - unfold getKernelId, bind, event, throw, ret. simpl.
    unfold found in Hf.
    destruct (status =? 200)%nat eqn:Hs; simpl.
    + destruct model as [d|]; [discriminate|]. eexists. reflexivity.
    + eexists. reflexivity.
  - eexists. reflexivity.
Qed.

(** connectToKernel with options, for an id that has no socket yet,
    asks the server, and on an answer 200 with a valid model makes the
    socket, which it registers under the id.  From then on the id is
    served from the registry: a second connectToKernel with options is
    given the same socket and findKernelById the name of that socket,
    neither sending a request.  Without options connectToKernel fails
    in both cases: for a registered id [new Kernel(undefined, socket)]
    throws a TypeError, and for an id that is not registered the
    promise is rejected with "No running kernel with id: <id>" although
    the server has found the kernel, nothing being registered. *)
Theorem connectToKernel_registers (h : Host) (id data : string)
    (options : IKernelOptions) (options2 : option IKernelOptions) (options3 : IKernelOptions)
    (reply reply2 : AjaxReply) (w : World) :
  runningKernels w !! id = None -> found reply = Some data ->
  let r := connectToKernel h id (Some options) reply w in
  completion r = Normal (clock w) /\
  trace r = EvAjax "GET" (kernels_url h options [id]) ::
            socket_events h options id ++ [EvNewKernel (clock w)] /\
  runningKernels (world r) !! id = Some (clock w) /\
  connectToKernel h id options2 reply2 (world r)
    = match options2 with
      | Some _ => MkRun (Normal (clock w)) (world r) [EvNewKernel (clock w)]
      | None =>
          MkRun (Throw (TypeError "Cannot read property 'ajaxSettings' of undefined"))
            (world r) []
      end /\
  findKernelById h id options3 reply2 (world r)
    = MkRun (Normal (OfSocket id (opt_name options))) (world r) [] /\
  connectToKernel h id None reply w
    = MkRun (Throw (Error ("No running kernel with id: " +:+ id))) w
        [EvAjax "GET" (kernels_url h (options_or_empty None) [id])].
Proof.
  intros Hnone Hfound. cbv zeta.
  destruct (KernelSocket_new_run h options id w) as (Hc & Ht & Hrk & (s & Hs & Hname & _) & _).
  assert (Hrun : connectToKernel h id (Some options) reply w =
            MkRun (Normal (clock w)) (world (KernelSocket_new h options id w))
              (EvAjax "GET" (kernels_url h options [id]) ::
               socket_events h options id ++ [EvNewKernel (clock w)])).
  { unfold connectToKernel. rewrite bind_run. cbn [get completion world trace].
    rewrite Hnone. unfold try_catch. cbn [options_or_empty].
    rewrite bind_run, (getKernelId_found h id options reply data w Hfound).
    cbn [completion world trace]. rewrite bind_run, Hc, Ht. reflexivity. }
  rewrite Hrun. cbn [completion world trace].
  set (w1 := world (KernelSocket_new h options id w)) in *.
  assert (Hreg : runningKernels w1 !! id = Some (clock w)).
  { rewrite Hrk. apply lookup_insert_eq. }
  split; [reflexivity|]. split; [reflexivity|]. split; [exact Hreg|].
  split; [|split].
  - unfold connectToKernel. rewrite bind_run. cbn [get completion world trace].
    rewrite Hreg. destruct options2; reflexivity.
  - unfold findKernelById. rewrite bind_run. cbn [get completion world trace].
    rewrite Hreg, bind_run, (the_socket_run _ w1 s Hs).
    cbn [ret completion world trace]. rewrite Hname. reflexivity.
  - unfold connectToKernel. rewrite bind_run. cbn [get completion world trace].
    rewrite Hnone. unfold try_catch.
    rewrite bind_run, (getKernelId_found h id _ reply data w Hfound).
    cbn [completion world trace]. reflexivity.
Qed.

Lemma connectToKernel_registers_witness :
  trace (connectToKernel host0 "k1" (Some options0) (AjaxFailure "gone")
           (world (connectToKernel host0 "k1" (Some options0) (AjaxSuccess 200 (Some "k1")) world0)))
    = [EvNewKernel 0].
Proof.
  destruct (connectToKernel_registers host0 "k1" "k1" options0 (Some options0) options0
              (AjaxSuccess 200 (Some "k1")) (AjaxFailure "gone") world0 eq_refl eq_refl)
    as (_ & _ & _ & Hagain & _).
  rewrite Hagain. reflexivity.
Defined.

(** connectToKernel and findKernelById for an id that has no socket,
    when the server does not answer 200 with a valid model: the promise
    is rejected with "No running kernel with id: <id>" whatever the
    cause was, nothing is registered and no socket is made; only a
    failed request is logged.  So it is with options and without. *)
Theorem connectToKernel_refused (h : Host) (id : string) (options : option IKernelOptions)
    (reply : AjaxReply) (w : World) :
  runningKernels w !! id = None -> found reply = None ->
  connectToKernel h id options reply w
    = MkRun (Throw (Error ("No running kernel with id: " +:+ id))) w
        (EvAjax "GET" (kernels_url h (options_or_empty options) [id]) :: refusal_events reply) /\
  findKernelById h id (options_or_empty options) reply w
    = MkRun (Throw (Error ("No running kernel with id: " +:+ id))) w
        (EvAjax "GET" (kernels_url h (options_or_empty options) [id]) :: refusal_events reply).
Proof.
  intros Hnone Hfound.
  destruct (getKernelId_refused h id (options_or_empty options) reply w Hfound) as [e He].
  unfold connectToKernel, findKernelById.
  rewrite !bind_run. cbn [get completion world trace]. rewrite Hnone.
  unfold try_catch. rewrite !bind_run, He. cbn [completion world trace throw].
  rewrite app_nil_r. auto.
Qed.

Lemma connectToKernel_refused_witness :
  completion (connectToKernel host0 "k1" (Some options0) (AjaxSuccess 404 None) world0)
    = Throw (Error "No running kernel with id: k1").
Proof.
  destruct (connectToKernel_refused host0 "k1" (Some options0) (AjaxSuccess 404 None) world0
              eq_refl eq_refl) as (Hc & _).
  rewrite Hc. reflexivity.
Defined.

(** startNewKernel makes a socket only for a kernel id it has none
    for: on an answer 201 with a valid model whose id is registered,
    the kernel is built on the registered socket and no websocket is
    opened; with an id that is not registered a socket is made and
    registered.  On any other status the promise is rejected with
    "Invalid Status: <status>", and the registry is as it was. *)
Theorem startNewKernel_reuses (h : Host) (options : IKernelOptions) (status : nat)
    (id : string) (w : World) :
  let r := startNewKernel h options (AjaxSuccess status (Some id)) w in
  let request := EvAjax "POST" (kernels_url h options []) in
  (status = 201 -> forall socket, runningKernels w !! id = Some socket ->
     r = MkRun (Normal socket) w [request; EvNewKernel socket]) /\
  (status = 201 -> runningKernels w !! id = None ->
     completion r = Normal (clock w) /\
     trace r = request :: socket_events h options id ++ [EvNewKernel (clock w)] /\
     runningKernels (world r) = <[id := clock w]> (runningKernels w)) /\
  (status <> 201 ->
     r = MkRun (Throw (Error ("Invalid Status: " +:+ pretty status))) w [request]).
Proof.
  cbv zeta. unfold startNewKernel. rewrite bind_run. cbn [event completion world trace].
  split; [|split].
  - intros -> socket Hreg. cbn [Nat.eqb negb].
    rewrite bind_run. cbn [get completion world trace]. rewrite Hreg. reflexivity.
  - intros -> Hnone. cbn [Nat.eqb negb].
    rewrite bind_run. cbn [get completion world trace]. rewrite Hnone.
    destruct (KernelSocket_new_run h options id w) as (Hc & Ht & Hrk & _).
    rewrite bind_run, Hc, Ht. cbn [completion world trace].
    unfold new_Kernel, bind, event, ret. cbn [completion world trace app].
    rewrite Hrk. auto.
  - intros Hne. apply Nat.eqb_neq in Hne. rewrite Hne. reflexivity.
Qed.

Lemma startNewKernel_reuses_witness :
  trace (startNewKernel host0 options0 (AjaxSuccess 201 (Some "k1")) world1)
    = [EvAjax "POST" (kernels_url host0 options0 []); EvNewKernel 0].
Proof.
  destruct (startNewKernel_reuses host0 options0 201 "k1" world1) as (Hreuse & _).
  rewrite (Hreuse eq_refl 0 ltac:(vm_compute; reflexivity)). reflexivity.
Defined.

(** ** Restart and shutdown *)

Lemma same_identity_refl (w : World) : same_identity w w.
Proof. unfold same_identity. auto 10. Qed.

Lemma same_identity_trans (a b c : World) :
  same_identity a b -> same_identity b c -> same_identity a c.
Proof. unfold same_identity. intuition congruence. Qed.

Lemma forEach_future_identity : frames same_identity forEach_future.
Proof.
  unfold forEach_future. 
  apply (frames_bind _ same_identity_trans); [apply (frames_the_engine _ same_identity_refl)|].
  intros k. destruct (_futures k) as [fs|]; [|apply (frames_throw _ same_identity_refl)].
  apply (frames_forEach _ same_identity_refl same_identity_trans). intros key f0.
  unfold dispose_future_entry, KernelFutureHandler_dispose, future_disposeCb, update_engine.
  frame same_identity same_identity_refl same_identity_trans;
    unfold same_identity; simpl; auto 10.
Qed.

Lemma forEach_comm_identity : frames same_identity forEach_comm.
Proof.
  unfold forEach_comm.
  apply (frames_bind _ same_identity_trans); [apply (frames_the_engine _ same_identity_refl)|].
  intros k. destruct (_comms k) as [cs|]; [|apply (frames_throw _ same_identity_refl)].
  apply (frames_forEach _ same_identity_refl same_identity_trans). intros key c0.
  unfold dispose_comm_entry, Comm_dispose, write_back, Kernel__unregisterComm, update_engine.
  frame same_identity same_identity_refl same_identity_trans;
    unfold same_identity; simpl; auto 10.
Qed.

Lemma clearState_run (w : World) :
  alive (engine w) = true ->
  completion (Kernel__clearState w) = Normal tt /\
  trace (Kernel__clearState w) = [] /\
  cleared (engine (world (Kernel__clearState w))) /\
  same_identity w (world (Kernel__clearState w)) /\
  _status (engine (world (Kernel__clearState w))) = _status (engine w) /\
  _socket (engine (world (Kernel__clearState w))) = _socket (engine w) /\
  slots (engine (world (Kernel__clearState w))) = slots (engine w) /\
  _targetRegistry (engine (world (Kernel__clearState w))) = _targetRegistry (engine w) /\
  sockets (world (Kernel__clearState w)) = sockets w /\
  promises (world (Kernel__clearState w)) = promises w.
Proof.
  intros Hal. unfold Kernel__clearState.
  destruct (forEach_future_run w) as (Ht1 & Hsame1 & Hf). destruct (Hf Hal) as [Hc1 Hal1].
  pose proof (forEach_future_identity w) as Hid1.
  rewrite (bind_normal _ _ w tt Hc1), Ht1.
  set (w1 := world (forEach_future w)) in *.
  destruct (forEach_comm_run w1) as (Ht2 & Hsame2 & Hg). destruct (Hg Hal1) as [Hc2 Hal2].
  pose proof (forEach_comm_identity w1) as Hid2.
  rewrite (bind_normal _ _ w1 tt Hc2), Ht2.
  set (w2 := world (forEach_comm w1)) in *.
  pose proof (same_outside_maps_trans _ _ _ Hsame1 Hsame2)
    as (Hst & Hsock & Hsl & Hreg & Hpr & Hop & Hsk & Hrk).
  pose proof (same_identity_trans _ _ _ Hid1 Hid2) as Hid.
  simpl. unfold cleared. simpl.
  repeat split; auto; apply Hid.
Qed.

Lemma rest_call_run (h : Host) (method : string) (action : list string) (w : World)
    (x : nat) (s : KernelSocket) :
  _status (engine w) <> Dead -> _socket (engine w) = Some x -> sockets w !! x = Some s ->
  rest_call h method action w =
    MkRun (Normal (clock w)) (with_promises (fun m => <[clock w := Pending]> m) (tick w))
      [EvAjax method (kernel_url h w (_id s) action)].
Proof.
  intros Hst Hx Hs. unfold rest_call. rewrite bind_run. cbn [the_engine completion world trace].
  destruct (decide (_status (engine w) = Dead)); [contradiction|].
  assert (Hid : Kernel_id w = MkRun (Normal (_id s)) w []).
  { unfold Kernel_id. rewrite bind_run. cbn [the_engine completion world trace].
    rewrite Hx, bind_run, (the_socket_run x w s Hs). reflexivity. }
  rewrite bind_run, Hid. cbn [completion world trace].
  rewrite bind_run. cbn [event completion world trace].
  rewrite new_promise_run. reflexivity.
Qed.

(** restart() on a live engine drops every future and every comm at
    once, before the server has answered: the maps are empty when it
    returns or throws, while the promises of the requests that were
    pending are left as they are and the registry of comm targets is
    kept; the status becomes Restarting.  On an engine that holds its
    socket the change of status, when it is one, is logged and
    announced, one POST goes to the restart url of the kernel and the
    promise returned is pending.  On an engine whose _socket is null,
    as the constructor leaves it, the call throws a TypeError where it
    first reads the id of the kernel: nothing is announced, no request
    is sent and no promise is made. *)
Theorem restart_clears (h : Host) (w : World) :
  alive (engine w) = true ->
  let r := Kernel_restart h w in
  (forall (x : nat) (s : KernelSocket),
     _socket (engine w) = Some x -> sockets w !! x = Some s ->
     completion r = Normal (clock w) /\
     cleared (engine (world r)) /\
     _targetRegistry (engine (world r)) = _targetRegistry (engine w) /\
     _status (engine (world r)) = Restarting /\
     promises (world r) = <[clock w := Pending]> (promises w) /\
     trace r =
       (if decide (_status (engine w) = Restarting) then []
        else [EvConsole "log" ("Kernel: restarting (" +:+ _id s +:+ ")");
              EvEmit StatusChanged (ArgStatus Restarting) (listeners w StatusChanged)]) ++
       [EvAjax "POST" (kernel_url h w (_id s) ["restart"])]) /\
  (_socket (engine w) = None ->
   completion r = Throw (null_member "id") /\
   trace r = [] /\
   cleared (engine (world r)) /\
   _targetRegistry (engine (world r)) = _targetRegistry (engine w) /\
   _status (engine (world r)) = Restarting /\
   promises (world r) = promises w).
Proof.
  intros Hal. cbv zeta.
  destruct (clearState_run w Hal) as (Hc & Ht & Hcl & Hid & Hst & Hsock & Hsl & Hreg & Hsk & Hpr).
  unfold Kernel_restart. rewrite (bind_normal _ _ w tt Hc), Ht. cbn [completion world trace app].
  set (w1 := world (Kernel__clearState w)) in *.
  destruct Hid as (Hbase & _ & _ & _ & _ & Hclock).
  split.
  - intros x s Hx Hs.
    assert (Hx1 : _socket (engine w1) = Some x) by congruence.
    assert (Hs1 : sockets w1 !! x = Some s) by congruence.
    assert (Hupd : exists w2,
              Kernel__updateStatus "restarting" w1 =
                MkRun (Normal tt) w2
                  (if decide (_status (engine w) = Restarting) then []
                   else [EvConsole "log" ("Kernel: restarting (" +:+ _id s +:+ ")");
                         EvEmit StatusChanged (ArgStatus Restarting) (listeners w StatusChanged)]) /\
              _status (engine w2) = Restarting /\ cleared (engine w2) /\
              _targetRegistry (engine w2) = _targetRegistry (engine w1) /\
              _socket (engine w2) = Some x /\ sockets w2 = sockets w1 /\
              _baseUrl (engine w2) = _baseUrl (engine w1) /\
              promises w2 = promises w1 /\ clock w2 = clock w1).
    { destruct (decide (_status (engine w) = Restarting)) as [He|Hne].
      - exists w1. rewrite updateStatus_unfold. cbn [status_of_state String.eqb Ascii.eqb Bool.eqb].
        destruct (decide (Restarting = _status (engine w1))); [|congruence].
        rewrite Hst. auto 10.
      - exists (with_engine (set_status Restarting) w1).
        rewrite (updateStatus_change "restarting" Restarting w1 x s eq_refl
                   ltac:(congruence) ltac:(discriminate) Hx1 Hs1).
        unfold listeners. rewrite Hsl. simpl. split; [reflexivity|]. auto 10. }
    destruct Hupd as (w2 & Hrun & Hst2 & Hcl2 & Hreg2 & Hx2 & Hsk2 & Hbase2 & Hpr2 & Hclock2).
    rewrite bind_run, Hrun. cbn [completion world trace].
    assert (Hs2 : sockets w2 !! x = Some s) by congruence.
    rewrite (rest_call_run h "POST" ["restart"] w2 x s ltac:(congruence) Hx2 Hs2).
    cbn [completion world trace]. unfold kernel_url.
    rewrite Hbase2, Hbase, Hclock2, Hclock.
    split; [reflexivity|]. split; [exact Hcl2|]. split; [simpl; congruence|].
    split; [exact Hst2|]. split; [simpl; congruence|]. reflexivity.
  - intros Hx.
    assert (Hx1 : _socket (engine w1) = None) by congruence.
    destruct (decide (_status (engine w) = Restarting)) as [He|Hne].
    + rewrite bind_run, updateStatus_unfold. cbn [status_of_state String.eqb Ascii.eqb Bool.eqb].
      destruct (decide (Restarting = _status (engine w1))); [|congruence].
      cbn [completion world trace app].
      unfold rest_call, Kernel_id, bind, the_engine, get, throw.
      destruct (decide (_status (engine w1) = Dead)); [congruence|].
      rewrite Hx1. cbn [completion world trace app].
      split; [reflexivity|]. split; [reflexivity|]. split; [exact Hcl|].
      split; [exact Hreg|]. split; [congruence|]. exact Hpr.
    + rewrite bind_run,
        (updateStatus_socketless "restarting" Restarting w1 eq_refl ltac:(congruence) Hx1).
      cbn [completion world trace app].
      split; [reflexivity|]. split; [reflexivity|]. split; [exact Hcl|].
      split; [exact Hreg|]. split; [reflexivity|]. exact Hpr.
Qed.

Lemma restart_clears_witness :
  cleared (engine (world (Kernel_restart host0 world_comm))) /\
  _status (engine (world (Kernel_restart host0 world_comm))) = Restarting.
Proof.
  assert (Hs : sockets world_comm !! 0 = Some socket1) by (vm_compute; reflexivity).
  destruct (restart_clears host0 world_comm ltac:(vm_compute; reflexivity)) as [Hheld _].
  destruct (Hheld 0 socket1 eq_refl Hs) as (_ & Hcl & _ & Hst & _).
  split; [exact Hcl | exact Hst].
Defined.

(** shutdown() on a live engine clears the futures and the comms and
    sends one DELETE for the kernel.  When the server answers 204, the
    socket is disposed and then the engine: the websocket is closed
    once, although both call dispose on the socket.  On another status
    the promise is rejected with "Invalid Status: <status>", on a
    failed request with its status text, which is logged; the engine is
    then not disposed, but its futures and comms are gone all the
    same. *)
Theorem shutdown_answers (h : Host) (w : World) (x : nat) (s : KernelSocket) (reply : AjaxReply) :
  alive (engine w) = true -> _status (engine w) <> Dead ->
  _socket (engine w) = Some x -> sockets w !! x = Some s ->
  let r0 := Kernel_shutdown h w in
  let r := Kernel_shutdown_answer reply (world r0) in
  completion r0 = Normal (clock w) /\
  trace r0 = [EvAjax "DELETE" (kernel_url h w (_id s) [])] /\
  cleared (engine (world r0)) /\
  match reply with
  | AjaxSuccess status _ =>
      if (status =? 204)%nat then
        completion r = Normal tt /\ trace r = close_events s /\
        Kernel_isDisposed (engine (world r)) = true /\
        _status (engine (world r)) = Dead
      else
        r = MkRun (Throw (Error ("Invalid Status: " +:+ pretty status))) (world r0) []
  | AjaxFailure statusText =>
      r = MkRun (Throw (Error statusText)) (world r0)
            [EvConsole "error" ("API request failed (" +:+ statusText +:+ "): ")]
  end.
Proof.
  intros Hal Hst Hx Hs. cbv zeta.
  destruct (clearState_run w Hal) as (Hc & Ht & Hcl & Hid & Hst1 & Hsock & Hsl & Hreg & Hsk & Hpr).
  unfold Kernel_shutdown. rewrite (bind_normal _ _ w tt Hc), Ht. cbn [completion world trace app].
  set (w1 := world (Kernel__clearState w)) in *.
  assert (Hx1 : _socket (engine w1) = Some x) by congruence.
  assert (Hs1 : sockets w1 !! x = Some s) by congruence.
  destruct Hid as (Hbase & _ & _ & _ & _ & Hclock).
  rewrite (rest_call_run h "DELETE" [] w1 x s ltac:(congruence) Hx1 Hs1).
  cbn [completion world trace]. unfold kernel_url. rewrite Hbase, Hclock.
  split; [reflexivity|]. split; [reflexivity|]. split; [exact Hcl|].
  set (w2 := with_promises _ (tick w1)).
  assert (Hx2 : _socket (engine w2) = Some x) by exact Hx1.
  assert (Hs2 : sockets w2 !! x = Some s) by exact Hs1.
  unfold Kernel_shutdown_answer, shutdownKernel_answer.
  destruct reply as [status model|statusText].
  - destruct (status =? 204)%nat eqn:E; cbn [negb].
    + rewrite !bind_run. cbn [the_engine completion world trace]. rewrite Hx2.
      rewrite (KernelSocket_dispose_run x w2 s Hs2).
      assert (Hal2 : alive (engine w2) = true).
      { destruct Hcl as (H1 & H2 & H3). apply alive_inv.
        destruct (proj1 (alive_inv _) Hal) as (fs & ps & cs & reg & _ & _ & _ & Hr).
        exists ∅, ∅, ∅, reg. repeat split; auto. unfold w2. simpl. congruence. }
      unfold close_events.
      destruct (_ws s) as [ws|] eqn:Hws; cbn [completion world trace].
      * set (w3 := with_sockets _ _).
        assert (Hal3 : alive (engine w3) = true) by exact Hal2.
        assert (Hx3 : _socket (engine w3) = Some x) by exact Hx2.
        assert (Hs3 : sockets w3 !! x = Some (set_ws None s)).
        { unfold w3. simpl. rewrite lookup_alter_eq. unfold w2. simpl. rewrite Hs1. reflexivity. }
        assert (Ha3 : attached w3 = true) by (apply attached_inv; eauto).
        destruct (Kernel_dispose_live w3 Hal3 Ha3) as (Hdc & Hdf & _ & _ & _ & _ & Hdst).
        destruct (Kernel_dispose_closes w3 x _ Hal3 Hx3 Hs3) as (Hdt & _).
        rewrite Hdc, Hdt. simpl. unfold Kernel_isDisposed. rewrite Hdf. auto.
      * assert (Ha2 : attached w2 = true) by (apply attached_inv; eauto).
        destruct (Kernel_dispose_live w2 Hal2 Ha2) as (Hdc & Hdf & _ & _ & _ & _ & Hdst).
        destruct (Kernel_dispose_closes w2 x _ Hal2 Hx2 Hs2) as (Hdt & _).
        rewrite Hdc, Hdt, Hws. simpl. unfold Kernel_isDisposed. rewrite Hdf. auto.
    + reflexivity.
  - reflexivity.
Qed.

Lemma shutdown_answers_witness :
  trace (Kernel_shutdown_answer (AjaxSuccess 204 None) (world (Kernel_shutdown host0 world_comm)))
    = [EvWsClose "ws://localhost:8888/api/kernels/k1/channels?session_id=undefined"].
Proof.
  assert (Hs : sockets world_comm !! 0 = Some socket1) by (vm_compute; reflexivity).
  destruct (shutdown_answers host0 world_comm 0 socket1 (AjaxSuccess 204 None)
              ltac:(vm_compute; reflexivity) ltac:(vm_compute; discriminate) eq_refl Hs)
    as (_ & _ & _ & Hans).
  simpl in Hans. destruct Hans as (_ & Ht & _). exact Ht.
Defined.

(** ** Sessions *)

Lemma killSessions_loop_by_some (id : string) (snapshot : list DefaultSession.t) :
  forall running,
    killSessions_loop_by (Some id) snapshot running
      = DefaultSession.killSessions_loop id snapshot running.
Proof.
  induction snapshot as [|x rest IH]; intros running; [reflexivity|].
  simpl. unfold same_id.
  destruct (DefaultSession._id x) as [i|] eqn:Hi.
  - destruct (String.eqb_spec i id) as [->|Hne].
    + rewrite bool_decide_eq_true_2 by reflexivity. rewrite IH. reflexivity.
    + rewrite bool_decide_eq_false_2 by congruence. apply IH.
  - rewrite bool_decide_eq_false_2 by discriminate. apply IH.
Qed.

Lemma shutdownSession_by_some (parse : string -> option JSON) (id : string)
    (running : list DefaultSession.t) (response : XHR) :
  shutdownSession_by parse (Some id) running response
    = DefaultSession.shutdownSession parse id running response.
Proof.
  unfold shutdownSession_by, DefaultSession.shutdownSession, killSessions_by,
    DefaultSession.killSessions.
  rewrite killSessions_loop_by_some. reflexivity.
Qed.

Lemma removeFirstOf_keeps (l : list DefaultSession.t) (u : string) (s : DefaultSession.t) :
  s ∈ l -> DefaultSession._uuid s <> u -> s ∈ DefaultSession.removeFirstOf l u.
Proof.
  induction l as [|x l IH]; simpl; intros Hin Hne; [inversion Hin|].
  apply elem_of_cons in Hin as [->|Hin].
  - destruct (String.eqb_spec (DefaultSession._uuid x) u); [contradiction|left].
  - destruct (String.eqb (DefaultSession._uuid x) u); [exact Hin|right; auto].
Qed.

Lemma killSessions_loop_by_keeps (id : option string) (snapshot : list DefaultSession.t) :
  forall (running : list DefaultSession.t) (s : DefaultSession.t),
    s ∈ running ->
    (forall x, x ∈ snapshot -> same_id id x = true ->
       DefaultSession._uuid x <> DefaultSession._uuid s) ->
    s ∈ (killSessions_loop_by id snapshot running).1.
Proof.
  induction snapshot as [|x rest IH]; intros running s Hin Hother; [exact Hin|].
  simpl. destruct (same_id id x) eqn:Hx.
  - simpl. apply IH.
    + unfold DefaultSession.dispose. destruct (DefaultSession.isDisposed x); [exact Hin|].
      simpl. apply removeFirstOf_keeps; [exact Hin|].
      intros Heq. apply (Hother x); [left|exact Hx|auto].
    + intros y Hy. apply Hother. right. exact Hy.
  - apply IH; [exact Hin|]. intros y Hy. apply Hother. right. exact Hy.
Qed.

Lemma killSessions_loop_by_log (id : option string) (snapshot : list DefaultSession.t) :
  forall (running : list DefaultSession.t) (e : SessionEvent),
    e ∈ (killSessions_loop_by id snapshot running).2 ->
    exists x, x ∈ snapshot /\ same_id id x = true /\
              (e = Terminated (DefaultSession._uuid x) \/
               e = KernelDisposed (DefaultSession._uuid x)).
Proof.
  induction snapshot as [|x rest IH]; intros running e He; [inversion He|].
  simpl in He. destruct (same_id id x) eqn:Hx.
  - simpl in He. apply elem_of_cons in He as [->|He].
    + exists x. split; [left|]. auto.
    + apply elem_of_app in He as [He|He].
      * exists x. split; [left|]. split; [exact Hx|].
        unfold DefaultSession.dispose in He.
        destruct (DefaultSession.isDisposed x); [inversion He|]. simpl in He.
        destruct (DefaultSession._kernel x); [|inversion He].
        apply list_elem_of_singleton in He. auto.
      * destruct (IH _ e He) as (y & Hy & H1 & H2). exists y. split; [right; exact Hy|auto].
  - destruct (IH _ e He) as (y & Hy & H1 & H2). exists y. split; [right; exact Hy|auto].
Qed.

Lemma killSessions_loop_by_terminates (id : option string) (snapshot : list DefaultSession.t) :
  forall (running : list DefaultSession.t) (x : DefaultSession.t),
    x ∈ snapshot -> same_id id x = true ->
    Terminated (DefaultSession._uuid x) ∈ (killSessions_loop_by id snapshot running).2.
Proof.
  induction snapshot as [|y rest IH]; intros running x Hin Hx; [inversion Hin|].
  simpl. apply elem_of_cons in Hin as [->|Hin].
  - rewrite Hx. simpl. left.
  - destruct (same_id id y); simpl.
    + right. apply elem_of_app. right. apply IH; assumption.
    + apply IH; assumption.
Qed.

Lemma forget_id_elem (this : DefaultSession.t) (running : list DefaultSession.t)
    (x : DefaultSession.t) :
  x ∈ forget_id this running ->
  (DefaultSession._id x = None /\ DefaultSession._uuid x = DefaultSession._uuid this) \/
  (x ∈ running /\ DefaultSession._uuid x <> DefaultSession._uuid this).
Proof.
  unfold forget_id. intros Hx. apply list_elem_of_fmap in Hx as (y & -> & Hy).
  destruct (String.eqb_spec (DefaultSession._uuid y) (DefaultSession._uuid this)) as [He|Hne].
  - left. split; [reflexivity|exact He].
  - right. auto.
Qed.

Lemma forget_id_matching (this : DefaultSession.t) (running : list DefaultSession.t)
    (id : string) (x : DefaultSession.t) :
  x ∈ forget_id this running -> same_id (Some id) x = true ->
  x ∈ running /\ DefaultSession._uuid x <> DefaultSession._uuid this.
Proof.
  intros Hx Hsame. apply forget_id_elem in Hx as [[Hnone _]|Hx]; [|exact Hx].
  unfold same_id in Hsame. apply bool_decide_eq_true_1 in Hsame. congruence.
Qed.

(** shutdown() of a session that has an id sets the id of the session
    to null before it asks for the DELETE.  When the server answers
    204, the sessions that are killed are those whose id is still the
    one deleted: every other running session of that id is terminated,
    but the session that was shut down is not: no terminated signal is
    emitted on it, its kernel is not disposed, and it stays among the
    running sessions, without an id. *)
Theorem DefaultSession_shutdown_spares_itself (parse : string -> option JSON)
    (this : DefaultSession.t) (running : list DefaultSession.t) (response : XHR) (id : string) :
  this ∈ running ->
  DefaultSession._options this = true -> DefaultSession._id this = Some id ->
  status response = 204 ->
  exists res,
    DefaultSession_shutdown parse this running response = Sent res /\
    DefaultSession.outcome res = DefaultSession.Resolved /\
    without_id this ∈ DefaultSession.runningSessions res /\
    (Terminated (DefaultSession._uuid this) ∉ DefaultSession.log res) /\
    (KernelDisposed (DefaultSession._uuid this) ∉ DefaultSession.log res) /\
    (forall s, s ∈ running -> DefaultSession._uuid s <> DefaultSession._uuid this ->
       DefaultSession._id s = Some id ->
       Terminated (DefaultSession._uuid s) ∈ DefaultSession.log res).
Proof.
  intros Hin Hopt Hid H204.
  unfold DefaultSession_shutdown, DefaultSession.isDisposed. rewrite Hopt, Hid. cbn [negb].
  eexists. split; [reflexivity|].
  unfold shutdownSession_by, DefaultSession.ajaxRequest. rewrite H204.
  cbn [Nat.leb Nat.eqb negb status]. rewrite H204. cbn [Nat.eqb negb].
  cbn [DefaultSession.outcome DefaultSession.runningSessions DefaultSession.log].
  unfold killSessions_by.
  assert (Hthis : without_id this ∈ forget_id this running).
  { unfold forget_id. apply list_elem_of_fmap. exists this. split; [|exact Hin].
    rewrite String.eqb_refl. reflexivity. }
  split; [reflexivity|]. split; [|split; [|split]].
  - apply killSessions_loop_by_keeps; [exact Hthis|].
    intros x Hx Hsame. apply (forget_id_matching this running id x Hx Hsame).
  - intros He. apply killSessions_loop_by_log in He as (x & Hx & Hsame & [He|He]);
      [|discriminate].
    injection He as He. destruct (forget_id_matching this running id x Hx Hsame) as [_ Hne].
    congruence.
  - intros He. apply killSessions_loop_by_log in He as (x & Hx & Hsame & [He|He]);
      [discriminate|].
    injection He as He. destruct (forget_id_matching this running id x Hx Hsame) as [_ Hne].
    congruence.
  - intros s Hs Hne Hsid. apply killSessions_loop_by_terminates.
    + unfold forget_id. apply list_elem_of_fmap. exists s. split; [|exact Hs].
      destruct (String.eqb_spec (DefaultSession._uuid s) (DefaultSession._uuid this));
        [contradiction|reflexivity].
    + unfold same_id. apply bool_decide_eq_true_2. exact Hsid.
Qed.

Lemma DefaultSession_shutdown_spares_itself_witness :
  exists res,
    DefaultSession_shutdown parse_message session_u1 running2 (response 204 "No Content")
      = Sent res /\
    without_id session_u1 ∈ DefaultSession.runningSessions res.
Proof.
  destruct (DefaultSession_shutdown_spares_itself parse_message session_u1 running2
              (response 204 "No Content") "abc" ltac:(left) eq_refl eq_refl eq_refl)
    as (res & Hres & _ & Hin & _).
  exists res. split; [exact Hres | exact Hin].
Defined.

(** setPath compares the new path with the current one before anything
    else.  With the current path it resolves at once, emits nothing and
    sends nothing, even on a disposed session; so a second call with
    the same path never emits a second change nor sends a second PATCH.
    With another path a disposed session rejects and keeps its path; a
    session that is not disposed takes the path and emits one change of
    "path", and sends the PATCH only when it has an id. *)
Theorem setPath_once (this : DefaultSession.t) (path : string) :
  let r := DefaultSession_setPath this path in
  (DefaultSession._path this = path ->
   r = {| path_outcome := PathResolved; path_session := this; path_changed := [] |}) /\
  (DefaultSession._path this <> path -> DefaultSession._options this = false ->
   r = {| path_outcome := PathRejected (Error "Session is disposed");
          path_session := this; path_changed := [] |}) /\
  (DefaultSession._path this <> path -> DefaultSession._options this = true ->
   path_session r = with_path path this /\ path_changed r = ["path"] /\
   (path_outcome r = PathPatched path <->
    exists id, DefaultSession._id this = Some id /\ id <> "") /\
   DefaultSession_setPath (path_session r) path
     = {| path_outcome := PathResolved; path_session := path_session r; path_changed := [] |}).
Proof.
  cbv zeta. unfold DefaultSession_setPath, DefaultSession.isDisposed.
  split; [|split].
  - intros ->. rewrite String.eqb_refl. reflexivity.
  - intros Hne Hopt. destruct (String.eqb_spec (DefaultSession._path this) path); [contradiction|].
    rewrite Hopt. reflexivity.
  - intros Hne Hopt. destruct (String.eqb_spec (DefaultSession._path this) path); [contradiction|].
    rewrite Hopt. cbn [negb].
    destruct (DefaultSession._id this) as [id|].
    + destruct (String.eqb_spec id "") as [->|Hid]; simpl; rewrite String.eqb_refl.
      * repeat split; auto; try discriminate. intros (i & [= <-] & Hi). contradiction.
      * repeat split; auto. exists id. auto.
    + simpl. rewrite String.eqb_refl. repeat split; auto; try discriminate.
      intros (i & Hi & _). discriminate.
Qed.

Lemma setPath_once_witness :
  path_changed (DefaultSession_setPath
                  (path_session (DefaultSession_setPath session_u1 "b.ipynb")) "b.ipynb") = [].
Proof.
  destruct (setPath_once session_u1 "b.ipynb") as (_ & _ & Hset).
  destruct (Hset ltac:(discriminate) eq_refl) as (_ & _ & _ & Hagain).
  rewrite Hagain. reflexivity.
Defined.

(** ** utils.ts *)

Lemma charAt_hex (z : Z) :
  (0 <= z < 16)%Z ->
  exists c, charAt "0123456789abcdef" z = String c "" /\ hex_digit c.
Proof.
  intros Hz.
  assert (H : (z = 0 \/ z = 1 \/ z = 2 \/ z = 3 \/ z = 4 \/ z = 5 \/ z = 6 \/ z = 7 \/
               z = 8 \/ z = 9 \/ z = 10 \/ z = 11 \/ z = 12 \/ z = 13 \/ z = 14 \/ z = 15)%Z)
    by lia.
  unfold hex_digit.
  repeat (destruct H as [->|H]; [eexists; split; [reflexivity|simpl; tauto]|]).
  subst z. eexists. split; [reflexivity|simpl; tauto].
Qed.

Lemma floor_in_range (q : QArith_base.Q) :
  unit_interval q ->
  (0 <= Qround.Qfloor (QArith_base.Qmult q (QArith_base.inject_Z 16)) < 16)%Z.
Proof.
  intros [H0 H1]. split.
  - rewrite <- (Qround.Qfloor_Z 0). apply Qround.Qfloor_resp_le.
    change (QArith_base.inject_Z 0) with (QArith_base.Qmult (QArith_base.inject_Z 0) (QArith_base.inject_Z 16)).
    apply QArith_base.Qmult_le_compat_r; [exact H0|discriminate].
  - rewrite QArith_base.Zlt_Qlt.
    eapply QArith_base.Qle_lt_trans; [apply Qround.Qfloor_le|].
    change (QArith_base.inject_Z 16) with (QArith_base.Qmult (QArith_base.inject_Z 1) (QArith_base.inject_Z 16)) at 2.
    apply QArith_base.Qmult_lt_compat_r; [reflexivity|exact H1].
Qed.

Lemma concat_chars (P : Ascii.ascii -> Prop) (l : list string) :
  Forall (fun s => exists c, s = String c "" /\ P c) l ->
  String.length (String.concat "" l) = length l /\
  List.Forall P (String.list_ascii_of_string (String.concat "" l)).
Proof.
  induction 1 as [|s l (c & -> & Hc) Hl [IH1 IH2]]; [split; [reflexivity|constructor]|].
  destruct l as [|s2 l2].
  - simpl. split; [reflexivity|repeat constructor; exact Hc].
  - change (String.concat "" (String c "" :: s2 :: l2))
      with (String c (String.concat "" (s2 :: l2))).
    cbn [String.length String.list_ascii_of_string length]. split; [rewrite IH1; reflexivity|].
    constructor; assumption.
Qed.

(** uuid() returns 32 characters, each a hexadecimal digit, whatever
    numbers Math.random gives. *)
Theorem uuid_is_32_hex_digits (random : nat -> QArith_base.Q) :
  (forall i, unit_interval (random i)) ->
  String.length (utils_uuid random) = 32 /\
  List.Forall hex_digit (String.list_ascii_of_string (utils_uuid random)).
Proof.
  intros Hr. unfold utils_uuid. cbv zeta.
  set (digits := map _ (seq 0 32)).
  assert (Hd : Forall (fun s => exists c, s = String c "" /\ hex_digit c) digits).
  { unfold digits. apply Forall_fmap. apply Forall_forall. intros i _. simpl.
    apply charAt_hex. apply floor_in_range. apply Hr. }
  destruct (concat_chars hex_digit digits Hd) as [Hlen Hall].
  split; [|exact Hall]. rewrite Hlen. unfold digits. rewrite length_map, length_seq. reflexivity.
Qed.

Lemma uuid_is_32_hex_digits_witness :
  String.length (utils_uuid (fun _ => QArith_base.inject_Z 0)) = 32.
Proof.
  destruct (uuid_is_32_hex_digits (fun _ => QArith_base.inject_Z 0)
              ltac:(intros i; split; vm_compute; [discriminate|reflexivity])) as [Hlen _].
  exact Hlen.
Defined.

Lemma substring_all (s : string) : String.substring 0 (String.length s) s = s.
Proof. induction s as [|c s IH]; [reflexivity|]. simpl. rewrite IH. reflexivity. Qed.

Lemma append_cons (c : Ascii.ascii) (s1 s2 : string) :
  String c s1 +:+ s2 = String c (s1 +:+ s2).
Proof. reflexivity. Qed.

Lemma append_nil (s : string) : "" +:+ s = s.
Proof. reflexivity. Qed.

(** Private.getWsUrl with no websocket url configured: a base url that
    begins with "http" is turned into the websocket url of the same
    host and path, "http" becoming "ws" and so "https" becoming "wss";
    with no base url, no configuration and no location the result is
    "ws://localhost:8888/".  A configured websocket url is returned as
    it is. *)
Theorem getWsUrl_scheme (e : Env) :
  (config e "wsUrl" = "" ->
   (forall rest, utils_getWsUrl e ("http" +:+ rest) = "ws" +:+ rest) /\
   (config e "baseUrl" = "" -> location_origin e = None ->
    utils_getWsUrl e "" = "ws://localhost:8888/")) /\
  (config e "wsUrl" <> "" -> forall baseUrl, utils_getWsUrl e baseUrl = config e "wsUrl").
Proof.
  split.
  - intros Hws. split.
    + intros rest. unfold utils_getWsUrl. rewrite Hws. cbn [String.eqb negb].
      repeat rewrite append_cons. simpl. repeat rewrite append_nil.
      assert (Hp : String.prefix "" rest = true) by (destruct rest; reflexivity).
      rewrite Hp. cbn [negb]. unfold slice. simpl.
      rewrite Nat.sub_0_r, substring_all. reflexivity.
    + intros Hbase Hloc. unfold utils_getWsUrl, utils_getBaseUrl.
      rewrite Hws, Hbase, Hloc. reflexivity.
  - intros Hws baseUrl. unfold utils_getWsUrl.
    destruct (String.eqb_spec (config e "wsUrl") ""); [contradiction|reflexivity].
Qed.

Lemma getWsUrl_scheme_witness :
  utils_getWsUrl {| config := fun _ => ""; location_origin := None; urljoin := join |}
    "https://example.org/base/" = "wss://example.org/base/".
Proof.
  destruct (getWsUrl_scheme {| config := fun _ => ""; location_origin := None; urljoin := join |})
    as [Hnone _].
  destruct (Hnone eq_refl) as [Hhttp _].
  exact (Hhttp "s://example.org/base/").
Defined.
